(** * Pursuit-and-detection core of the cat-and-mouse simulation

    A shallow embedding of the JavaScript sources (Vector2D, MathUtils,
    Agent, Ligeirinho, Frajola, the three strategies, DetectionSystem,
    CollisionDetector, PhysicsEngine and the Simulation loop) together
    with the properties stated about them.

    Numbers.  A JavaScript [number] is modelled as a real number [R]:
    [Math.sqrt] is [sqrt], [Math.min]/[Math.max] are [Rmin]/[Rmax],
    [Math.cos]/[Math.sin] are [cos]/[sin].  Rounding, infinities and NaN
    are outside that model.  Comparisons that the code uses as conditions
    are the boolean functions [js_lt], [js_gt], ... below.  The
    properties of the code stated over [R] are those that do not depend
    on rounding: the outcome of a comparison between computed values,
    which branch is taken, which object is written, counters and lists.
    The methods whose result does depend on rounding
    ([Vector2D.normalize], [setMagnitude], [limit] and the updates built
    on them) are given a second time over binary64 floating-point
    numbers, in the module [Double].  Lemmas on the magnitude that a
    rescaling reaches ([magnitude_normalize], [limit_over_reals], ...)
    hold in exact arithmetic and say so; they serve the run of concrete
    values of the section on the Patrol strategy, where the target
    leaves the arena by a margin far wider than any rounding.

    Objects.  A method that mutates its receiver and returns [this] is a
    function returning the new value of the receiver.  Objects that are
    shared by reference (the target held by the chaser, the strategy
    held by the chaser) live in an explicit store and are named by a
    reference.  Logging, rendering, audio, the trail of past positions
    and the statistics collaborator are left out: they never feed back
    into the state modelled here. *)

From Stdlib Require Import Floats.
From Stdlib Require Import Reals Lra Lia List Bool ZArith.
Import ListNotations.

Local Open Scope R_scope.

(** ** Comparisons on numbers, as conditions *)

Definition js_lt (a b : R) : bool := if Rlt_dec a b then true else false.
Definition js_gt (a b : R) : bool := if Rgt_dec a b then true else false.
Definition js_le (a b : R) : bool := if Rle_dec a b then true else false.
Definition js_ge (a b : R) : bool := if Rge_dec a b then true else false.
(** [a !== b] on numbers. *)
Definition js_neq (a b : R) : bool := if Req_dec_T a b then false else true.

(** ** MathUtils.js *)

Module MathUtils.

Definition clamp (value min max : R) : R := Rmin (Rmax value min) max.

Definition lerp (start end_ t : R) : R := start + (end_ - start) * t.

Definition map (value inMin inMax outMin outMax : R) : R :=
  ((value - inMin) * (outMax - outMin)) / (inMax - inMin) + outMin.

(** The two [while] loops of [angleDifference] each add or remove a
    full turn per round; over the reals [turns d] rounds are always
    enough.  (On doubles an angle so large that removing a turn does not
    change it keeps the loop running; that is outside this model.) *)
Definition turns (d : R) : nat := Z.to_nat (up (Rabs d / (2 * PI))).

Fixpoint lower (fuel : nat) (diff : R) : R :=
  match fuel with
  | O => diff
  | S k => if js_gt diff PI then lower k (diff - PI * 2) else diff
  end.

Fixpoint raise (fuel : nat) (diff : R) : R :=
  match fuel with
  | O => diff
  | S k => if js_lt diff (- PI) then raise k (diff + PI * 2) else diff
  end.

Definition angleDifference (angle1 angle2 : R) : R :=
  let diff := angle2 - angle1 in
  let diff := lower (turns diff) diff in
  raise (turns diff) diff.

(** [normalizeAngle]: the same two loops, towards [0, 2 PI). *)
Fixpoint raise0 (fuel : nat) (angle : R) : R :=
  match fuel with
  | O => angle
  | S k => if js_lt angle 0 then raise0 k (angle + PI * 2) else angle
  end.

Fixpoint lower2 (fuel : nat) (angle : R) : R :=
  match fuel with
  | O => angle
  | S k => if js_ge angle (PI * 2) then lower2 k (angle - PI * 2) else angle
  end.

Definition normalizeAngle (angle : R) : R :=
  let angle := raise0 (turns angle) angle in
  lower2 (turns angle) angle.

Definition distance (x1 y1 x2 y2 : R) : R :=
  let dx := x2 - x1 in
  let dy := y2 - y1 in
  sqrt (dx * dx + dy * dy).

Definition distanceSquared (x1 y1 x2 y2 : R) : R :=
  let dx := x2 - x1 in
  let dy := y2 - y1 in
  dx * dx + dy * dy.

Definition pointInRect (px py rx ry rw rh : R) : bool :=
  js_ge px rx && js_le px (rx + rw) && js_ge py ry && js_le py (ry + rh).

Definition pointInCircle (px py cx cy radius : R) : bool :=
  js_le (distanceSquared px py cx cy) (radius * radius).

Definition circleCollision (x1 y1 r1 x2 y2 r2 : R) : bool :=
  let minDist := r1 + r2 in
  js_le (distanceSquared x1 y1 x2 y2) (minDist * minDist).

(** [values.reduce((sum, val) => sum + val, 0) / values.length] *)
Definition average (values : list R) : R :=
  if Nat.eqb (length values) 0 then 0
  else fold_left (fun sum val => sum + val) values 0 / INR (length values).

Definition smoothDamp (current target smoothing : R) : R :=
  lerp current target (1 - smoothing).

Definition sign (value : R) : R :=
  if js_gt value 0 then 1 else if js_lt value 0 then -1 else 0.

Definition approximately (a b epsilon : R) : bool :=
  js_lt (Rabs (a - b)) epsilon.

End MathUtils.

(** ** Vector2D.js *)

Module Vector2D.

Record t : Type := mk { x : R; y : R }.

Definition zero : t := mk 0 0.

Definition set (_ : t) (x' y' : R) : t := mk x' y'.
Definition copy (_ v : t) : t := mk (x v) (y v).
Definition clone (v : t) : t := mk (x v) (y v).

Definition add (this v : t) : t := mk (x this + x v) (y this + y v).
Definition subtract (this v : t) : t := mk (x this - x v) (y this - y v).
Definition multiply (this : t) (scalar : R) : t :=
  mk (x this * scalar) (y this * scalar).

Definition divide (this : t) (scalar : R) : t :=
  if js_neq scalar 0 then mk (x this / scalar) (y this / scalar) else this.

Definition magnitude (this : t) : R :=
  sqrt (x this * x this + y this * y this).

Definition magnitudeSquared (this : t) : R :=
  x this * x this + y this * y this.

Definition normalize (this : t) : t :=
  let mag := magnitude this in
  if js_gt mag 0 then divide this mag else this.

Definition setMagnitude (this : t) (mag : R) : t :=
  multiply (normalize this) mag.

Definition limit (this : t) (max : R) : t :=
  let magSq := magnitudeSquared this in
  if js_gt magSq (max * max) then multiply (normalize this) max else this.

Definition distanceTo (this v : t) : R :=
  let dx := x v - x this in
  let dy := y v - y this in
  sqrt (dx * dx + dy * dy).

Definition distanceSquaredTo (this v : t) : R :=
  let dx := x v - x this in
  let dy := y v - y this in
  dx * dx + dy * dy.

Definition dot (this v : t) : R := x this * x v + y this * y v.

(** [Math.atan2 y x], from the arc tangent of the library. *)
Definition atan2 (y' x' : R) : R :=
  if js_gt x' 0 then atan (y' / x')
  else if js_lt x' 0 then
         (if js_ge y' 0 then atan (y' / x') + PI else atan (y' / x') - PI)
  else if js_gt y' 0 then PI / 2
  else if js_lt y' 0 then - (PI / 2)
  else 0.

Definition angle (this : t) : R := atan2 (y this) (x this).

Definition rotate (this : t) (a : R) : t :=
  mk (x this * cos a - y this * sin a) (x this * sin a + y this * cos a).

Definition lerp (this v : t) (k : R) : t :=
  mk (x this + (x v - x this) * k) (y this + (y v - y this) * k).

Definition fromAngle (a magnitude' : R) : t :=
  mk (cos a * magnitude') (sin a * magnitude').

(** Static, non-mutating forms. *)
Definition add' (v1 v2 : t) : t := mk (x v1 + x v2) (y v1 + y v2).
Definition subtract' (v1 v2 : t) : t := mk (x v1 - x v2) (y v1 - y v2).
Definition multiply' (v : t) (scalar : R) : t :=
  mk (x v * scalar) (y v * scalar).
Definition distance (v1 v2 : t) : R := distanceTo v1 v2.

(** *** Division with an explicit fault

    The same [divide] and [normalize], written over a division that
    fails on a zero divisor, so that "no division by zero" can be
    stated: the checked operation returns [Some]. *)

Definition div_chk (a b : R) : option R :=
  if Req_dec_T b 0 then None else Some (a / b).

Definition divide_chk (this : t) (scalar : R) : option t :=
  if js_neq scalar 0 then
    match div_chk (x this) scalar, div_chk (y this) scalar with
    | Some a, Some b => Some (mk a b)
    | _, _ => None
    end
  else Some this.

Definition normalize_chk (this : t) : option t :=
  let mag := magnitude this in
  if js_gt mag 0 then divide_chk this mag else Some this.

End Vector2D.

(** ** config.js: the named scalars the core reads *)

Module CONFIG.
Definition canvas_width : R := 1400.
Definition canvas_height : R := 900.
Definition target_size : R := 80.
Definition target_defaultSpeed : R := 8.
Definition chaser_size : R := 150.
Definition chaser_defaultSpeed : R := 9.
Definition chaser_detectionRadius : R := 300.
Definition chaser_startX : R := 700.
Definition chaser_startY : R := 450.
Definition detection_baseSensitivity : R := 9 / 10.
Definition detection_minSensitivity : R := 3 / 10.
Definition detection_maxSensitivity : R := 15 / 10.
Definition physics_captureDistance : R := 60.
Definition physics_boundaryMargin : R := 100.
Definition physics_friction : R := 98 / 100.
Definition simulation_defaultFPS : R := 60.
Definition predictive_lookahead : R := 10.
Definition patrol_patrolSpeed : R := 5 / 10.
Definition patrol_patrolRadius : R := 100.
Definition patrol_patrolAngularSpeed : R := 5 / 100.
End CONFIG.

(** ** Agent.js *)

Module Agent.

Record t : Type := mk {
  position : Vector2D.t;
  velocity : Vector2D.t;
  acceleration : Vector2D.t;
  size : R;
  mass : R;
  maxSpeed : R;
  maxForce : R;
  active : bool
}.

(** The [options] object of the constructor; an absent key is [None]. *)
Record options : Type := mkOptions {
  opt_size : option R;
  opt_mass : option R;
  opt_maxSpeed : option R;
  opt_maxForce : option R
}.

(** [o || d] on a number that may be absent: absent and 0 are falsy. *)
Definition or_default (o : option R) (d : R) : R :=
  match o with
  | Some v => if js_neq v 0 then v else d
  | None => d
  end.

Definition constructor (x y : R) (o : options) : t :=
  mk (Vector2D.mk x y) (Vector2D.mk 0 0) (Vector2D.mk 0 0)
     (or_default (opt_size o) 20)
     (or_default (opt_mass o) 1)
     (or_default (opt_maxSpeed o) 10)
     (or_default (opt_maxForce o) (5 / 10))
     true.

Definition with_position (a : t) (p : Vector2D.t) : t :=
  mk p (velocity a) (acceleration a) (size a) (mass a) (maxSpeed a)
     (maxForce a) (active a).
Definition with_velocity (a : t) (v : Vector2D.t) : t :=
  mk (position a) v (acceleration a) (size a) (mass a) (maxSpeed a)
     (maxForce a) (active a).
Definition with_acceleration (a : t) (c : Vector2D.t) : t :=
  mk (position a) (velocity a) c (size a) (mass a) (maxSpeed a)
     (maxForce a) (active a).
Definition with_maxSpeed (a : t) (s : R) : t :=
  mk (position a) (velocity a) (acceleration a) (size a) (mass a) s
     (maxForce a) (active a).
Definition with_active (a : t) (b : bool) : t :=
  mk (position a) (velocity a) (acceleration a) (size a) (mass a)
     (maxSpeed a) (maxForce a) b.

Definition update (this : t) (deltaTime : R) : t :=
  if negb (active this) then this
  else
    let this := with_velocity this
                  (Vector2D.add (velocity this) (acceleration this)) in
    let this := with_velocity this
                  (Vector2D.limit (velocity this) (maxSpeed this)) in
    let this := with_position this
                  (Vector2D.add (position this)
                     (Vector2D.multiply' (velocity this) deltaTime)) in
    with_acceleration this (Vector2D.multiply (acceleration this) 0).

Definition applyForce (this : t) (force : Vector2D.t) : t :=
  let f := Vector2D.multiply' force (1 / mass this) in
  with_acceleration this (Vector2D.add (acceleration this) f).

Definition setPosition (this : t) (x y : R) : t :=
  with_position this (Vector2D.set (position this) x y).

Definition setVelocity (this : t) (vx vy : R) : t :=
  with_velocity this (Vector2D.set (velocity this) vx vy).

Definition distanceTo (this other : t) : R :=
  Vector2D.distanceTo (position this) (position other).

Definition distanceSquaredTo (this other : t) : R :=
  Vector2D.distanceSquaredTo (position this) (position other).

Definition isCollidingWith (this other : t) : bool :=
  let minDist := (size this + size other) / 2 in
  js_lt (distanceTo this other) minDist.

Definition isWithinBounds (this : t) (minX minY maxX maxY : R) : bool :=
  js_ge (Vector2D.x (position this)) minX &&
  js_le (Vector2D.x (position this)) maxX &&
  js_ge (Vector2D.y (position this)) minY &&
  js_le (Vector2D.y (position this)) maxY.

End Agent.

(** ** Ligeirinho.js: the target *)

Module Ligeirinho.

Inductive Edge : Type := top | right | bottom | left.

Record t : Type := mk {
  base : Agent.t;
  spawnEdge : option Edge;
  escapeAttempts : nat
}.

Definition with_base (l : t) (a : Agent.t) : t :=
  mk a (spawnEdge l) (escapeAttempts l).

Definition constructor (x y speed : R) : t :=
  mk (Agent.constructor x y
        (Agent.mkOptions (Some CONFIG.target_size) None (Some speed) None))
     None 0.

(** [r_edge], [r_pos] and [r_dir] are the three values that
    [Math.random()] returns, in the order the method draws them. *)
Definition spawnAtRandomEdge (this : t) (canvasWidth canvasHeight : R)
           (r_edge r_pos r_dir : R) : t :=
  let edge := Int_part (r_edge * 4) in
  let spawn :=
    if Z.ltb edge 0 then None
    else nth_error [top; right; bottom; left] (Z.to_nat edge) in
  let '(x, y, vx, vy) :=
    match edge with
    | 0%Z => (r_pos * canvasWidth, 0, (r_dir - 5 / 10) * 2, 1)
    | 1%Z => (canvasWidth, r_pos * canvasHeight, -1, (r_dir - 5 / 10) * 2)
    | 2%Z => (r_pos * canvasWidth, canvasHeight, (r_dir - 5 / 10) * 2, -1)
    | _ => (0, r_pos * canvasHeight, 1, (r_dir - 5 / 10) * 2)
    end in
  let velocity :=
    Vector2D.multiply (Vector2D.normalize (Vector2D.mk vx vy))
                      (Agent.maxSpeed (base this)) in
  let a := Agent.setPosition (base this) x y in
  let a := Agent.setVelocity a (Vector2D.x velocity) (Vector2D.y velocity) in
  mk a spawn (escapeAttempts this).

Definition update (this : t) (deltaTime : R) : t :=
  let a := Agent.update (base this) deltaTime in
  with_base this
    (Agent.with_velocity a
       (Vector2D.setMagnitude (Agent.velocity a) (Agent.maxSpeed a))).

Definition hasEscaped (this : t) (canvasWidth canvasHeight margin : R)
  : bool * t :=
  let p := Agent.position (base this) in
  let escaped :=
    js_lt (Vector2D.x p) (- margin) ||
    js_gt (Vector2D.x p) (canvasWidth + margin) ||
    js_lt (Vector2D.y p) (- margin) ||
    js_gt (Vector2D.y p) (canvasHeight + margin) in
  if escaped
  then (escaped, mk (base this) (spawnEdge this) (S (escapeAttempts this)))
  else (escaped, this).

Definition evade (this : t) (chaser : Agent.t) (intensity : R) : t :=
  let desired :=
    Vector2D.subtract' (Agent.position (base this)) (Agent.position chaser) in
  let desired :=
    Vector2D.multiply (Vector2D.normalize desired)
                      (Agent.maxSpeed (base this)) in
  let evadeForce :=
    Vector2D.subtract' desired (Agent.velocity (base this)) in
  let evadeForce := Vector2D.multiply evadeForce intensity in
  with_base this (Agent.applyForce (base this) evadeForce).

Definition reset (this : t) : t :=
  mk (Agent.with_active (base this) true) (spawnEdge this) 0.

(** [r_chance] and [r_angle] are the two draws of [Math.random()]; the
    second is made only when the first is below [chance]. *)
Definition erraticBehavior (this : t) (chance maxAngle : R)
           (r_chance r_angle : R) : t :=
  if js_lt r_chance chance then
    let angle := (r_angle - 5 / 10) * maxAngle in
    with_base this
      (Agent.with_velocity (base this)
         (Vector2D.rotate (Agent.velocity (base this)) angle))
  else this.

End Ligeirinho.

(** ** The same methods on IEEE doubles

    A JavaScript [number] is a binary64 floating-point value.  Here the
    vector methods and the two [update] methods are written again over
    the primitive binary64 floats, operation for operation: [+], [*],
    [/] and [Math.sqrt] round to nearest, ties to even; a comparison
    with NaN is false; [0] and [-0] compare equal. *)

Module Double.

Local Open Scope float_scope.

Definition Edge : Type := Ligeirinho.Edge.

Module Vector2D.

Record t : Type := mk { x : float; y : float }.

Definition add (this v : t) : t := mk (x this + x v) (y this + y v).
Definition multiply (this : t) (scalar : float) : t :=
  mk (x this * scalar) (y this * scalar).

Definition divide (this : t) (scalar : float) : t :=
  if negb (scalar =? 0) then mk (x this / scalar) (y this / scalar) else this.

Definition magnitude (this : t) : float :=
  PrimFloat.sqrt (x this * x this + y this * y this).

Definition magnitudeSquared (this : t) : float :=
  x this * x this + y this * y this.

Definition normalize (this : t) : t :=
  let mag := magnitude this in
  if 0 <? mag then divide this mag else this.

Definition setMagnitude (this : t) (mag : float) : t :=
  multiply (normalize this) mag.

Definition limit (this : t) (max : float) : t :=
  let magSq := magnitudeSquared this in
  if max * max <? magSq then multiply (normalize this) max else this.

(** Static, non-mutating form. *)
Definition multiply' (v : t) (scalar : float) : t :=
  mk (x v * scalar) (y v * scalar).

End Vector2D.

Module Agent.

Record t : Type := mk {
  position : Vector2D.t;
  velocity : Vector2D.t;
  acceleration : Vector2D.t;
  size : float;
  mass : float;
  maxSpeed : float;
  maxForce : float;
  active : bool
}.

Definition with_position (a : t) (p : Vector2D.t) : t :=
  mk p (velocity a) (acceleration a) (size a) (mass a) (maxSpeed a)
     (maxForce a) (active a).
Definition with_velocity (a : t) (v : Vector2D.t) : t :=
  mk (position a) v (acceleration a) (size a) (mass a) (maxSpeed a)
     (maxForce a) (active a).
Definition with_acceleration (a : t) (c : Vector2D.t) : t :=
  mk (position a) (velocity a) c (size a) (mass a) (maxSpeed a)
     (maxForce a) (active a).

Definition update (this : t) (deltaTime : float) : t :=
  if negb (active this) then this
  else
    let this := with_velocity this
                  (Vector2D.add (velocity this) (acceleration this)) in
    let this := with_velocity this
                  (Vector2D.limit (velocity this) (maxSpeed this)) in
    let this := with_position this
                  (Vector2D.add (position this)
                     (Vector2D.multiply' (velocity this) deltaTime)) in
    with_acceleration this (Vector2D.multiply (acceleration this) 0).

End Agent.

Module Ligeirinho.

Record t : Type := mk {
  base : Agent.t;
  spawnEdge : option Edge;
  escapeAttempts : nat
}.

Definition with_base (l : t) (a : Agent.t) : t :=
  mk a (spawnEdge l) (escapeAttempts l).

Definition update (this : t) (deltaTime : float) : t :=
  let a := Agent.update (base this) deltaTime in
  with_base this
    (Agent.with_velocity a
       (Vector2D.setMagnitude (Agent.velocity a) (Agent.maxSpeed a))).

End Ligeirinho.

End Double.

(** ** The store of target objects

    The chaser keeps a reference to the target object, and the
    simulation keeps a reference to the same object. *)

Definition ref : Type := nat.
Definition Heap : Type := ref -> Ligeirinho.t.

Definition heap_set (h : Heap) (r : ref) (l : Ligeirinho.t) : Heap :=
  fun r' => if Nat.eqb r' r then l else h r'.

(** [this.target]: [None] is [null]. *)
Definition deref (h : Heap) (o : option ref) : option Ligeirinho.t :=
  match o with
  | Some r => Some (h r)
  | None => None
  end.

(** The keys of the simulation's table of strategy objects; the chaser's
    [strategy] field refers to one of them. *)
Inductive StrategyName : Type := direct | predictive | patrol.

(** ** Frajola.js: the chaser (its [update] follows the systems below) *)

Module Frajola.

Record t : Type := mk {
  base : Agent.t;
  detectionRadius : R;
  target : option ref;
  targetDetected : bool;
  captureCount : nat;
  totalPursuitTime : R;
  currentPursuitTime : R;
  strategy : option StrategyName
}.

Definition with_base (f : t) (a : Agent.t) : t :=
  mk a (detectionRadius f) (target f) (targetDetected f) (captureCount f)
     (totalPursuitTime f) (currentPursuitTime f) (strategy f).
Definition with_targetDetected (f : t) (b : bool) : t :=
  mk (base f) (detectionRadius f) (target f) b (captureCount f)
     (totalPursuitTime f) (currentPursuitTime f) (strategy f).
Definition with_currentPursuitTime (f : t) (c : R) : t :=
  mk (base f) (detectionRadius f) (target f) (targetDetected f)
     (captureCount f) (totalPursuitTime f) c (strategy f).

Definition constructor (x y speed : R) : t :=
  mk (Agent.constructor x y
        (Agent.mkOptions (Some CONFIG.chaser_size) None (Some speed) None))
     CONFIG.chaser_detectionRadius None false 0 0 0 None.

Definition setStrategy (this : t) (s : StrategyName) : t :=
  mk (base this) (detectionRadius this) (target this) (targetDetected this)
     (captureCount this) (totalPursuitTime this) (currentPursuitTime this)
     (Some s).

Definition setTarget (this : t) (r : ref) : t :=
  mk (base this) (detectionRadius this) (Some r) (targetDetected this)
     (captureCount this) (totalPursuitTime this) (currentPursuitTime this)
     (strategy this).

Definition attemptCapture (this : t) (h : Heap) (captureDistance : R)
  : bool * t :=
  match deref h (target this) with
  | None => (false, this)
  | Some tg =>
      if negb (targetDetected this) then (false, this)
      else
        let distance := Agent.distanceTo (base this) (Ligeirinho.base tg) in
        if js_lt distance captureDistance then
          (true,
           mk (base this) (detectionRadius this) (target this)
              (targetDetected this) (S (captureCount this))
              (totalPursuitTime this + currentPursuitTime this) 0
              (strategy this))
        else (false, this)
  end.

Definition seekTarget (this : t) (h : Heap) : Vector2D.t :=
  match deref h (target this) with
  | None => Vector2D.mk 0 0
  | Some tg =>
      let desired :=
        Vector2D.subtract' (Agent.position (Ligeirinho.base tg))
                           (Agent.position (base this)) in
      let desired :=
        Vector2D.multiply (Vector2D.normalize desired)
                          (Agent.maxSpeed (base this)) in
      let steer := Vector2D.subtract' desired (Agent.velocity (base this)) in
      Vector2D.limit steer (Agent.maxForce (base this))
  end.

Definition reset (this : t) : t :=
  let a := base this in
  let a := Agent.with_position a
             (Vector2D.set (Agent.position a)
                CONFIG.chaser_startX CONFIG.chaser_startY) in
  let a := Agent.with_velocity a (Vector2D.set (Agent.velocity a) 0 0) in
  let a := Agent.with_acceleration a
             (Vector2D.set (Agent.acceleration a) 0 0) in
  mk a (detectionRadius this) (target this) false (captureCount this)
     (totalPursuitTime this) 0 (strategy this).

Definition predictAndIntercept (this : t) (h : Heap) (lookahead : R)
  : Vector2D.t :=
  match deref h (target this) with
  | None => Vector2D.mk 0 0
  | Some tg =>
      let futurePos :=
        Vector2D.add' (Agent.position (Ligeirinho.base tg))
          (Vector2D.multiply' (Agent.velocity (Ligeirinho.base tg))
                              lookahead) in
      let desired :=
        Vector2D.subtract' futurePos (Agent.position (base this)) in
      let desired :=
        Vector2D.multiply (Vector2D.normalize desired)
                          (Agent.maxSpeed (base this)) in
      let steer := Vector2D.subtract' desired (Agent.velocity (base this)) in
      Vector2D.limit steer (Agent.maxForce (base this))
  end.

Definition resetStats (this : t) : t :=
  mk (base this) (detectionRadius this) (target this) (targetDetected this)
     0 0 0 (strategy this).

End Frajola.

(** ** Strategy.js: the steering library and the strategy interface *)

Module Strategy.

Definition seek (currentPos currentVel targetPos : Vector2D.t)
           (maxSpeed maxForce : R) : Vector2D.t :=
  let desired := Vector2D.subtract' targetPos currentPos in
  let desired := Vector2D.multiply (Vector2D.normalize desired) maxSpeed in
  let steer := Vector2D.subtract' desired currentVel in
  Vector2D.limit steer maxForce.

Definition flee (currentPos currentVel threatPos : Vector2D.t)
           (maxSpeed maxForce : R) : Vector2D.t :=
  let desired := Vector2D.subtract' currentPos threatPos in
  let desired := Vector2D.multiply (Vector2D.normalize desired) maxSpeed in
  let steer := Vector2D.subtract' desired currentVel in
  Vector2D.limit steer maxForce.

Definition arrive (currentPos currentVel targetPos : Vector2D.t)
           (maxSpeed maxForce slowingRadius : R) : Vector2D.t :=
  let desired := Vector2D.subtract' targetPos currentPos in
  let distance := Vector2D.magnitude desired in
  let desired := Vector2D.normalize desired in
  let desired :=
    if js_lt distance slowingRadius then
      let speed := MathUtils.map distance 0 slowingRadius 0 maxSpeed in
      Vector2D.multiply desired speed
    else Vector2D.multiply desired maxSpeed in
  let steer := Vector2D.subtract' desired currentVel in
  Vector2D.limit steer maxForce.

Definition pursuit (chaserPos chaserVel targetPos targetVel : Vector2D.t)
           (maxSpeed maxForce lookahead : R) : Vector2D.t :=
  let futurePos :=
    Vector2D.add' targetPos (Vector2D.multiply' targetVel lookahead) in
  seek chaserPos chaserVel futurePos maxSpeed maxForce.

Definition evade (evaderPos evaderVel pursuerPos pursuerVel : Vector2D.t)
           (maxSpeed maxForce lookahead : R) : Vector2D.t :=
  let futurePos :=
    Vector2D.add' pursuerPos (Vector2D.multiply' pursuerVel lookahead) in
  flee evaderPos evaderVel futurePos maxSpeed maxForce.

(** [rnd] is the value drawn from [Math.random()]. *)
Definition wander (currentVel : Vector2D.t)
           (wanderAngle maxSpeed wanderDistance wanderRadius angleChange : R)
           (rnd : R) : Vector2D.t * R :=
  let circleCenter :=
    Vector2D.multiply (Vector2D.normalize (Vector2D.clone currentVel))
                      wanderDistance in
  let displacement := Vector2D.fromAngle wanderAngle wanderRadius in
  let wanderForce := Vector2D.add' circleCenter displacement in
  let wanderForce := Vector2D.setMagnitude wanderForce maxSpeed in
  let newAngle := wanderAngle + (rnd - 5 / 10) * angleChange in
  (wanderForce, newAngle).

(** The capability every strategy offers: [calculate] returns the
    steering force and the strategy object as the call leaves it. *)
Class Interface (S : Type) : Type := {
  calculate : S -> Frajola.t -> option Ligeirinho.t -> bool
              -> Vector2D.t * S;
  is_active : S -> bool;
  activate : S -> S;
  deactivate : S -> S
}.

End Strategy.

(** ** DirectStrategy.js *)

Module DirectStrategy.

Record t : Type := mk { active : bool }.

Definition constructor : t := mk true.

Definition calculate (this : t) (chaser : Frajola.t)
           (target : option Ligeirinho.t) (targetDetected : bool)
  : Vector2D.t :=
  if negb (active this) then Vector2D.mk 0 0
  else
    match target with
    | None => Vector2D.mk 0 0
    | Some tg =>
        Strategy.seek
          (Agent.position (Frajola.base chaser))
          (Agent.velocity (Frajola.base chaser))
          (Agent.position (Ligeirinho.base tg))
          (Agent.maxSpeed (Frajola.base chaser))
          (Agent.maxForce (Frajola.base chaser))
  end.

End DirectStrategy.

(** ** PredictiveStrategy.js *)

Module PredictiveStrategy.

Record t : Type := mk {
  active : bool;
  lookahead : R;
  adaptiveLookahead : bool
}.

Definition constructor : t := mk true CONFIG.predictive_lookahead true.

Definition calculateAdaptiveLookahead (distance : R) : R :=
  let minLookahead := 3 in
  let maxLookahead := 20 in
  let minDistance := 0 in
  let maxDistance := 400 in
  MathUtils.map (MathUtils.clamp distance minDistance maxDistance)
                minDistance maxDistance minLookahead maxLookahead.

Definition predictFuturePosition (target : Ligeirinho.t) (lookahead : R)
  : Vector2D.t :=
  let prediction :=
    Vector2D.add' (Agent.position (Ligeirinho.base target))
      (Vector2D.multiply' (Agent.velocity (Ligeirinho.base target))
                          lookahead) in
  Vector2D.mk
    (MathUtils.clamp (Vector2D.x prediction) 0 CONFIG.canvas_width)
    (MathUtils.clamp (Vector2D.y prediction) 0 CONFIG.canvas_height).

Definition calculate (this : t) (chaser : Frajola.t)
           (target : option Ligeirinho.t) (targetDetected : bool)
  : Vector2D.t :=
  if negb (active this) then Vector2D.mk 0 0
  else
    match target with
    | None => Vector2D.mk 0 0
    | Some tg =>
        let distance :=
          Agent.distanceTo (Frajola.base chaser) (Ligeirinho.base tg) in
        let effectiveLookahead :=
          if adaptiveLookahead this
          then calculateAdaptiveLookahead distance
          else lookahead this in
        let targetPos :=
          if targetDetected
          then predictFuturePosition tg effectiveLookahead
          else Agent.position (Ligeirinho.base tg) in
        Strategy.seek
          (Agent.position (Frajola.base chaser))
          (Agent.velocity (Frajola.base chaser))
          targetPos
          (Agent.maxSpeed (Frajola.base chaser))
          (Agent.maxForce (Frajola.base chaser))
  end.

Definition setAdaptiveLookahead (this : t) (adaptive : bool) : t :=
  mk (active this) (lookahead this) adaptive.

Definition setLookahead (this : t) (l : R) : t :=
  mk (active this) (MathUtils.clamp l 1 50) (adaptiveLookahead this).

End PredictiveStrategy.

(** ** PatrolStrategy.js *)

Module PatrolStrategy.

(** The [state] field holds the string 'patrol' or 'pursue'. *)
Inductive State : Type := st_patrol | st_pursue.

Definition is_pursue (s : State) : bool :=
  match s with st_pursue => true | st_patrol => false end.

Record t : Type := mk {
  active : bool;
  patrolSpeed : R;
  patrolRadius : R;
  angularSpeed : R;
  state : State;
  patrolTime : R;
  centerX : R;
  centerY : R
}.

Definition constructor : t :=
  mk true CONFIG.patrol_patrolSpeed CONFIG.patrol_patrolRadius
     CONFIG.patrol_patrolAngularSpeed st_patrol 0
     (CONFIG.canvas_width / 2) (CONFIG.canvas_height / 2).

Definition with_state (p : t) (s : State) : t :=
  mk (active p) (patrolSpeed p) (patrolRadius p) (angularSpeed p) s
     (patrolTime p) (centerX p) (centerY p).
Definition with_patrolTime (p : t) (k : R) : t :=
  mk (active p) (patrolSpeed p) (patrolRadius p) (angularSpeed p) (state p)
     k (centerX p) (centerY p).
Definition with_active (p : t) (b : bool) : t :=
  mk b (patrolSpeed p) (patrolRadius p) (angularSpeed p) (state p)
     (patrolTime p) (centerX p) (centerY p).

Definition updateState (this : t) (targetDetected : bool) : t :=
  if targetDetected then with_state this st_pursue
  else with_state this st_patrol.

Definition patrolBehavior (this : t) (chaser : Frajola.t) : Vector2D.t :=
  let angle := patrolTime this * angularSpeed this in
  let targetX := centerX this + cos angle * patrolRadius this in
  let targetY := centerY this + sin angle * patrolRadius this in
  let targetPos := Vector2D.mk targetX targetY in
  let desired :=
    Vector2D.subtract' targetPos (Agent.position (Frajola.base chaser)) in
  let desired :=
    Vector2D.multiply (Vector2D.normalize desired)
      (Agent.maxSpeed (Frajola.base chaser) * patrolSpeed this) in
  let steering :=
    Vector2D.subtract' desired (Agent.velocity (Frajola.base chaser)) in
  Vector2D.limit steering (Agent.maxForce (Frajola.base chaser)).

Definition pursueBehavior (chaser : Frajola.t) (target : Ligeirinho.t)
  : Vector2D.t :=
  Strategy.seek
    (Agent.position (Frajola.base chaser))
    (Agent.velocity (Frajola.base chaser))
    (Agent.position (Ligeirinho.base target))
    (Agent.maxSpeed (Frajola.base chaser))
    (Agent.maxForce (Frajola.base chaser)).

Definition calculate (this : t) (chaser : Frajola.t)
           (target : option Ligeirinho.t) (targetDetected : bool)
  : Vector2D.t * t :=
  if negb (active this) then (Vector2D.mk 0 0, this)
  else
    let this := updateState this targetDetected in
    (* [target && (this.state === 'pursue' || targetDetected)] *)
    let pursued :=
      match target with
      | Some tg =>
          if is_pursue (state this) || targetDetected then Some tg else None
      | None => None
      end in
    match pursued with
    | Some tg => (pursueBehavior chaser tg, this)
    | None =>
        let steering := patrolBehavior this chaser in
        (steering, with_patrolTime this (patrolTime this + 1))
    end.

Definition setPatrolCenter (this : t) (x y : R) : t :=
  mk (active this) (patrolSpeed this) (patrolRadius this)
     (angularSpeed this) (state this) (patrolTime this) x y.

Definition setPatrolRadius (this : t) (radius : R) : t :=
  mk (active this) (patrolSpeed this) (MathUtils.clamp radius 50 300)
     (angularSpeed this) (state this) (patrolTime this)
     (centerX this) (centerY this).

Definition setPatrolSpeed (this : t) (speed : R) : t :=
  mk (active this) (MathUtils.clamp speed (1 / 10) 1) (patrolRadius this)
     (angularSpeed this) (state this) (patrolTime this)
     (centerX this) (centerY this).

Definition setAngularSpeed (this : t) (a : R) : t :=
  mk (active this) (patrolSpeed this) (patrolRadius this)
     (MathUtils.clamp a (1 / 100) (2 / 10)) (state this) (patrolTime this)
     (centerX this) (centerY this).

Definition resetPatrolTime (this : t) : t := with_patrolTime this 0.

End PatrolStrategy.

(** The three strategies as instances of the interface. *)

#[export] Instance DirectStrategy_Interface
  : Strategy.Interface DirectStrategy.t :=
  {| Strategy.calculate := fun s c tg d =>
                             (DirectStrategy.calculate s c tg d, s);
     Strategy.is_active := DirectStrategy.active;
     Strategy.activate := fun _ => DirectStrategy.mk true;
     Strategy.deactivate := fun _ => DirectStrategy.mk false |}.

#[export] Instance PredictiveStrategy_Interface
  : Strategy.Interface PredictiveStrategy.t :=
  {| Strategy.calculate := fun s c tg d =>
                             (PredictiveStrategy.calculate s c tg d, s);
     Strategy.is_active := PredictiveStrategy.active;
     Strategy.activate := fun s =>
       PredictiveStrategy.mk true (PredictiveStrategy.lookahead s)
                             (PredictiveStrategy.adaptiveLookahead s);
     Strategy.deactivate := fun s =>
       PredictiveStrategy.mk false (PredictiveStrategy.lookahead s)
                             (PredictiveStrategy.adaptiveLookahead s) |}.

#[export] Instance PatrolStrategy_Interface
  : Strategy.Interface PatrolStrategy.t :=
  {| Strategy.calculate := PatrolStrategy.calculate;
     Strategy.is_active := PatrolStrategy.active;
     Strategy.activate := fun s => PatrolStrategy.with_active s true;
     Strategy.deactivate := fun s => PatrolStrategy.with_active s false |}.

(** The simulation's table [this.strategies]: one object per key, created
    once and shared by every attempt. *)
Record Strategies : Type := mkStrategies {
  s_direct : DirectStrategy.t;
  s_predictive : PredictiveStrategy.t;
  s_patrol : PatrolStrategy.t
}.

(** [strategy.calculate(...)] through a reference into the table. *)
Definition calculate_at (ss : Strategies) (n : StrategyName)
           (chaser : Frajola.t) (target : option Ligeirinho.t)
           (targetDetected : bool) : Vector2D.t * Strategies :=
  match n with
  | direct =>
      let '(f, s) := Strategy.calculate (s_direct ss) chaser target
                                        targetDetected in
      (f, mkStrategies s (s_predictive ss) (s_patrol ss))
  | predictive =>
      let '(f, s) := Strategy.calculate (s_predictive ss) chaser target
                                        targetDetected in
      (f, mkStrategies (s_direct ss) s (s_patrol ss))
  | patrol =>
      let '(f, s) := Strategy.calculate (s_patrol ss) chaser target
                                        targetDetected in
      (f, mkStrategies (s_direct ss) (s_predictive ss) s)
  end.

(** ** DetectionSystem.js *)

Module DetectionSystem.

(** [setDetectionMethod] admits these three strings only. *)
Inductive Method : Type := radius | cone | raycast.

Record t : Type := mk {
  sensitivity : R;
  detectionMethod : Method;
  detectionHistory : list bool;
  maxHistoryLength : nat
}.

Definition constructor : t :=
  mk CONFIG.detection_baseSensitivity radius [] 60.

Definition radiusDetection (this : t) (chaser : Frajola.t)
           (target : Ligeirinho.t) : bool :=
  let distance :=
    Agent.distanceTo (Frajola.base chaser) (Ligeirinho.base target) in
  let effectiveRadius := Frajola.detectionRadius chaser * sensitivity this in
  js_le distance effectiveRadius.

Definition coneDetection (this : t) (chaser : Frajola.t)
           (target : Ligeirinho.t) (coneAngle : R) : bool :=
  if negb (radiusDetection this chaser target) then false
  else
    let chaserDirection :=
      Vector2D.angle (Agent.velocity (Frajola.base chaser)) in
    let toTarget :=
      Vector2D.subtract' (Agent.position (Ligeirinho.base target))
                         (Agent.position (Frajola.base chaser)) in
    let targetDirection := Vector2D.angle toTarget in
    let angleDiff :=
      Rabs (MathUtils.angleDifference chaserDirection targetDirection) in
    js_le angleDiff (coneAngle / 2).

Definition raycastDetection (this : t) (chaser : Frajola.t)
           (target : Ligeirinho.t) : bool :=
  if negb (radiusDetection this chaser target) then false else true.

Definition updateDetectionHistory (this : t) (detected : bool) : t :=
  let hist := detectionHistory this ++ [detected] in
  let hist :=
    if Nat.ltb (maxHistoryLength this) (length hist) then tl hist
    else hist in
  mk (sensitivity this) (detectionMethod this) hist (maxHistoryLength this).

Definition detect (this : t) (chaser : option Frajola.t)
           (target : option Ligeirinho.t) : bool * t :=
  match chaser, target with
  | Some c, Some tg =>
      if negb (Agent.active (Ligeirinho.base tg)) then (false, this)
      else
        let detected :=
          match detectionMethod this with
          | radius => radiusDetection this c tg
          | cone => coneDetection this c tg (PI * 2 / 3)
          | raycast => raycastDetection this c tg
          end in
        (detected, updateDetectionHistory this detected)
  | _, _ => (false, this)
  end.

Definition setSensitivity (this : t) (s : R) : t :=
  mk (MathUtils.clamp s CONFIG.detection_minSensitivity
                      CONFIG.detection_maxSensitivity)
     (detectionMethod this) (detectionHistory this) (maxHistoryLength this).

Definition setDetectionMethod (this : t) (m : Method) : t :=
  mk (sensitivity this) m (detectionHistory this) (maxHistoryLength this).

Definition reset (this : t) : t :=
  mk (sensitivity this) (detectionMethod this) [] (maxHistoryLength this).

(** [this.detectionHistory.slice(-frames)] for a whole number of
    frames: the last [frames] entries, and all of them when [frames] is
    0, since [slice(-0)] is [slice(0)]. *)
Definition recent (hist : list bool) (frames : nat) : list bool :=
  match frames with
  | O => hist
  | _ => skipn (length hist - frames) hist
  end.

Definition getRecentDetectionRate (this : t) (frames : nat) : R :=
  let recentHistory := recent (detectionHistory this) frames in
  if Nat.eqb (length recentHistory) 0 then 0
  else
    let detections := length (filter (fun d : bool => d) recentHistory) in
    INR detections / INR (length recentHistory).

Definition getEffectiveDetectionRange (this : t) (chaser : Frajola.t) : R :=
  Frajola.detectionRadius chaser * sensitivity this.

End DetectionSystem.

(** ** CollisionDetector.js *)

Module CollisionDetector.

Inductive Kind : Type := capture | circle | aabb.

(** One entry of [collisionHistory] (time stamp and agent ids left out). *)
Record Collision : Type := mkCollision {
  kind : Kind;
  distance : option R;
  position : Vector2D.t
}.

Record t : Type := mk {
  captureDistance : R;
  collisionHistory : list Collision;
  maxHistoryLength : nat
}.

Definition constructor : t := mk CONFIG.physics_captureDistance [] 100.

Definition recordCollision (this : t) (k : Kind) (agent1 agent2 : Agent.t)
           (d : option R) : t :=
  let collision :=
    mkCollision k d (Vector2D.clone (Agent.position agent1)) in
  let hist := collisionHistory this ++ [collision] in
  let hist :=
    if Nat.ltb (maxHistoryLength this) (length hist) then tl hist
    else hist in
  mk (captureDistance this) hist (maxHistoryLength this).

Definition checkCapture (this : t) (chaser : option Frajola.t)
           (target : option Ligeirinho.t) : bool * t :=
  match chaser, target with
  | Some c, Some tg =>
      if negb (Agent.active (Ligeirinho.base tg)) then (false, this)
      else
        let distance :=
          Agent.distanceTo (Frajola.base c) (Ligeirinho.base tg) in
        let captured := js_lt distance (captureDistance this) in
        if captured
        then (captured,
              recordCollision this capture (Frajola.base c)
                              (Ligeirinho.base tg) (Some distance))
        else (captured, this)
  | _, _ => (false, this)
  end.

Definition checkProximity (agent1 agent2 : option Agent.t) (threshold : R)
  : bool :=
  match agent1, agent2 with
  | Some a1, Some a2 =>
      if negb (Agent.active a1) || negb (Agent.active a2) then false
      else js_lt (Agent.distanceTo a1 a2) threshold
  | _, _ => false
  end.

Definition setCaptureDistance (this : t) (d : R) : t :=
  mk (MathUtils.clamp d 10 100) (collisionHistory this)
     (maxHistoryLength this).

Definition reset (this : t) : t :=
  mk (captureDistance this) [] (maxHistoryLength this).

Definition checkCircleCollision (this : t) (agent1 agent2 : option Agent.t)
  : bool * t :=
  match agent1, agent2 with
  | Some a1, Some a2 =>
      if negb (Agent.active a1) || negb (Agent.active a2) then (false, this)
      else
        let distance := Agent.distanceTo a1 a2 in
        let minDistance := (Agent.size a1 + Agent.size a2) / 2 in
        let colliding := js_lt distance minDistance in
        if colliding
        then (colliding, recordCollision this circle a1 a2 (Some distance))
        else (colliding, this)
  | _, _ => (false, this)
  end.

Definition checkAABBCollision (this : t) (agent1 agent2 : option Agent.t)
  : bool * t :=
  match agent1, agent2 with
  | Some a1, Some a2 =>
      if negb (Agent.active a1) || negb (Agent.active a2) then (false, this)
      else
        let half1 := Agent.size a1 / 2 in
        let half2 := Agent.size a2 / 2 in
        let p1 := Agent.position a1 in
        let p2 := Agent.position a2 in
        let colliding :=
          js_lt (Vector2D.x p1 - half1) (Vector2D.x p2 + half2) &&
          js_gt (Vector2D.x p1 + half1) (Vector2D.x p2 - half2) &&
          js_lt (Vector2D.y p1 - half1) (Vector2D.y p2 + half2) &&
          js_gt (Vector2D.y p1 + half1) (Vector2D.y p2 - half2) in
        if colliding
        then (colliding, recordCollision this aabb a1 a2 None)
        else (colliding, this)
  | _, _ => (false, this)
  end.

End CollisionDetector.

(** ** PhysicsEngine.js *)

Module PhysicsEngine.

Record t : Type := mk {
  gravity : Vector2D.t;
  friction : R;
  canvasWidth : R;
  canvasHeight : R;
  boundaryMargin : R
}.

Definition constructor : t :=
  mk (Vector2D.mk 0 0) CONFIG.physics_friction CONFIG.canvas_width
     CONFIG.canvas_height CONFIG.physics_boundaryMargin.

Definition setCanvasDimensions (this : t) (width height : R) : t :=
  mk (gravity this) (friction this) width height (boundaryMargin this).

Definition isOutOfBounds (this : t) (agent : Agent.t) : bool :=
  let p := Agent.position agent in
  js_lt (Vector2D.x p) (- boundaryMargin this) ||
  js_gt (Vector2D.x p) (canvasWidth this + boundaryMargin this) ||
  js_lt (Vector2D.y p) (- boundaryMargin this) ||
  js_gt (Vector2D.y p) (canvasHeight this + boundaryMargin this).

(** The four tests run one after the other on the agent as the
    previous ones left it. *)
Definition constrainToBounds (this : t) (agent : Agent.t) (damping : R)
  : Agent.t :=
  let halfSize := Agent.size agent / 2 in
  let bounce_x (a : Agent.t) (x' : R) : Agent.t :=
    Agent.with_velocity
      (Agent.with_position a
         (Vector2D.mk x' (Vector2D.y (Agent.position a))))
      (Vector2D.mk (Vector2D.x (Agent.velocity a) * - damping)
                   (Vector2D.y (Agent.velocity a))) in
  let bounce_y (a : Agent.t) (y' : R) : Agent.t :=
    Agent.with_velocity
      (Agent.with_position a
         (Vector2D.mk (Vector2D.x (Agent.position a)) y'))
      (Vector2D.mk (Vector2D.x (Agent.velocity a))
                   (Vector2D.y (Agent.velocity a) * - damping)) in
  let agent :=
    if js_lt (Vector2D.x (Agent.position agent)) halfSize
    then bounce_x agent halfSize else agent in
  let agent :=
    if js_gt (Vector2D.x (Agent.position agent)) (canvasWidth this - halfSize)
    then bounce_x agent (canvasWidth this - halfSize) else agent in
  let agent :=
    if js_lt (Vector2D.y (Agent.position agent)) halfSize
    then bounce_y agent halfSize else agent in
  let agent :=
    if js_gt (Vector2D.y (Agent.position agent))
             (canvasHeight this - halfSize)
    then bounce_y agent (canvasHeight this - halfSize) else agent in
  agent.

Definition applyFriction (this : t) (agent : Agent.t) : Agent.t :=
  if js_ge (friction this) 1 then agent
  else Agent.with_velocity agent
         (Vector2D.multiply (Agent.velocity agent) (friction this)).

Definition wrapAroundBounds (this : t) (agent : Agent.t) : Agent.t :=
  let margin := Agent.size agent in
  let set_x (a : Agent.t) (x' : R) : Agent.t :=
    Agent.with_position a (Vector2D.mk x' (Vector2D.y (Agent.position a))) in
  let set_y (a : Agent.t) (y' : R) : Agent.t :=
    Agent.with_position a (Vector2D.mk (Vector2D.x (Agent.position a)) y') in
  let agent :=
    if js_lt (Vector2D.x (Agent.position agent)) (- margin)
    then set_x agent (canvasWidth this + margin)
    else if js_gt (Vector2D.x (Agent.position agent))
                  (canvasWidth this + margin)
    then set_x agent (- margin)
    else agent in
  let agent :=
    if js_lt (Vector2D.y (Agent.position agent)) (- margin)
    then set_y agent (canvasHeight this + margin)
    else if js_gt (Vector2D.y (Agent.position agent))
                  (canvasHeight this + margin)
    then set_y agent (- margin)
    else agent in
  agent.

Definition calculateKineticEnergy (agent : Agent.t) : R :=
  5 / 10 * Agent.mass agent * Vector2D.magnitudeSquared (Agent.velocity agent).

Definition calculateMomentum (agent : Agent.t) : Vector2D.t :=
  Vector2D.multiply' (Agent.velocity agent) (Agent.mass agent).

End PhysicsEngine.

(** ** Frajola.update *)

(** [detectionSystem] is [None] when the argument is absent; the
    strategy object is read and written back through the table. *)
Definition Frajola_update (this : Frajola.t) (h : Heap) (deltaTime : R)
           (detectionSystem : option DetectionSystem.t) (ss : Strategies)
  : Frajola.t * option DetectionSystem.t * Strategies :=
  match Agent.active (Frajola.base this), deref h (Frajola.target this) with
  | true, Some tg =>
      let '(this, detectionSystem) :=
        match detectionSystem with
        | Some ds =>
            let '(d, ds) := DetectionSystem.detect ds (Some this) (Some tg) in
            (Frajola.with_targetDetected this d, Some ds)
        | None => (this, None)
        end in
      let '(this, ss) :=
        match Frajola.strategy this with
        | Some n =>
            let '(steering, ss) :=
              calculate_at ss n this (Some tg) (Frajola.targetDetected this) in
            (Frajola.with_base this
               (Agent.applyForce (Frajola.base this) steering), ss)
        | None => (this, ss)
        end in
      let this :=
        Frajola.with_base this (Agent.update (Frajola.base this) deltaTime) in
      let this :=
        if Frajola.targetDetected this
        then Frajola.with_currentPursuitTime this
               (Frajola.currentPursuitTime this
                + deltaTime / CONFIG.simulation_defaultFPS)
        else this in
      (this, detectionSystem, ss)
  | _, _ => (this, detectionSystem, ss)
  end.

(** ** main.js: the simulation loop *)

Module Simulation.

Record Config : Type := mkConfig {
  targetSpeed : R;
  chaserSpeed : R;
  detectionSensitivity : R;
  fps : R
}.

(** The values [Math.random()] returns during one [createAgents]. *)
Record Draws : Type := mkDraws { r_edge : R; r_pos : R; r_dir : R }.

(** The two callbacks handed to [setTimeout]. *)
Inductive Timer : Type := restartAfterCapture | restartAfterEscape.

(** The resolver calls one [update] makes, in order, with their results. *)
Inductive Check : Type :=
| CaptureChecked (captured : bool)
| EscapeChecked (escaped : bool).

Record t : Type := mk {
  isRunning : bool;
  isPaused : bool;
  frameCount : nat;
  currentStrategy : StrategyName;
  physicsEngine : PhysicsEngine.t;
  detectionSystem : DetectionSystem.t;
  collisionDetector : CollisionDetector.t;
  heap : Heap;
  next : ref;
  ligeirinho : ref;
  frajola : Frajola.t;
  captureInProgress : bool;
  escapeInProgress : bool;
  strategies : Strategies;
  config : Config;
  (** pending [setTimeout] callbacks with their delay in ms *)
  timers : list (Timer * R)
}.

Definition with_agents (s : t) (h : Heap) (n l : ref) (f : Frajola.t) : t :=
  mk (isRunning s) (isPaused s) (frameCount s) (currentStrategy s)
     (physicsEngine s) (detectionSystem s) (collisionDetector s)
     h n l f (captureInProgress s) (escapeInProgress s) (strategies s)
     (config s) (timers s).

Definition with_flags (s : t) (c e : bool) : t :=
  mk (isRunning s) (isPaused s) (frameCount s) (currentStrategy s)
     (physicsEngine s) (detectionSystem s) (collisionDetector s)
     (heap s) (next s) (ligeirinho s) (frajola s) c e (strategies s)
     (config s) (timers s).

Definition with_timers (s : t) (tm : list (Timer * R)) : t :=
  mk (isRunning s) (isPaused s) (frameCount s) (currentStrategy s)
     (physicsEngine s) (detectionSystem s) (collisionDetector s)
     (heap s) (next s) (ligeirinho s) (frajola s) (captureInProgress s)
     (escapeInProgress s) (strategies s) (config s) tm.

Definition with_systems (s : t) (d : DetectionSystem.t)
           (c : CollisionDetector.t) (ss : Strategies) : t :=
  mk (isRunning s) (isPaused s) (frameCount s) (currentStrategy s)
     (physicsEngine s) d c (heap s) (next s) (ligeirinho s) (frajola s)
     (captureInProgress s) (escapeInProgress s) ss (config s) (timers s).

Definition createAgents (this : t) (d : Draws) : t :=
  let l := Ligeirinho.constructor 0 0 (targetSpeed (config this)) in
  let l := Ligeirinho.spawnAtRandomEdge l CONFIG.canvas_width
             CONFIG.canvas_height (r_edge d) (r_pos d) (r_dir d) in
  let r := next this in
  let f := Frajola.constructor CONFIG.chaser_startX CONFIG.chaser_startY
             (chaserSpeed (config this)) in
  let f := Frajola.setTarget f r in
  with_agents this (heap_set (heap this) r l) (S r) r f.

(** [strategyName] is a key of the table, so the lookup succeeds. *)
Definition setStrategy (this : t) (strategyName : StrategyName) : t :=
  mk (isRunning this) (isPaused this) (frameCount this) strategyName
     (physicsEngine this) (detectionSystem this) (collisionDetector this)
     (heap this) (next this) (ligeirinho this)
     (Frajola.setStrategy (frajola this) strategyName)
     (captureInProgress this) (escapeInProgress this) (strategies this)
     (config this) (timers this).

Definition init (this : t) (d : Draws) : t :=
  let this := createAgents this d in
  setStrategy this (currentStrategy this).

Definition constructor (d : Draws) : t :=
  init
    (mk false false 0 direct
        PhysicsEngine.constructor DetectionSystem.constructor
        CollisionDetector.constructor
        (fun _ => Ligeirinho.constructor 0 0 CONFIG.target_defaultSpeed)
        0%nat 0%nat
        (Frajola.constructor CONFIG.chaser_startX CONFIG.chaser_startY
                             CONFIG.chaser_defaultSpeed)
        false false
        (mkStrategies DirectStrategy.constructor
                      PredictiveStrategy.constructor
                      PatrolStrategy.constructor)
        (mkConfig CONFIG.target_defaultSpeed CONFIG.chaser_defaultSpeed
                  CONFIG.detection_baseSensitivity
                  CONFIG.simulation_defaultFPS)
        [])
    d.

Definition handleCapture (this : t) : t :=
  with_timers this (timers this ++ [(restartAfterCapture, 2000)]).

Definition handleEscape (this : t) : t :=
  with_timers this (timers this ++ [(restartAfterEscape, 500)]).

(** The body of a [setTimeout] callback, run when the timer fires. *)
Definition fire (tm : Timer) (this : t) (d : Draws) : t :=
  let this := createAgents this d in
  let this := setStrategy this (currentStrategy this) in
  match tm with
  | restartAfterCapture => with_flags this false (escapeInProgress this)
  | restartAfterEscape => with_flags this (captureInProgress this) false
  end.

Definition update (this : t) (deltaTime : R) : t * list Check :=
  if captureInProgress this || escapeInProgress this then (this, [])
  else
    let fixedDelta := 1 in
    let '(f, ds, ss) :=
      Frajola_update (frajola this) (heap this) fixedDelta
                     (Some (detectionSystem this)) (strategies this) in
    let ds := match ds with Some ds => ds | None => detectionSystem this end in
    let l := Ligeirinho.update (heap this (ligeirinho this)) fixedDelta in
    let f := Frajola.with_base f
               (PhysicsEngine.constrainToBounds (physicsEngine this)
                  (Frajola.base f) (8 / 10)) in
    let '(captured, cd) :=
      CollisionDetector.checkCapture (collisionDetector this)
                                     (Some f) (Some l) in
    let this :=
      with_systems
        (with_agents this (heap_set (heap this) (ligeirinho this) l)
                     (next this) (ligeirinho this) f)
        ds cd ss in
    if captured then
      let this := with_flags this true (escapeInProgress this) in
      (handleCapture this, [CaptureChecked captured])
    else
      let '(escaped, l) :=
        Ligeirinho.hasEscaped l CONFIG.canvas_width CONFIG.canvas_height
                              CONFIG.physics_boundaryMargin in
      let this :=
        with_agents this (heap_set (heap this) (ligeirinho this) l)
                    (next this) (ligeirinho this) (frajola this) in
      if escaped then
        let this := with_flags this (captureInProgress this) true in
        (handleEscape this, [CaptureChecked captured; EscapeChecked escaped])
      else (this, [CaptureChecked captured; EscapeChecked escaped]).

Definition pause (this : t) : t :=
  mk false true (frameCount this) (currentStrategy this)
     (physicsEngine this) (detectionSystem this) (collisionDetector this)
     (heap this) (next this) (ligeirinho this) (frajola this)
     (captureInProgress this) (escapeInProgress this) (strategies this)
     (config this) (timers this).

Definition reset (this : t) (d : Draws) : t :=
  let this := pause this in
  let this := createAgents this d in
  with_systems this (DetectionSystem.reset (detectionSystem this))
               (CollisionDetector.reset (collisionDetector this))
               (strategies this).

(** The chaser's strategy object, through the table. *)
Definition patrolOf (this : t) : PatrolStrategy.t :=
  s_patrol (strategies this).

(** The terminal outcomes among the checks of one frame. *)
Definition fired (c : Check) : bool :=
  match c with
  | CaptureChecked b => b
  | EscapeChecked b => b
  end.

End Simulation.


(** ** StatsTracker.js

    The clock readings ([performance.now()]) are arguments; the
    formatted outputs ([toFixed]) and the export are left out. *)

Module StatsTracker.

Inductive Outcome : Type := capture | escape.

(** One entry of [attemptHistory] (time stamp left out).  The details a
    caller leaves out are [None]; the record stores the default. *)
Record Details : Type := mkDetails {
  d_strategy : option StrategyName;
  d_targetSpeed : option R;
  d_chaserSpeed : option R;
  d_detectionSensitivity : option R;
  d_distance : option R
}.

Record Entry : Type := mkEntry {
  type : Outcome;
  attemptNumber : nat;
  duration : R;
  strategy : option StrategyName;   (* [None] is 'unknown' *)
  targetSpeed : R;
  chaserSpeed : R;
  detectionSensitivity : R;
  distance : option R               (* absent on an escape *)
}.

Record t : Type := mk {
  attempts : nat;
  captures : nat;
  captureTimes : list R;
  escapeTimes : list R;
  currentAttemptStartTime : R;
  attemptHistory : list Entry;
  maxHistoryLength : nat
}.

Definition constructor : t := mk 0 0 [] [] 0 [] 1000.

(** [o || 0] on a number that may be absent. *)
Definition or_zero (o : option R) : R :=
  match o with Some v => v | None => 0 end.

Definition startAttempt (this : t) (now : R) : t :=
  mk (S (attempts this)) (captures this) (captureTimes this)
     (escapeTimes this) now (attemptHistory this) (maxHistoryLength this).

Definition getCurrentAttemptTime (this : t) (now : R) : R :=
  (now - currentAttemptStartTime this) / 1000.

(** [splice(0, excess)] drops the [excess] oldest entries. *)
Definition trimHistory (this : t) : t :=
  if Nat.ltb (maxHistoryLength this) (length (attemptHistory this)) then
    let excess := (length (attemptHistory this) - maxHistoryLength this)%nat in
    mk (attempts this) (captures this) (captureTimes this)
       (escapeTimes this) (currentAttemptStartTime this)
       (skipn excess (attemptHistory this)) (maxHistoryLength this)
  else this.

Definition recordCapture (this : t) (details : Details) (now : R) : t :=
  let captureTime := getCurrentAttemptTime this now in
  let record :=
    mkEntry capture (attempts this) captureTime (d_strategy details)
            (or_zero (d_targetSpeed details))
            (or_zero (d_chaserSpeed details))
            (or_zero (d_detectionSensitivity details))
            (Some (or_zero (d_distance details))) in
  trimHistory
    (mk (attempts this) (S (captures this))
        (captureTimes this ++ [captureTime]) (escapeTimes this)
        (currentAttemptStartTime this) (attemptHistory this ++ [record])
        (maxHistoryLength this)).

Definition recordEscape (this : t) (details : Details) (now : R) : t :=
  let escapeTime := getCurrentAttemptTime this now in
  let record :=
    mkEntry escape (attempts this) escapeTime (d_strategy details)
            (or_zero (d_targetSpeed details))
            (or_zero (d_chaserSpeed details))
            (or_zero (d_detectionSensitivity details))
            None in
  trimHistory
    (mk (attempts this) (captures this) (captureTimes this)
        (escapeTimes this ++ [escapeTime])
        (currentAttemptStartTime this) (attemptHistory this ++ [record])
        (maxHistoryLength this)).

Definition getAverageCaptureTime (this : t) : R :=
  if Nat.eqb (length (captureTimes this)) 0 then 0
  else MathUtils.average (captureTimes this).

Definition getAverageEscapeTime (this : t) : R :=
  if Nat.eqb (length (escapeTimes this)) 0 then 0
  else MathUtils.average (escapeTimes this).

Definition reset (this : t) : t :=
  mk 0 0 [] [] 0 [] (maxHistoryLength this).

Definition resetSession (this : t) : t :=
  mk 0 0 [] [] 0 (attemptHistory this) (maxHistoryLength this).

End StatsTracker.

(** ** Notions used to state the properties *)

(** The velocity that the re-normalisation of [Ligeirinho.update]
    receives: the integrated one for an active target, the old one for an
    inactive target. *)
Definition integrated (l : Ligeirinho.t) : Vector2D.t :=
  if Agent.active (Ligeirinho.base l)
  then Vector2D.add (Agent.velocity (Ligeirinho.base l))
                    (Agent.acceleration (Ligeirinho.base l))
  else Agent.velocity (Ligeirinho.base l).

(** The target object of the simulation. *)
Definition targetOf (s : Simulation.t) : Ligeirinho.t :=
  Simulation.heap s (Simulation.ligeirinho s).

(** The two agents as [Simulation.update] has them when it reaches the
    outcome tests: the chaser after its own update and the bounce off
    the arena bounds, the target after its own update. *)
Definition chaserAtTests (s : Simulation.t) : Frajola.t :=
  let '(f, _, _) :=
    Frajola_update (Simulation.frajola s) (Simulation.heap s) 1
                   (Some (Simulation.detectionSystem s))
                   (Simulation.strategies s) in
  Frajola.with_base f
    (PhysicsEngine.constrainToBounds (Simulation.physicsEngine s)
       (Frajola.base f) (8 / 10)).

Definition targetAtTests (s : Simulation.t) : Ligeirinho.t :=
  Ligeirinho.update (targetOf s) 1.

(** The two outcome tests of a frame, each of them called on those
    agents: [collisionDetector.checkCapture(frajola, ligeirinho)] and
    [ligeirinho.hasEscaped(width, height, margin)]. *)
Definition captureTest (s : Simulation.t) : bool * CollisionDetector.t :=
  CollisionDetector.checkCapture (Simulation.collisionDetector s)
    (Some (chaserAtTests s)) (Some (targetAtTests s)).

Definition escapeTest (s : Simulation.t) : bool * Ligeirinho.t :=
  Ligeirinho.hasEscaped (targetAtTests s) CONFIG.canvas_width
    CONFIG.canvas_height CONFIG.physics_boundaryMargin.

(** A simulation whose physics engine was given a canvas 4000 wide
    ([setCanvasDimensions]), with a chaser standing at (1550, 450), no
    strategy attached, and a target at rest at (1501, 450): the target
    is 49 away from the chaser and beyond the escape line x = 1500. *)
Definition both_conditions : Simulation.t :=
  let l := Ligeirinho.with_base (Ligeirinho.constructor 0 0 8)
             (Agent.setPosition
                (Ligeirinho.base (Ligeirinho.constructor 0 0 8)) 1501 450) in
  Simulation.mk false false 0 direct
    (PhysicsEngine.setCanvasDimensions PhysicsEngine.constructor 4000 900)
    DetectionSystem.constructor CollisionDetector.constructor
    (fun _ => l) 1%nat 0%nat
    (Frajola.setTarget (Frajola.constructor 1550 450 9) 0%nat)
    false false
    (mkStrategies DirectStrategy.constructor PredictiveStrategy.constructor
                  PatrolStrategy.constructor)
    (Simulation.mkConfig CONFIG.target_defaultSpeed CONFIG.chaser_defaultSpeed
                         CONFIG.detection_baseSensitivity
                         CONFIG.simulation_defaultFPS)
    [].

(** [n] frames of the loop, one [update] each. *)
Fixpoint run (n : nat) (s : Simulation.t) : Simulation.t :=
  match n with
  | O => s
  | S k => run k (fst (Simulation.update s 1))
  end.

(** The oldest pending [setTimeout] callback runs. *)
Definition expire (s : Simulation.t) (d : Simulation.Draws) : Simulation.t :=
  match Simulation.timers s with
  | [] => s
  | (tm, _) :: rest => Simulation.fire tm (Simulation.with_timers s rest) d
  end.

(** The simulation as constructed when the three random draws are 0:
    the target starts in the corner (0,0) and heads out of the arena
    along the diagonal.  The Patrol strategy is then selected. *)
Definition corner_start : Simulation.t :=
  Simulation.setStrategy
    (Simulation.constructor (Simulation.mkDraws 0 0 0)) patrol.

(** The speed per axis of a target of speed 8 moving along a diagonal. *)
Definition diag : R := 8 / sqrt 2.

(** A target that left the corner (0,0) [k] frames ago along the
    diagonal, with no outcome raised so far and a patrol time of at
    least [t]. *)
Record Cruising (k : nat) (t : R) (s : Simulation.t) : Prop := mkCruising {
  cr_capture : Simulation.captureInProgress s = false;
  cr_escape : Simulation.escapeInProgress s = false;
  cr_timers : Simulation.timers s = [];
  cr_engine : Simulation.physicsEngine s = PhysicsEngine.constructor;
  cr_capdist :
    CollisionDetector.captureDistance (Simulation.collisionDetector s) = 60;
  cr_size : Agent.size (Frajola.base (Simulation.frajola s)) = 150;
  cr_active : Agent.active (Ligeirinho.base (targetOf s)) = true;
  cr_velocity :
    Agent.velocity (Ligeirinho.base (targetOf s)) = Vector2D.mk (- diag) diag;
  cr_accel : Agent.acceleration (Ligeirinho.base (targetOf s)) = Vector2D.zero;
  cr_speed : Agent.maxSpeed (Ligeirinho.base (targetOf s)) = 8;
  cr_position :
    Agent.position (Ligeirinho.base (targetOf s))
    = Vector2D.mk (- (INR k * diag)) (INR k * diag);
  cr_patrol : t <= PatrolStrategy.patrolTime (Simulation.patrolOf s)
}.


(** A point of the arena rectangle enlarged by [m] on every side. *)
Definition within (p : Vector2D.t) (m w h : R) : Prop :=
  - m <= Vector2D.x p <= w + m /\ - m <= Vector2D.y p <= h + m.

(** What can happen to the simulation between two frames: the loop
    runs a frame, a pending timer fires, the user presses reset or
    pause, or selects a strategy. *)
Inductive Event : Type :=
| Frame
| TimerFires (d : Simulation.Draws)
| ResetPressed (d : Simulation.Draws)
| PausePressed
| StrategySelected (n : StrategyName).

Definition react (s : Simulation.t) (e : Event) : Simulation.t :=
  match e with
  | Frame => fst (Simulation.update s 1)
  | TimerFires d => expire s d
  | ResetPressed d => Simulation.reset s d
  | PausePressed => Simulation.pause s
  | StrategySelected n => Simulation.setStrategy s n
  end.

(** The outcome flags and the pending restart timers agree, and the
    chaser holds the simulation's target object. *)
Definition consistent (s : Simulation.t) : Prop :=
  Frajola.target (Simulation.frajola s) = Some (Simulation.ligeirinho s)
  /\ match Simulation.captureInProgress s, Simulation.escapeInProgress s with
     | false, false => Simulation.timers s = []
     | true, false =>
         Simulation.timers s = [(Simulation.restartAfterCapture, 2000)]
     | false, true =>
         Simulation.timers s = [(Simulation.restartAfterEscape, 500)]
     | true, true => False
     end.

(** The calls the simulation and the user interface make on the
    statistics tracker. *)
Inductive StatsCall : Type :=
| CallStartAttempt (now : R)
| CallRecordCapture (details : StatsTracker.Details) (now : R)
| CallRecordEscape (details : StatsTracker.Details) (now : R)
| CallReset
| CallResetSession.

Definition stats_call (st : StatsTracker.t) (c : StatsCall) : StatsTracker.t :=
  match c with
  | CallStartAttempt now => StatsTracker.startAttempt st now
  | CallRecordCapture d now => StatsTracker.recordCapture st d now
  | CallRecordEscape d now => StatsTracker.recordEscape st d now
  | CallReset => StatsTracker.reset st
  | CallResetSession => StatsTracker.resetSession st
  end.

(** * Properties *)

(** ** Conditions as propositions *)

Lemma js_lt_spec (a b : R) : js_lt a b = true <-> a < b.
Proof. unfold js_lt; destruct (Rlt_dec a b); split; (lra || discriminate || auto). Qed.

Lemma js_gt_spec (a b : R) : js_gt a b = true <-> a > b.
Proof. unfold js_gt; destruct (Rgt_dec a b); split; (lra || discriminate || auto). Qed.

Lemma js_le_spec (a b : R) : js_le a b = true <-> a <= b.
Proof. unfold js_le; destruct (Rle_dec a b); split; (lra || discriminate || auto). Qed.

Lemma js_ge_spec (a b : R) : js_ge a b = true <-> a >= b.
Proof. unfold js_ge; destruct (Rge_dec a b); split; (lra || discriminate || auto). Qed.

Lemma js_neq_spec (a b : R) : js_neq a b = true <-> a <> b.
Proof.
  unfold js_neq; destruct (Req_dec_T a b); split;
    (congruence || discriminate || auto).
Qed.

Lemma js_lt_false (a b : R) : js_lt a b = false <-> b <= a.
Proof. unfold js_lt; destruct (Rlt_dec a b); split; (lra || discriminate || auto). Qed.

Lemma js_gt_false (a b : R) : js_gt a b = false <-> a <= b.
Proof. unfold js_gt; destruct (Rgt_dec a b); split; (lra || discriminate || auto). Qed.

Lemma js_neq_false (a b : R) : js_neq a b = false <-> a = b.
Proof.
  unfold js_neq; destruct (Req_dec_T a b); split;
    (congruence || discriminate || auto).
Qed.

(** Decide a condition on numbers from the context. *)
Ltac js_cond :=
  repeat match goal with
    | |- context [js_lt ?a ?b] =>
        first [ rewrite (proj2 (js_lt_spec a b)) by lra
              | rewrite (proj2 (js_lt_false a b)) by lra ]
    | |- context [js_gt ?a ?b] =>
        first [ rewrite (proj2 (js_gt_spec a b)) by lra
              | rewrite (proj2 (js_gt_false a b)) by lra ]
    | |- context [js_neq ?a ?b] =>
        first [ rewrite (proj2 (js_neq_spec a b)) by lra
              | rewrite (proj2 (js_neq_false a b)) by lra ]
    end.

(** ** Vectors *)

Section VectorFacts.

Import Vector2D.

Lemma eta (v : t) : mk (x v) (y v) = v.
Proof. destruct v; reflexivity. Qed.

Lemma magnitudeSquared_nonneg (v : t) : 0 <= magnitudeSquared v.
Proof. unfold magnitudeSquared; nra. Qed.

Lemma magnitude_nonneg (v : t) : 0 <= magnitude v.
Proof. apply sqrt_pos. Qed.

Lemma magnitude_square (v : t) :
  magnitude v * magnitude v = magnitudeSquared v.
Proof. apply sqrt_sqrt, magnitudeSquared_nonneg. Qed.

Lemma magnitude_zero_iff (v : t) : magnitude v = 0 <-> v = zero.
Proof.
  split.
  - intros H. pose proof (magnitude_square v) as S.
    rewrite H in S. unfold magnitudeSquared in S.
    destruct v as [a b]; simpl in *.
    assert (a = 0) by nra. assert (b = 0) by nra.
    subst; reflexivity.
  - intros ->. unfold magnitude, zero; simpl.
    replace (0 * 0 + 0 * 0) with 0 by ring. apply sqrt_0.
Qed.

Lemma magnitude_multiply (v : t) (s : R) :
  magnitude (multiply v s) = magnitude v * Rabs s.
Proof.
  unfold magnitude, multiply; simpl.
  replace (x v * s * (x v * s) + y v * s * (y v * s))
    with ((x v * x v + y v * y v) * (s * s)) by ring.
  rewrite sqrt_mult_alt by (pose proof (magnitudeSquared_nonneg v) as P;
                            exact P).
  f_equal. fold (Rsqr s). apply sqrt_Rsqr_abs.
Qed.

Lemma normalize_zero_magnitude (v : t) :
  magnitude v = 0 -> normalize v = v.
Proof.
  intros H. unfold normalize. rewrite H.
  now rewrite (proj2 (js_gt_false 0 0)) by lra.
Qed.

Lemma normalize_pos (v : t) :
  0 < magnitude v ->
  normalize v = mk (x v / magnitude v) (y v / magnitude v).
Proof.
  intros H. unfold normalize, divide. now js_cond.
Qed.

Lemma magnitude_normalize (v : t) :
  0 < magnitude v -> magnitude (normalize v) = 1.
Proof.
  intros H. rewrite (normalize_pos v H).
  pose proof (magnitude_square v) as S. unfold magnitudeSquared in S.
  unfold magnitude at 1; simpl.
  set (m := magnitude v) in *.
  replace (x v / m * (x v / m) + y v / m * (y v / m))
    with ((x v * x v + y v * y v) / (m * m)) by (field; lra).
  rewrite <- S.
  replace (m * m / (m * m)) with 1 by (field; lra).
  apply sqrt_1.
Qed.

Lemma magnitude_setMagnitude (v : t) (s : R) :
  0 < magnitude v -> magnitude (setMagnitude v s) = Rabs s.
Proof.
  intros H. unfold setMagnitude.
  rewrite magnitude_multiply, (magnitude_normalize v H). ring.
Qed.

(** [magSq > max * max] is [|v| > max] when [max] is not negative. *)
Lemma magSq_gt_iff (v : t) (m : R) :
  0 <= m -> (magnitudeSquared v > m * m <-> magnitude v > m).
Proof.
  intros Hm. rewrite <- magnitude_square.
  pose proof (magnitude_nonneg v). split; intros; nra.
Qed.

Lemma limit_over (v : t) (m : R) :
  0 <= m -> magnitude v > m -> limit v m = multiply (normalize v) m.
Proof.
  intros Hm H. unfold limit.
  now rewrite (proj2 (js_gt_spec _ _)) by (apply magSq_gt_iff; assumption).
Qed.

Lemma limit_within (v : t) (m : R) :
  0 <= m -> magnitude v <= m -> limit v m = v.
Proof.
  intros Hm H. unfold limit.
  rewrite (proj2 (js_gt_false _ _)); [reflexivity|].
  destruct (Rle_dec (magnitudeSquared v) (m * m)) as [L|L]; [exact L|].
  exfalso. assert (magnitude v > m) by (apply magSq_gt_iff; lra). lra.
Qed.

Lemma magnitude_limit_over (v : t) (m : R) :
  0 <= m -> magnitude v > m -> magnitude (limit v m) = m.
Proof.
  intros Hm H. rewrite limit_over by assumption.
  rewrite magnitude_multiply, magnitude_normalize by lra.
  rewrite Rabs_pos_eq by assumption. ring.
Qed.

End VectorFacts.

(** ** MathUtils *)

Lemma clamp_bounds (v lo hi : R) :
  lo <= hi -> lo <= MathUtils.clamp v lo hi <= hi.
Proof.
  intros H. unfold MathUtils.clamp, Rmin, Rmax.
  destruct (Rle_dec v lo); destruct (Rle_dec _ hi); lra.
Qed.

Lemma clamp_monotone (a b lo hi : R) :
  a <= b -> MathUtils.clamp a lo hi <= MathUtils.clamp b lo hi.
Proof.
  intros H. unfold MathUtils.clamp.
  apply Rle_min_compat_r, Rle_max_compat_r, H.
Qed.

Lemma clamp_inside (v lo hi : R) :
  lo <= v <= hi -> MathUtils.clamp v lo hi = v.
Proof.
  intros H. unfold MathUtils.clamp, Rmin, Rmax.
  destruct (Rle_dec v lo); destruct (Rle_dec _ hi); lra.
Qed.

(** On its input range the lookahead is the straight line from (0, 3)
    to (400, 20). *)
Lemma adaptive_lookahead_linear (d : R) :
  0 <= d <= 400 ->
  PredictiveStrategy.calculateAdaptiveLookahead d = 3 + d * 17 / 400.
Proof.
  intros H. unfold PredictiveStrategy.calculateAdaptiveLookahead.
  rewrite clamp_inside by lra. unfold MathUtils.map. field.
Qed.

(** C6. The adaptive lookahead of the Predictive strategy is
    non-decreasing in the distance (for any two distances, in particular
    non-negative ones), and its value lies in [3, 20] for every distance,
    inside and outside [0, 400]. *)
Theorem adaptive_lookahead_monotone_clamped (d1 d2 : R) :
  d1 <= d2 ->
  PredictiveStrategy.calculateAdaptiveLookahead d1
    <= PredictiveStrategy.calculateAdaptiveLookahead d2
  /\ (forall d, 3 <= PredictiveStrategy.calculateAdaptiveLookahead d <= 20).
Proof.
  intros H. unfold PredictiveStrategy.calculateAdaptiveLookahead, MathUtils.map.
  split.
  - pose proof (clamp_monotone d1 d2 0 400 H) as M. lra.
  - intros d. pose proof (clamp_bounds d 0 400 ltac:(lra)) as B. lra.
Qed.

Lemma adaptive_lookahead_witness :
  100 <= 300 /\
  PredictiveStrategy.calculateAdaptiveLookahead 100
    <= PredictiveStrategy.calculateAdaptiveLookahead 300.
Proof.
  split; [lra | apply (adaptive_lookahead_monotone_clamped 100 300); lra].
Defined.

(** ** Vector2D.limit *)

(** In exact arithmetic [limit] clamps the magnitude: for m >= 0 the
    result has magnitude min(|v|, m), a vector within the bound is not
    changed, and a second [limit] changes nothing. *)
Lemma limit_over_reals (v : Vector2D.t) (m : R) :
  0 <= m ->
  Vector2D.magnitude (Vector2D.limit v m) = Rmin (Vector2D.magnitude v) m
  /\ (Vector2D.magnitude v <= m -> Vector2D.limit v m = v)
  /\ Vector2D.limit (Vector2D.limit v m) m = Vector2D.limit v m.
Proof.
  intros Hm.
  destruct (Rle_dec (Vector2D.magnitude v) m) as [L|L].
  - rewrite (limit_within v m Hm L), Rmin_left by exact L. repeat split.
    now apply limit_within.
  - assert (G : Vector2D.magnitude v > m) by lra.
    rewrite Rmin_right by lra. repeat split.
    + now apply magnitude_limit_over.
    + intros C. lra.
    + apply limit_within; [assumption|].
      rewrite magnitude_limit_over by assumption. lra.
Qed.

(** *** On doubles *)





(** ** Vector2D.normalize and Vector2D.divide at zero *)

Lemma divide_chk_total (v : Vector2D.t) (s : R) :
  Vector2D.divide_chk v s = Some (Vector2D.divide v s).
Proof.
  unfold Vector2D.divide_chk, Vector2D.divide, Vector2D.div_chk.
  destruct (js_neq s 0) eqn:E; [|reflexivity].
  apply js_neq_spec in E. destruct (Req_dec_T s 0); [contradiction|reflexivity].
Qed.

Lemma normalize_chk_total (v : Vector2D.t) :
  Vector2D.normalize_chk v = Some (Vector2D.normalize v).
Proof.
  unfold Vector2D.normalize_chk, Vector2D.normalize.
  destruct (js_gt _ 0); [apply divide_chk_total | reflexivity].
Qed.

(** C8. Normalizing the zero vector leaves it at (0,0); dividing any
    vector by the scalar zero leaves it as it is; and neither operation
    divides by zero: over a division that faults on a zero divisor both
    return a result, the same as the unchecked operation. *)
Theorem normalize_zero_divide_zero_noop :
  Vector2D.normalize (Vector2D.mk 0 0) = Vector2D.mk 0 0
  /\ (forall v, Vector2D.divide v 0 = v)
  /\ (forall v, Vector2D.normalize_chk v = Some (Vector2D.normalize v))
  /\ (forall v s, Vector2D.divide_chk v s = Some (Vector2D.divide v s)).
Proof.
  repeat split.
  - apply normalize_zero_magnitude.
    now apply magnitude_zero_iff.
  - intros v. unfold Vector2D.divide.
    now rewrite (proj2 (js_neq_false 0 0)).
  - apply normalize_chk_total.
  - apply divide_chk_total.
Qed.

(** ** Escape *)

(** C2. The escape check of the target fires iff its position lies
    outside [-margin, width+margin] x [-margin, height+margin]. *)
Theorem hasEscaped_iff_outside (l : Ligeirinho.t) (w h margin : R) :
  fst (Ligeirinho.hasEscaped l w h margin) = true
  <-> ~ (- margin <= Vector2D.x (Agent.position (Ligeirinho.base l))
                  <= w + margin
         /\ - margin <= Vector2D.y (Agent.position (Ligeirinho.base l))
                     <= h + margin).
Proof.
  unfold Ligeirinho.hasEscaped.
  set (px := Vector2D.x _). set (py := Vector2D.y _).
  match goal with |- fst (if ?c then _ else _) = _ <-> _ =>
    assert (E : fst (if c then (c, Ligeirinho.mk (Ligeirinho.base l)
                                     (Ligeirinho.spawnEdge l)
                                     (S (Ligeirinho.escapeAttempts l)))
                     else (c, l)) = c) by (destruct c; reflexivity)
  end.
  rewrite E. clear E.
  rewrite !orb_true_iff, !js_lt_spec, !js_gt_spec.
  split.
  - intros H [Hx Hy]. lra.
  - intros H.
    destruct (Rlt_dec px (- margin)); [tauto|].
    destruct (Rgt_dec px (w + margin)); [tauto|].
    destruct (Rlt_dec py (- margin)); [tauto|].
    destruct (Rgt_dec py (h + margin)); [tauto|].
    exfalso. apply H. lra.
Qed.

(** ** Capture *)

(** C1. For a chaser and a target, the capture check fires iff the
    target is active and the Euclidean distance between the two is
    strictly below [captureDistance]; the chaser's [targetDetected] flag
    does not change the outcome. *)
Theorem checkCapture_iff_active_and_close
        (cd : CollisionDetector.t) (c : Frajola.t) (tg : Ligeirinho.t) :
  (fst (CollisionDetector.checkCapture cd (Some c) (Some tg)) = true
   <-> Agent.active (Ligeirinho.base tg) = true
       /\ Vector2D.distanceTo (Agent.position (Frajola.base c))
                              (Agent.position (Ligeirinho.base tg))
          < CollisionDetector.captureDistance cd)
  /\ (forall b : bool,
        fst (CollisionDetector.checkCapture cd
               (Some (Frajola.with_targetDetected c b)) (Some tg))
        = fst (CollisionDetector.checkCapture cd (Some c) (Some tg))).
Proof.
  split.
  - unfold CollisionDetector.checkCapture, Agent.distanceTo.
    destruct (Agent.active (Ligeirinho.base tg)); simpl.
    + destruct (js_lt _ _) eqn:E; simpl.
      * apply js_lt_spec in E. tauto.
      * apply js_lt_false in E. split; [discriminate | intros [_ H]; lra].
    + split; [discriminate | intros [H _]; discriminate].
  - intros b. reflexivity.
Qed.

(** C10. The chaser's own [attemptCapture] returns false whenever
    [targetDetected] is false or the target reference is missing,
    whatever the distance; it reports a capture exactly when there is a
    target, [targetDetected] is true and the distance is strictly below
    [captureDistance]. *)
Theorem attemptCapture_needs_detection
        (f : Frajola.t) (h : Heap) (captureDistance : R) :
  (Frajola.targetDetected f = false \/ Frajola.target f = None ->
   fst (Frajola.attemptCapture f h captureDistance) = false)
  /\ (fst (Frajola.attemptCapture f h captureDistance) = true
      <-> Frajola.targetDetected f = true
          /\ exists r, Frajola.target f = Some r
                       /\ Agent.distanceTo (Frajola.base f)
                                           (Ligeirinho.base (h r))
                          < captureDistance).
Proof.
  unfold Frajola.attemptCapture, deref.
  destruct (Frajola.target f) as [r|]; simpl.
  - destruct (Frajola.targetDetected f); simpl.
    + destruct (js_lt _ _) eqn:E; simpl.
      * apply js_lt_spec in E. split.
        -- intros [H|H]; discriminate.
        -- split; [intros _; split; [reflexivity | exists r; tauto] | reflexivity].
      * apply js_lt_false in E. split.
        -- reflexivity.
        -- split; [discriminate|].
           intros [_ [r' [Hr Hd]]]. injection Hr as <-. lra.
    + split; [reflexivity|].
      split; [discriminate | intros [H _]; discriminate].
  - split; [reflexivity|].
    split; [discriminate | intros [_ [r [H _]]]; discriminate].
Qed.

Lemma attemptCapture_needs_detection_witness :
  let f := Frajola.setTarget
             (Frajola.constructor 0 0 9) 0%nat in
  let h : Heap := fun _ => Ligeirinho.constructor 0 0 8 in
  (Frajola.targetDetected f = false \/ Frajola.target f = None)
  /\ fst (Frajola.attemptCapture f h 60) = false.
Proof.
  intros f h. split.
  - left. reflexivity.
  - apply (attemptCapture_needs_detection f h 60). left. reflexivity.
Defined.

(** ** The target's update *)

Lemma nonzero_magnitude_pos (v : Vector2D.t) :
  v <> Vector2D.zero -> 0 < Vector2D.magnitude v.
Proof.
  intros H. pose proof (magnitude_nonneg v) as P.
  destruct (Req_dec_T (Vector2D.magnitude v) 0) as [E|E]; [|lra].
  apply magnitude_zero_iff in E. contradiction.
Qed.

Lemma setMagnitude_reaches (v : Vector2D.t) (m : R) :
  0 <= m -> v <> Vector2D.zero ->
  Vector2D.magnitude (Vector2D.setMagnitude v m) = m.
Proof.
  intros Hm Hv. rewrite magnitude_setMagnitude.
  - now apply Rabs_pos_eq.
  - now apply nonzero_magnitude_pos.
Qed.


Lemma limit_zero (m : R) :
  Vector2D.limit Vector2D.zero m = Vector2D.zero.
Proof.
  unfold Vector2D.limit, Vector2D.magnitudeSquared; simpl.
  rewrite (proj2 (js_gt_false _ _)); [reflexivity | nra].
Qed.

Lemma limit_nonzero (v : Vector2D.t) (m : R) :
  0 < m -> v <> Vector2D.zero -> Vector2D.limit v m <> Vector2D.zero.
Proof.
  intros Hm Hv. destruct (Rle_dec (Vector2D.magnitude v) m) as [L|L].
  - rewrite limit_within by lra. exact Hv.
  - intros E. apply magnitude_zero_iff in E.
    rewrite magnitude_limit_over in E by lra. lra.
Qed.

Lemma Agent_update_active (a : Agent.t) (dt : R) :
  Agent.active a = true ->
  Agent.velocity (Agent.update a dt)
  = Vector2D.limit (Vector2D.add (Agent.velocity a) (Agent.acceleration a))
                   (Agent.maxSpeed a).
Proof. intros H. unfold Agent.update. rewrite H. reflexivity. Qed.

Lemma Agent_update_inactive (a : Agent.t) (dt : R) :
  Agent.active a = false -> Agent.update a dt = a.
Proof. intros H. unfold Agent.update. rewrite H. reflexivity. Qed.

Lemma Agent_update_maxSpeed (a : Agent.t) (dt : R) :
  Agent.maxSpeed (Agent.update a dt) = Agent.maxSpeed a.
Proof. unfold Agent.update. destruct (Agent.active a); reflexivity. Qed.

Lemma Ligeirinho_update_velocity (l : Ligeirinho.t) (dt : R) :
  Agent.velocity (Ligeirinho.base (Ligeirinho.update l dt))
  = Vector2D.setMagnitude
      (Agent.velocity (Agent.update (Ligeirinho.base l) dt))
      (Agent.maxSpeed (Ligeirinho.base l)).
Proof.
  unfold Ligeirinho.update; simpl. now rewrite Agent_update_maxSpeed.
Qed.


(** In exact arithmetic the re-normalisation brings the speed to
    [maxSpeed] (not negative) whenever the velocity left by the
    integration is not (0,0). *)
Lemma target_speed_over_reals (l : Ligeirinho.t) (dt : R) :
  0 <= Agent.maxSpeed (Ligeirinho.base l) ->
  integrated l <> Vector2D.zero ->
  Vector2D.magnitude (Agent.velocity (Ligeirinho.base (Ligeirinho.update l dt)))
  = Agent.maxSpeed (Ligeirinho.base l).
Proof.
  intros Hm. unfold integrated.
  rewrite Ligeirinho_update_velocity.
  set (m := Agent.maxSpeed (Ligeirinho.base l)) in *.
  destruct (Agent.active (Ligeirinho.base l)) eqn:A.
  - rewrite (Agent_update_active _ dt A). fold m.
    set (w := Vector2D.add _ _).
    intros Hw. destruct (Req_dec_T m 0) as [Z|Z].
    + unfold Vector2D.setMagnitude. rewrite magnitude_multiply, Z, Rabs_R0.
      ring.
    + apply setMagnitude_reaches; [assumption|].
      apply limit_nonzero; [lra | assumption].
  - rewrite (Agent_update_inactive _ dt A).
    intros Hv. now apply setMagnitude_reaches.
Qed.

(** On doubles it does not: a target of [maxSpeed] 7 flying at (3, 4)
    with no force applied has, after its update, the velocity
    (4.2, 5.6000000000000005), of magnitude 7.000000000000001. *)
Lemma target_speed_on_doubles :
  let l := Double.Ligeirinho.mk
             (Double.Agent.mk (Double.Vector2D.mk 0 0) (Double.Vector2D.mk 3 4)
                              (Double.Vector2D.mk 0 0) 80 1 7 0.5 true)
             None 0 in
  let v := Double.Agent.velocity
             (Double.Ligeirinho.base (Double.Ligeirinho.update l 1)) in
  v = Double.Vector2D.mk 0x1.0cccccccccccdp+2 0x1.6666666666667p+2
  /\ Double.Vector2D.magnitude v = 0x1.c000000000001p+2%float
  /\ (7 <? Double.Vector2D.magnitude v)%float = true.
Proof. cbv zeta. repeat split; vm_compute; reflexivity. Qed.





(** ** Strategies without a target or deactivated *)

Lemma normalize_x_axis (a b : R) :
  0 < a -> b = 0 -> Vector2D.normalize (Vector2D.mk a b) = Vector2D.mk 1 0.
Proof.
  intros Ha ->.
  assert (M : Vector2D.magnitude (Vector2D.mk a 0) = a).
  { unfold Vector2D.magnitude; simpl.
    replace (a * a + 0 * 0) with (a * a) by ring.
    apply sqrt_square; lra. }
  rewrite normalize_pos by (rewrite M; lra).
  rewrite M; simpl. f_equal; field; lra.
Qed.

(** C5, as the code has it.  Direct and Predictive return the zero force
    when they are deactivated or the target is absent; Patrol returns the
    zero force (and keeps its state) when it is deactivated; an active
    Patrol with no target patrols: it returns the patrol steering force
    and advances its patrol time by one. *)
Theorem zero_force_when_inactive_or_no_target
        (chaser : Frajola.t) (targetDetected : bool) :
  (forall (s : DirectStrategy.t) (target : option Ligeirinho.t),
      Strategy.is_active s = false \/ target = None ->
      Strategy.calculate s chaser target targetDetected
      = (Vector2D.mk 0 0, s))
  /\ (forall (s : PredictiveStrategy.t) (target : option Ligeirinho.t),
         Strategy.is_active s = false \/ target = None ->
         Strategy.calculate s chaser target targetDetected
         = (Vector2D.mk 0 0, s))
  /\ (forall (s : PatrolStrategy.t) (target : option Ligeirinho.t),
         Strategy.is_active s = false ->
         Strategy.calculate s chaser target targetDetected
         = (Vector2D.mk 0 0, s))
  /\ (forall s : PatrolStrategy.t,
         Strategy.is_active s = true ->
         Strategy.calculate s chaser None targetDetected
         = (PatrolStrategy.patrolBehavior
              (PatrolStrategy.updateState s targetDetected) chaser,
            PatrolStrategy.with_patrolTime
              (PatrolStrategy.updateState s targetDetected)
              (PatrolStrategy.patrolTime s + 1))).
Proof.
  simpl. repeat split.
  - intros s target [H| ->]; unfold DirectStrategy.calculate.
    + now rewrite H.
    + now destruct (DirectStrategy.active s).
  - intros s target [H| ->]; unfold PredictiveStrategy.calculate.
    + now rewrite H.
    + now destruct (PredictiveStrategy.active s).
  - intros s target H. unfold PatrolStrategy.calculate. now rewrite H.
  - intros s H. unfold PatrolStrategy.calculate. rewrite H; simpl.
    now destruct targetDetected.
Qed.

Lemma zero_force_witness :
  let chaser := Frajola.constructor 700 450 9 in
  let s := Strategy.deactivate PatrolStrategy.constructor in
  Strategy.is_active s = false
  /\ Strategy.calculate s chaser None false = (Vector2D.mk 0 0, s).
Proof.
  intros chaser s. split; [reflexivity|].
  apply (zero_force_when_inactive_or_no_target chaser false). reflexivity.
Defined.

(** An active Patrol strategy, just constructed, asked for a force with
    no target: the chaser at the centre of the arena is steered towards
    the patrol circle with the force (0.5, 0), not (0, 0). *)
Lemma patrol_without_target_counterexample :
  let chaser := Frajola.constructor 700 450 9 in
  fst (Strategy.calculate PatrolStrategy.constructor chaser None false)
  = Vector2D.mk (5 / 10) 0
  /\ fst (Strategy.calculate PatrolStrategy.constructor chaser None false)
     <> Vector2D.mk 0 0.
Proof.
  intros chaser.
  assert (E : fst (Strategy.calculate PatrolStrategy.constructor chaser
                                      None false)
              = Vector2D.mk (5 / 10) 0).
  { simpl. unfold PatrolStrategy.patrolBehavior; simpl.
    unfold CONFIG.patrol_patrolAngularSpeed, CONFIG.patrol_patrolRadius,
      CONFIG.patrol_patrolSpeed, CONFIG.canvas_width, CONFIG.canvas_height.
    replace (0 * (5 / 100)) with 0 by ring.
    rewrite cos_0, sin_0. js_cond.
    unfold Vector2D.subtract'; simpl.
    rewrite normalize_x_axis by lra.
    unfold Vector2D.multiply; simpl.
    unfold Vector2D.limit, Vector2D.magnitudeSquared; simpl.
    rewrite (proj2 (js_gt_spec _ _)) by lra.
    rewrite normalize_x_axis by lra.
    unfold Vector2D.multiply; simpl. f_equal; lra. }
  split; [exact E|].
  rewrite E. intros C. injection C as C. lra.
Qed.

(** ** One frame of the simulation loop *)

Lemma heap_set_same (h : Heap) (r : ref) (l : Ligeirinho.t) :
  heap_set h r l r = l.
Proof. unfold heap_set. now rewrite Nat.eqb_refl. Qed.

(** C9. One [update] does nothing while an outcome is pending.
    Otherwise the outcome of the frame is decided by the two tests on
    the agents as the frame moved them, capture first:
    [CollisionDetector.checkCapture] alone decides the capture, and when
    it returns true the capture outcome is raised and
    [Ligeirinho.hasEscaped] is not run, whatever it would have returned:
    no escape is raised and the target is the one the physics left (no
    escape attempt counted).  Only when [checkCapture] returns false is
    [hasEscaped] run, its answer decides the escape and the target is
    the one it returns.  So a frame raises at most one outcome, and a
    frame in which both conditions hold raises the capture. *)
Theorem update_one_outcome_capture_first (s : Simulation.t) (dt : R) :
  let s' := fst (Simulation.update s dt) in
  let checks := snd (Simulation.update s dt) in
  let captured := fst (captureTest s) in
  let escaped := fst (escapeTest s) in
  (if Simulation.captureInProgress s || Simulation.escapeInProgress s
   then s' = s /\ checks = []
   else
     Simulation.captureInProgress s' = captured
     /\ Simulation.escapeInProgress s' = negb captured && escaped
     /\ Simulation.timers s'
        = Simulation.timers s
          ++ (if captured then [(Simulation.restartAfterCapture, 2000)]
              else if escaped then [(Simulation.restartAfterEscape, 500)]
              else [])
     /\ Simulation.frajola s' = chaserAtTests s
     /\ Simulation.collisionDetector s' = snd (captureTest s)
     /\ targetOf s'
        = (if captured then targetAtTests s else snd (escapeTest s))
     /\ checks
        = (if captured then [Simulation.CaptureChecked true]
           else [Simulation.CaptureChecked false;
                 Simulation.EscapeChecked escaped])
     /\ (captured = true -> escaped = true ->
         Simulation.captureInProgress s' = true
         /\ Simulation.escapeInProgress s' = false
         /\ Ligeirinho.escapeAttempts (targetOf s')
            = Ligeirinho.escapeAttempts (targetOf s)))
  /\ (length (filter Simulation.fired checks) <= 1)%nat.
Proof.
  cbv zeta. unfold captureTest, escapeTest, chaserAtTests, targetAtTests,
    targetOf, Simulation.update.
  destruct (Simulation.captureInProgress s) eqn:C;
    [simpl; split; [auto | lia]|].
  destruct (Simulation.escapeInProgress s) eqn:E;
    [simpl; split; [auto | lia]|].
  simpl orb. cbv iota.
  destruct (Frajola_update _ _ _ _ _) as [[f ds] ss].
  destruct (CollisionDetector.checkCapture _ _ _) as [captured cd].
  destruct captured.
  - simpl. rewrite E, heap_set_same. split; [|lia].
    repeat (split || intro); reflexivity.
  - destruct (Ligeirinho.hasEscaped _ _ _ _) as [escaped l'].
    destruct escaped; simpl; rewrite ?C, ?E, ?heap_set_same, ?app_nil_r;
      (split; [|lia]); repeat split; try reflexivity; intros; discriminate.
Qed.

(** ** A new attempt and the Patrol strategy *)

(** *** A run that ends in an escape with the Patrol strategy selected *)

Lemma sqrt2_bounds : 1.41 < sqrt 2 < 1.42.
Proof.
  split.
  - replace 1.41 with (sqrt (1.41 * 1.41)) by (apply sqrt_square; lra).
    apply sqrt_lt_1; lra.
  - replace 1.42 with (sqrt (1.42 * 1.42)) by (apply sqrt_square; lra).
    apply sqrt_lt_1; lra.
Qed.

Lemma diag_bounds : 5.63 < diag < 5.68.
Proof.
  pose proof sqrt2_bounds as [L U]. unfold diag. split.
  - apply Rmult_lt_reg_r with (sqrt 2); [lra|].
    replace (8 / sqrt 2 * sqrt 2) with 8 by (field; lra). nra.
  - apply Rmult_lt_reg_r with (sqrt 2); [lra|].
    replace (8 / sqrt 2 * sqrt 2) with 8 by (field; lra). nra.
Qed.

Lemma diag_square : diag * diag = 32.
Proof.
  pose proof sqrt2_bounds as [L U].
  pose proof (sqrt_sqrt 2 ltac:(lra)) as S. unfold diag.
  replace (8 / sqrt 2 * (8 / sqrt 2)) with (64 / (sqrt 2 * sqrt 2))
    by (field; lra).
  rewrite S. lra.
Qed.

Lemma diag_magnitude : Vector2D.magnitude (Vector2D.mk (- diag) diag) = 8.
Proof.
  unfold Vector2D.magnitude; simpl.
  replace (- diag * - diag + diag * diag) with (8 * 8)
    by (pose proof diag_square; nra).
  apply sqrt_square; lra.
Qed.

(** With no force on it, a target that moves at its [maxSpeed] keeps its
    velocity and advances by it. *)
Lemma Ligeirinho_update_cruise (l : Ligeirinho.t) (p v : Vector2D.t) :
  Agent.active (Ligeirinho.base l) = true ->
  Agent.position (Ligeirinho.base l) = p ->
  Agent.velocity (Ligeirinho.base l) = v ->
  Agent.acceleration (Ligeirinho.base l) = Vector2D.zero ->
  0 < Agent.maxSpeed (Ligeirinho.base l) ->
  Vector2D.magnitude v = Agent.maxSpeed (Ligeirinho.base l) ->
  let l' := Ligeirinho.update l 1 in
  Agent.active (Ligeirinho.base l') = true
  /\ Agent.position (Ligeirinho.base l')
     = Vector2D.mk (Vector2D.x p + Vector2D.x v) (Vector2D.y p + Vector2D.y v)
  /\ Agent.velocity (Ligeirinho.base l') = v
  /\ Agent.acceleration (Ligeirinho.base l') = Vector2D.zero
  /\ Agent.maxSpeed (Ligeirinho.base l') = Agent.maxSpeed (Ligeirinho.base l)
  /\ Ligeirinho.escapeAttempts l' = Ligeirinho.escapeAttempts l.
Proof.
  intros A P V C Hm M l'.
  assert (W : Vector2D.add v Vector2D.zero = v).
  { unfold Vector2D.add, Vector2D.zero; simpl.
    rewrite <- (eta v) at 3. f_equal; ring. }
  assert (L : Vector2D.limit v (Agent.maxSpeed (Ligeirinho.base l)) = v)
    by (apply limit_within; lra).
  assert (N : Vector2D.setMagnitude v (Agent.maxSpeed (Ligeirinho.base l)) = v).
  { unfold Vector2D.setMagnitude. rewrite normalize_pos by lra.
    unfold Vector2D.multiply; simpl. rewrite <- (eta v) at 5.
    rewrite M. f_equal; field; lra. }
  unfold l', Ligeirinho.update, Agent.update. rewrite A; simpl.
  rewrite P, V, C, W, L, N.
  repeat split; try exact A;
    unfold Vector2D.add, Vector2D.multiply, Vector2D.zero; simpl;
    f_equal; ring.
Qed.

Ltac js_hyps :=
  repeat match goal with
    | H : js_lt _ _ = true |- _ => apply js_lt_spec in H
    | H : js_lt _ _ = false |- _ => apply js_lt_false in H
    | H : js_gt _ _ = true |- _ => apply js_gt_spec in H
    | H : js_gt _ _ = false |- _ => apply js_gt_false in H
    end.

(** Case split on a condition that has no condition inside. *)
Ltac split_if :=
  match goal with
  | |- context [if ?c then _ else _] =>
      lazymatch c with
      | context [if _ then _ else _] => fail
      | _ => destruct c eqn:?
      end
  end.

Lemma distance_ge_dx (p q : Vector2D.t) :
  Vector2D.x p - Vector2D.x q <= Vector2D.distanceTo p q.
Proof.
  unfold Vector2D.distanceTo. cbv zeta.
  set (dx := Vector2D.x q - Vector2D.x p).
  set (dy := Vector2D.y q - Vector2D.y p).
  pose proof (sqrt_pos (dx * dx + dy * dy)) as P.
  pose proof (sqrt_sqrt (dx * dx + dy * dy) ltac:(nra)) as S.
  replace (Vector2D.x p - Vector2D.x q) with (- dx) by (unfold dx; ring).
  nra.
Qed.

(** After [constrainToBounds] the agent is at least half its size away
    from the left edge. *)
Lemma constrainToBounds_left (pe : PhysicsEngine.t) (a : Agent.t) (d : R) :
  Agent.size a <= PhysicsEngine.canvasWidth pe ->
  Agent.size a / 2
  <= Vector2D.x (Agent.position (PhysicsEngine.constrainToBounds pe a d)).
Proof.
  intros H. unfold PhysicsEngine.constrainToBounds. cbv zeta beta.
  repeat (split_if; simpl); js_hyps; lra.
Qed.

Lemma constrainToBounds_size (pe : PhysicsEngine.t) (a : Agent.t) (d : R) :
  Agent.size (PhysicsEngine.constrainToBounds pe a d) = Agent.size a.
Proof.
  unfold PhysicsEngine.constrainToBounds. cbv zeta beta.
  repeat (split_if; simpl); reflexivity.
Qed.

Lemma Agent_update_size (a : Agent.t) (dt : R) :
  Agent.size (Agent.update a dt) = Agent.size a.
Proof. unfold Agent.update. destruct (Agent.active a); reflexivity. Qed.

Lemma Frajola_update_size (f : Frajola.t) (h : Heap) (dt : R)
      (ds : option DetectionSystem.t) (ss : Strategies) :
  Agent.size (Frajola.base (fst (fst (Frajola_update f h dt ds ss))))
  = Agent.size (Frajola.base f).
Proof.
  unfold Frajola_update.
  destruct (Agent.active (Frajola.base f)); [|reflexivity].
  destruct (deref h (Frajola.target f)) as [tg|]; [|reflexivity].
  destruct ds as [ds|].
  - destruct (DetectionSystem.detect ds (Some f) (Some tg)) as [b ds'].
    destruct (Frajola.strategy _) as [n|].
    + destruct (calculate_at ss n _ (Some tg) _) as [st ss'].
      simpl. destruct b; simpl; now rewrite Agent_update_size.
    + simpl. destruct b; simpl; now rewrite Agent_update_size.
  - destruct (Frajola.strategy _) as [n|].
    + destruct (calculate_at ss n _ (Some tg) _) as [st ss'].
      simpl. destruct (Frajola.targetDetected f); simpl;
        now rewrite Agent_update_size.
    + simpl. destruct (Frajola.targetDetected f); simpl;
        now rewrite Agent_update_size.
Qed.

(** No [calculate] ever lowers the patrol time. *)
Lemma PatrolStrategy_calculate_patrolTime
      (s : PatrolStrategy.t) (c : Frajola.t) (tg : option Ligeirinho.t)
      (d : bool) :
  PatrolStrategy.patrolTime s
  <= PatrolStrategy.patrolTime (snd (PatrolStrategy.calculate s c tg d)).
Proof.
  unfold PatrolStrategy.calculate.
  destruct (PatrolStrategy.active s); simpl; [|lra].
  destruct tg as [tg|]; destruct d; simpl; lra.
Qed.

Lemma calculate_at_patrolTime (ss : Strategies) (n : StrategyName)
      (c : Frajola.t) (tg : option Ligeirinho.t) (d : bool) :
  PatrolStrategy.patrolTime (s_patrol ss)
  <= PatrolStrategy.patrolTime (s_patrol (snd (calculate_at ss n c tg d))).
Proof.
  destruct n; simpl; try lra.
  pose proof (PatrolStrategy_calculate_patrolTime (s_patrol ss) c tg d) as P.
  destruct (PatrolStrategy.calculate (s_patrol ss) c tg d); simpl in *. lra.
Qed.

Lemma Frajola_update_patrolTime (f : Frajola.t) (h : Heap) (dt : R)
      (ds : option DetectionSystem.t) (ss : Strategies) :
  PatrolStrategy.patrolTime (s_patrol ss)
  <= PatrolStrategy.patrolTime
       (s_patrol (snd (Frajola_update f h dt ds ss))).
Proof.
  unfold Frajola_update.
  destruct (Agent.active (Frajola.base f)); [|simpl; lra].
  destruct (deref h (Frajola.target f)) as [tg|]; [|simpl; lra].
  destruct ds as [ds|].
  - destruct (DetectionSystem.detect ds (Some f) (Some tg)) as [b ds'].
    destruct (Frajola.strategy _) as [n|]; [|simpl; lra].
    pose proof (calculate_at_patrolTime ss n
                  (Frajola.with_targetDetected f b) (Some tg)
                  (Frajola.targetDetected (Frajola.with_targetDetected f b)))
      as P.
    destruct (calculate_at ss n _ (Some tg) _) as [st ss']. exact P.
  - destruct (Frajola.strategy _) as [n|]; [|simpl; lra].
    pose proof (calculate_at_patrolTime ss n f (Some tg)
                  (Frajola.targetDetected f)) as P.
    destruct (calculate_at ss n _ (Some tg) _) as [st ss']. exact P.
Qed.

Lemma no_capture_left_of_arena
      (cd : CollisionDetector.t) (pe : PhysicsEngine.t) (f : Frajola.t)
      (l : Ligeirinho.t) (d : R) :
  CollisionDetector.captureDistance cd = 60 ->
  Agent.size (Frajola.base f) = 150 ->
  pe = PhysicsEngine.constructor ->
  Vector2D.x (Agent.position (Ligeirinho.base l)) <= 0 ->
  CollisionDetector.checkCapture cd
    (Some (Frajola.with_base f
             (PhysicsEngine.constrainToBounds pe (Frajola.base f) d)))
    (Some l)
  = (false, cd).
Proof.
  intros CD SZ -> X. unfold CollisionDetector.checkCapture.
  destruct (Agent.active (Ligeirinho.base l)); [|reflexivity].
  simpl negb. cbv iota zeta.
  rewrite (proj2 (js_lt_false _ _)); [reflexivity|].
  rewrite CD. unfold Agent.distanceTo; simpl.
  pose proof (distance_ge_dx
                (Agent.position
                   (PhysicsEngine.constrainToBounds PhysicsEngine.constructor
                      (Frajola.base f) d))
                (Agent.position (Ligeirinho.base l))) as D.
  pose proof (constrainToBounds_left PhysicsEngine.constructor
                (Frajola.base f) d) as B.
  rewrite SZ in B. simpl in B. unfold CONFIG.canvas_width in B.
  specialize (B ltac:(lra)). lra.
Qed.

Lemma hasEscaped_inside (l : Ligeirinho.t) :
  - 100 <= Vector2D.x (Agent.position (Ligeirinho.base l)) <= 1500 ->
  - 100 <= Vector2D.y (Agent.position (Ligeirinho.base l)) <= 1000 ->
  Ligeirinho.hasEscaped l CONFIG.canvas_width CONFIG.canvas_height
                        CONFIG.physics_boundaryMargin
  = (false, l).
Proof.
  intros X Y. unfold Ligeirinho.hasEscaped, CONFIG.canvas_width,
    CONFIG.canvas_height, CONFIG.physics_boundaryMargin. cbv zeta.
  now js_cond.
Qed.

Lemma hasEscaped_left (l : Ligeirinho.t) :
  Vector2D.x (Agent.position (Ligeirinho.base l)) < - 100 ->
  Ligeirinho.hasEscaped l CONFIG.canvas_width CONFIG.canvas_height
                        CONFIG.physics_boundaryMargin
  = (true, Ligeirinho.mk (Ligeirinho.base l) (Ligeirinho.spawnEdge l)
                         (S (Ligeirinho.escapeAttempts l))).
Proof.
  intros X. unfold Ligeirinho.hasEscaped, CONFIG.canvas_width,
    CONFIG.canvas_height, CONFIG.physics_boundaryMargin. cbv zeta.
  rewrite (proj2 (js_lt_spec _ (- 100))) by lra. reflexivity.
Qed.

(** The part of a frame that both the step and the last frame share:
    where the target is after its update, and that no capture is seen. *)
Lemma Cruising_frame (k : nat) (t : R) (s : Simulation.t) :
  Cruising k t s ->
  exists f ds ss l,
    Frajola_update (Simulation.frajola s) (Simulation.heap s) 1
                   (Some (Simulation.detectionSystem s))
                   (Simulation.strategies s)
    = (f, ds, ss)
    /\ l = Ligeirinho.update (targetOf s) 1
    /\ Agent.size (Frajola.base f) = 150
    /\ t <= PatrolStrategy.patrolTime (s_patrol ss)
    /\ Agent.active (Ligeirinho.base l) = true
    /\ Agent.position (Ligeirinho.base l)
       = Vector2D.mk (- (INR (S k) * diag)) (INR (S k) * diag)
    /\ Agent.velocity (Ligeirinho.base l) = Vector2D.mk (- diag) diag
    /\ Agent.acceleration (Ligeirinho.base l) = Vector2D.zero
    /\ Agent.maxSpeed (Ligeirinho.base l) = 8
    /\ CollisionDetector.checkCapture (Simulation.collisionDetector s)
         (Some (Frajola.with_base f
                  (PhysicsEngine.constrainToBounds
                     (Simulation.physicsEngine s) (Frajola.base f) (8 / 10))))
         (Some l)
       = (false, Simulation.collisionDetector s).
Proof.
  intros [C E T PE CD SZ A V AC SP PO PT].
  pose proof (Frajola_update_size (Simulation.frajola s) (Simulation.heap s) 1
                (Some (Simulation.detectionSystem s))
                (Simulation.strategies s)) as FS.
  pose proof (Frajola_update_patrolTime (Simulation.frajola s)
                (Simulation.heap s) 1 (Some (Simulation.detectionSystem s))
                (Simulation.strategies s)) as FP.
  destruct (Frajola_update _ _ _ _ _) as [[f ds] ss]. simpl in FS, FP.
  pose proof diag_bounds as [DL DU].
  destruct (Ligeirinho_update_cruise (targetOf s) _ _ A PO V AC)
    as (A1 & P1 & V1 & AC1 & M1 & _).
  { rewrite SP; lra. }
  { rewrite SP. apply diag_magnitude. }
  assert (P2 : Agent.position (Ligeirinho.base (Ligeirinho.update (targetOf s) 1))
               = Vector2D.mk (- (INR (S k) * diag)) (INR (S k) * diag)).
  { rewrite P1, S_INR; cbn [Vector2D.x Vector2D.y]. f_equal; ring. }
  exists f, ds, ss, (Ligeirinho.update (targetOf s) 1).
  repeat split; try assumption; try congruence.
  - unfold Simulation.patrolOf in PT. lra.
  - apply no_capture_left_of_arena; try assumption; try congruence.
    rewrite P2; cbn [Vector2D.x]. pose proof (pos_INR (S k)). nra.
Qed.

Lemma Cruising_step (k : nat) (t : R) (s : Simulation.t) :
  Cruising k t s -> (k < 17)%nat ->
  Cruising (S k) t (fst (Simulation.update s 1)).
Proof.
  intros H Hk.
  destruct (Cruising_frame k t s H)
    as (f & ds & ss & l & FU & L & SZ & PT & A & P & V & AC & SP & CC).
  destruct H as [C E T PE CD _ _ _ _ _ _ _].
  pose proof diag_bounds as [DL DU].
  assert (K : 0 <= INR (S k) <= 17).
  { split; [apply pos_INR|].
    replace 17 with (INR 17) by (simpl; lra). apply le_INR. lia. }
  unfold targetOf in L.
  unfold Simulation.update. rewrite C, E. simpl orb. cbv iota.
  rewrite FU. cbv iota beta. rewrite <- L, CC. cbv iota beta.
  rewrite hasEscaped_inside
    by (rewrite P; cbn [Vector2D.x Vector2D.y]; nra).
  constructor; simpl; unfold targetOf; simpl;
    rewrite ?heap_set_same, ?constrainToBounds_size;
    try assumption; try reflexivity.
Qed.

Lemma Cruising_escape (t : R) (s : Simulation.t) :
  Cruising 17 t s ->
  let s' := fst (Simulation.update s 1) in
  Simulation.timers s' = [(Simulation.restartAfterEscape, 500)]
  /\ Simulation.escapeInProgress s' = true
  /\ t <= PatrolStrategy.patrolTime (Simulation.patrolOf s').
Proof.
  intros H.
  destruct (Cruising_frame 17 t s H)
    as (f & ds & ss & l & FU & L & SZ & PT & A & P & V & AC & SP & CC).
  destruct H as [C E T PE CD _ _ _ _ _ _ _].
  pose proof diag_bounds as [DL DU].
  assert (K : INR 18 = 18) by (simpl; lra).
  unfold targetOf in L.
  unfold Simulation.update. rewrite C, E. simpl orb. cbv iota.
  rewrite FU. cbv iota beta. rewrite <- L, CC. cbv iota beta.
  rewrite hasEscaped_left
    by (rewrite P, K; cbn [Vector2D.x]; lra).
  simpl. rewrite T. repeat split. exact PT.
Qed.

Lemma run_last (n : nat) (s : Simulation.t) :
  run (S n) s = fst (Simulation.update (run n s) 1).
Proof.
  revert s. induction n as [|n IH]; intros s; [reflexivity|].
  change (run (S (S n)) s) with (run (S n) (fst (Simulation.update s 1))).
  now rewrite IH.
Qed.

Lemma Cruising_run (n k : nat) (t : R) (s : Simulation.t) :
  Cruising k t s -> (k + n <= 17)%nat -> Cruising (k + n) t (run n s).
Proof.
  revert k s. induction n as [|n IH]; intros k s H Hk.
  - now rewrite Nat.add_0_r.
  - rewrite Nat.add_succ_r, run_last.
    apply Cruising_step; [apply IH; [assumption | lia] | lia].
Qed.


Lemma Int_part_0 : Int_part (0 * 4) = 0%Z.
Proof.
  unfold Int_part. replace (0 * 4) with 0 by ring.
  rewrite <- (tech_up 0 1); [reflexivity | simpl; lra | simpl; lra].
Qed.

Lemma corner_start_target :
  targetOf corner_start
  = Ligeirinho.spawnAtRandomEdge
      (Ligeirinho.constructor 0 0 CONFIG.target_defaultSpeed)
      CONFIG.canvas_width CONFIG.canvas_height 0 0 0.
Proof. reflexivity. Qed.

Lemma normalize_diagonal :
  Vector2D.normalize (Vector2D.mk ((0 - 5 / 10) * 2) 1)
  = Vector2D.mk (- (1 / sqrt 2)) (1 / sqrt 2).
Proof.
  pose proof sqrt2_bounds as [L U].
  assert (M : Vector2D.magnitude (Vector2D.mk ((0 - 5 / 10) * 2) 1) = sqrt 2).
  { unfold Vector2D.magnitude; simpl. f_equal. lra. }
  rewrite normalize_pos by (rewrite M; lra).
  rewrite M; simpl. f_equal; field; lra.
Qed.

Lemma corner_spawn :
  let l := Ligeirinho.spawnAtRandomEdge
             (Ligeirinho.constructor 0 0 CONFIG.target_defaultSpeed)
             CONFIG.canvas_width CONFIG.canvas_height 0 0 0 in
  Agent.active (Ligeirinho.base l) = true
  /\ Agent.position (Ligeirinho.base l) = Vector2D.mk 0 0
  /\ Agent.velocity (Ligeirinho.base l) = Vector2D.mk (- diag) diag
  /\ Agent.acceleration (Ligeirinho.base l) = Vector2D.zero
  /\ Agent.maxSpeed (Ligeirinho.base l) = 8.
Proof.
  intros l. unfold l, Ligeirinho.spawnAtRandomEdge.
  rewrite Int_part_0. cbv iota beta zeta.
  assert (M : Agent.maxSpeed
                (Ligeirinho.base
                   (Ligeirinho.constructor 0 0 CONFIG.target_defaultSpeed))
              = 8).
  { simpl. unfold CONFIG.target_defaultSpeed. now js_cond. }
  rewrite normalize_diagonal, M.
  pose proof sqrt2_bounds as [L U].
  unfold Vector2D.multiply; simpl. unfold CONFIG.target_defaultSpeed.
  js_cond.
  repeat split; try reflexivity;
    unfold Vector2D.set, diag, CONFIG.canvas_width; f_equal; field; lra.
Qed.

Lemma corner_start_cruising : Cruising 0 0 corner_start.
Proof.
  destruct corner_spawn as (A & P & V & AC & M).
  constructor; rewrite ?corner_start_target; try assumption;
    try reflexivity.
  - simpl. unfold CONFIG.chaser_size. now js_cond.
  - rewrite P. simpl. f_equal; ring.
Qed.

Lemma js_le_false (a b : R) : js_le a b = false <-> b < a.
Proof. unfold js_le; destruct (Rle_dec a b); split; (lra || discriminate || auto). Qed.

Lemma PatrolStrategy_calculate_undetected
      (s : PatrolStrategy.t) (c : Frajola.t) (tg : option Ligeirinho.t) :
  PatrolStrategy.active s = true ->
  PatrolStrategy.patrolTime (snd (PatrolStrategy.calculate s c tg false))
  = PatrolStrategy.patrolTime s + 1.
Proof.
  intros H. unfold PatrolStrategy.calculate. rewrite H; simpl.
  now destruct tg.
Qed.

(** In the first frame the target is 700 to the left of the chaser, out
    of the detection range, and the Patrol strategy patrols. *)
Lemma corner_start_first_frame :
  1 <= PatrolStrategy.patrolTime
         (s_patrol
            (snd (Frajola_update (Simulation.frajola corner_start)
                    (Simulation.heap corner_start) 1
                    (Some (Simulation.detectionSystem corner_start))
                    (Simulation.strategies corner_start)))).
Proof.
  destruct corner_spawn as (A & P & V & AC & M).
  unfold Frajola_update.
  change (deref (Simulation.heap corner_start)
                (Frajola.target (Simulation.frajola corner_start)))
    with (Some (targetOf corner_start)).
  rewrite corner_start_target.
  set (l := Ligeirinho.spawnAtRandomEdge _ _ _ _ _ _) in *.
  change (Agent.active (Frajola.base (Simulation.frajola corner_start)))
    with true.
  cbv iota.
  assert (D : DetectionSystem.detect (Simulation.detectionSystem corner_start)
                (Some (Simulation.frajola corner_start)) (Some l)
              = (false,
                 DetectionSystem.updateDetectionHistory
                   (Simulation.detectionSystem corner_start) false)).
  { unfold DetectionSystem.detect. rewrite A. simpl negb. cbv iota.
    change (DetectionSystem.detectionMethod
              (Simulation.detectionSystem corner_start))
      with DetectionSystem.radius. cbv iota.
    assert (F : DetectionSystem.radiusDetection
                  (Simulation.detectionSystem corner_start)
                  (Simulation.frajola corner_start) l = false).
    { unfold DetectionSystem.radiusDetection. apply js_le_false.
      unfold Agent.distanceTo.
      pose proof (distance_ge_dx
                    (Agent.position
                       (Frajola.base (Simulation.frajola corner_start)))
                    (Agent.position (Ligeirinho.base l))) as G.
      rewrite P in *. simpl in G |- *.
      unfold CONFIG.chaser_startX, CONFIG.chaser_detectionRadius,
        CONFIG.detection_baseSensitivity in *. lra. }
    now rewrite F. }
  rewrite D. cbv iota beta.
  change (Frajola.strategy
            (Frajola.with_targetDetected (Simulation.frajola corner_start)
                                         false))
    with (Some patrol).
  cbv iota. unfold calculate_at.
  pose proof (PatrolStrategy_calculate_undetected
                (s_patrol (Simulation.strategies corner_start))
                (Frajola.with_targetDetected (Simulation.frajola corner_start)
                                             false)
                (Some l) eq_refl) as Q.
  change (Strategy.calculate (s_patrol (Simulation.strategies corner_start)))
    with (PatrolStrategy.calculate
            (s_patrol (Simulation.strategies corner_start))).
  change (Frajola.targetDetected
            (Frajola.with_targetDetected (Simulation.frajola corner_start)
                                         false))
    with false.
  destruct (PatrolStrategy.calculate _ _ _ _) as [st p']. simpl in Q.
  cbv iota beta. simpl snd. simpl s_patrol. rewrite Q. simpl. lra.
Qed.

Lemma update_strategies (s : Simulation.t) (dt : R) :
  Simulation.captureInProgress s = false ->
  Simulation.escapeInProgress s = false ->
  Simulation.strategies (fst (Simulation.update s dt))
  = snd (Frajola_update (Simulation.frajola s) (Simulation.heap s) 1
           (Some (Simulation.detectionSystem s)) (Simulation.strategies s)).
Proof.
  intros C E. unfold Simulation.update. rewrite C, E. simpl orb. cbv iota.
  destruct (Frajola_update _ _ _ _ _) as [[f ds] ss].
  destruct (CollisionDetector.checkCapture _ _ _) as [[] cd]; [reflexivity|].
  destruct (Ligeirinho.hasEscaped _ _ _ _) as [[] l']; reflexivity.
Qed.

Lemma Cruising_raise (k : nat) (t t' : R) (s : Simulation.t) :
  Cruising k t s ->
  t' <= PatrolStrategy.patrolTime (Simulation.patrolOf s) ->
  Cruising k t' s.
Proof. intros [] H. constructor; assumption. Qed.

Lemma run_first (n : nat) (s : Simulation.t) :
  run (S n) s = run n (fst (Simulation.update s 1)).
Proof. reflexivity. Qed.

Lemma fire_patrolOf (tm : Simulation.Timer) (s : Simulation.t)
      (tms : list (Simulation.Timer * R)) (d : Simulation.Draws) :
  Simulation.patrolOf (Simulation.fire tm (Simulation.with_timers s tms) d)
  = Simulation.patrolOf s.
Proof. destruct tm; reflexivity. Qed.

Lemma corner_start_second :
  Cruising 1 1 (fst (Simulation.update corner_start 1)).
Proof.
  pose proof corner_start_cruising as H.
  apply Cruising_raise with (t := 0).
  - apply (Cruising_step 0 0 corner_start H). lia.
  - unfold Simulation.patrolOf.
    rewrite update_strategies by apply H.
    apply corner_start_first_frame.
Qed.

(** *** No operation of the simulation lowers the patrol time *)

Lemma update_patrolTime (s : Simulation.t) (dt : R) :
  PatrolStrategy.patrolTime (Simulation.patrolOf s)
  <= PatrolStrategy.patrolTime
       (Simulation.patrolOf (fst (Simulation.update s dt))).
Proof.
  destruct (Simulation.captureInProgress s) eqn:C.
  { unfold Simulation.update. rewrite C. simpl. lra. }
  destruct (Simulation.escapeInProgress s) eqn:E.
  { unfold Simulation.update. rewrite C, E. simpl. lra. }
  unfold Simulation.patrolOf. rewrite (update_strategies s dt C E).
  apply Frajola_update_patrolTime.
Qed.

Lemma react_strategies (s : Simulation.t) (e : Event) :
  match e with
  | Frame => True
  | _ => Simulation.strategies (react s e) = Simulation.strategies s
  end.
Proof.
  destruct e; simpl; try reflexivity.
  unfold expire. destruct (Simulation.timers s) as [|[tm r] rest];
    [reflexivity | destruct tm; reflexivity].
Qed.

Lemma react_patrolTime (s : Simulation.t) (e : Event) :
  PatrolStrategy.patrolTime (Simulation.patrolOf s)
  <= PatrolStrategy.patrolTime (Simulation.patrolOf (react s e)).
Proof.
  pose proof (react_strategies s e) as H.
  destruct e; try (unfold Simulation.patrolOf; rewrite H; lra).
  apply update_patrolTime.
Qed.

Lemma events_patrolTime (events : list Event) (s : Simulation.t) :
  PatrolStrategy.patrolTime (Simulation.patrolOf s)
  <= PatrolStrategy.patrolTime
       (Simulation.patrolOf (fold_left react events s)).
Proof.
  revert s. induction events as [|e events IH]; intros s; simpl; [lra|].
  pose proof (react_patrolTime s e). pose proof (IH (react s e)). lra.
Qed.

(** C4, as the code has it.  When the restart callback of a capture or
    of an escape begins a new attempt, both agents are recreated and the
    current strategy object is attached to the new chaser as it is: the
    table of strategies is unchanged, so the Patrol strategy keeps the
    patrol time and the state it had when the previous attempt ended.
    Nor does any other operation of the simulation reset it: a timer
    firing, reset, pause and a strategy selection leave the table of
    strategies unchanged, a frame never lowers the patrol time, so over
    any sequence of these operations the patrol time never decreases
    and, once positive, never returns to 0.  [resetPatrolTime] would
    set it to 0 (and leave the state alone). *)
Theorem restart_keeps_patrol_state
        (tm : Simulation.Timer) (s : Simulation.t) (d : Simulation.Draws)
        (e : Event) (events : list Event) :
  let s' := Simulation.fire tm s d in
  let pt := fun s => PatrolStrategy.patrolTime (Simulation.patrolOf s) in
  Simulation.strategies s' = Simulation.strategies s
  /\ pt s' = pt s
  /\ PatrolStrategy.state (Simulation.patrolOf s')
     = PatrolStrategy.state (Simulation.patrolOf s)
  /\ Frajola.strategy (Simulation.frajola s')
     = Some (Simulation.currentStrategy s)
  /\ Frajola.target (Simulation.frajola s') = Some (Simulation.ligeirinho s')
  /\ match e with
     | Frame => True
     | _ => Simulation.strategies (react s e) = Simulation.strategies s
     end
  /\ pt s <= pt (react s e)
  /\ pt s <= pt (fold_left react events s)
  /\ (0 < pt s -> 0 < pt (fold_left react events s))
  /\ PatrolStrategy.patrolTime
       (PatrolStrategy.resetPatrolTime (Simulation.patrolOf s)) = 0
  /\ PatrolStrategy.state
       (PatrolStrategy.resetPatrolTime (Simulation.patrolOf s))
     = PatrolStrategy.state (Simulation.patrolOf s).
Proof.
  cbv zeta beta.
  pose proof (react_strategies s e) as RS.
  pose proof (react_patrolTime s e) as RP.
  pose proof (events_patrolTime events s) as EP.
  destruct tm; repeat split; try assumption; intros; lra.
Qed.

(** *** The run, and the restart at its end *)

(** The run: the simulation is constructed with the three draws at 0,
    the Patrol strategy is selected, eighteen frames go by.  The target
    has then left the arena by its left side, the escape is raised and
    its restart timer is pending.  When the timer fires and the new
    attempt begins, the patrol time of the Patrol strategy is at least
    1, not 0. *)
Lemma restart_patrol_time_counterexample :
  Simulation.timers (run 18 corner_start)
  = [(Simulation.restartAfterEscape, 500)]
  /\ Simulation.escapeInProgress (run 18 corner_start) = true
  /\ PatrolStrategy.patrolTime
       (Simulation.patrolOf
          (expire (run 18 corner_start) (Simulation.mkDraws 0 0 0))) <> 0.
Proof.
  assert (H : Cruising 17 1 (run 17 corner_start)).
  { rewrite (run_first 16).
    apply (Cruising_run 16 1 1); [apply corner_start_second | lia]. }
  apply Cruising_escape in H.
  rewrite <- run_last in H.
  generalize dependent (run 18 corner_start). intros s (T & E & P).
  split; [exact T|]. split; [exact E|].
  unfold expire. rewrite T, fire_patrolOf. lra.
Qed.

(** * Further properties of the code *)

(** ** MathUtils: clamp, map, angles, average *)

(** Case split on the innermost [Rmax] or [Rmin] of the goal. *)
Ltac minmax :=
  repeat match goal with
    | |- context [Rmax ?a ?b] =>
        lazymatch a with
        | context [Rmax _ _] => fail
        | context [Rmin _ _] => fail
        | _ =>
            destruct (Rle_dec a b);
            [rewrite (Rmax_right a b) by assumption
            |rewrite (Rmax_left a b) by lra]
        end
    | |- context [Rmin ?a ?b] =>
        lazymatch a with
        | context [Rmax _ _] => fail
        | context [Rmin _ _] => fail
        | _ =>
            destruct (Rle_dec a b);
            [rewrite (Rmin_left a b) by assumption
            |rewrite (Rmin_right a b) by lra]
        end
    end.

(** [clamp] with ordered bounds lands in the range, is the identity on
    the range and is idempotent; with the bounds the wrong way round it
    returns the upper bound [max], whatever the value. *)
Theorem clamp_range_identity_idempotent (v lo hi : R) :
  (lo <= hi ->
   lo <= MathUtils.clamp v lo hi <= hi
   /\ (lo <= v <= hi -> MathUtils.clamp v lo hi = v)
   /\ (v < lo -> MathUtils.clamp v lo hi = lo)
   /\ (hi < v -> MathUtils.clamp v lo hi = hi)
   /\ MathUtils.clamp (MathUtils.clamp v lo hi) lo hi = MathUtils.clamp v lo hi)
  /\ (hi < lo -> MathUtils.clamp v lo hi = hi).
Proof.
  unfold MathUtils.clamp. split.
  - intros H. repeat split; intros; minmax; lra.
  - intros H. minmax; lra.
Qed.

Lemma clamp_range_witness :
  0 <= 400 /\ MathUtils.clamp 1000 0 400 = 400.
Proof.
  split; [lra|].
  apply (proj1 (clamp_range_identity_idempotent 1000 0 400)); lra.
Defined.

(** [map] onto a range that does not descend, from an input range that
    ascends: the lower end of the input range is sent to [outMin]
    itself, the result does not decrease when the value grows, and from
    [inMin] upwards it is never below [outMin]. *)
Theorem map_monotone_from_outMin (v1 v2 a b c d : R) :
  a < b -> c <= d ->
  MathUtils.map a a b c d = c
  /\ (v1 <= v2 -> MathUtils.map v1 a b c d <= MathUtils.map v2 a b c d)
  /\ (a <= v1 -> c <= MathUtils.map v1 a b c d).
Proof.
  intros AB CD. unfold MathUtils.map.
  assert (P : 0 < / (b - a)) by (apply Rinv_0_lt_compat; lra).
  assert (M : forall x y, x <= y ->
                (x - a) * (d - c) / (b - a) <= (y - a) * (d - c) / (b - a)).
  { intros x y H. unfold Rdiv. apply Rmult_le_compat_r; [lra|]. nra. }
  repeat split.
  - unfold Rdiv. ring.
  - intros H. specialize (M v1 v2 H). lra.
  - intros H. specialize (M a v1 H).
    replace ((a - a) * (d - c) / (b - a)) with 0 in M
      by (unfold Rdiv; ring).
    lra.
Qed.

Lemma map_monotone_witness :
  0 < 400 /\ 3 <= 20 /\ MathUtils.map 0 0 400 3 20 = 3.
Proof.
  assert (A : 0 < 400) by lra. assert (C : 3 <= 20) by lra.
  split; [exact A|]. split; [exact C|].
  apply (map_monotone_from_outMin 0 0 0 400 3 20 A C).
Defined.

Lemma lower_at_most_PI (n : nat) (d : R) : d <= PI -> MathUtils.lower n d = d.
Proof.
  intros H. destruct n; simpl; [reflexivity|].
  now rewrite (proj2 (js_gt_false _ _)) by exact H.
Qed.

Lemma raise_at_least_minus_PI (n : nat) (d : R) :
  - PI <= d -> MathUtils.raise n d = d.
Proof.
  intros H. destruct n; simpl; [reflexivity|].
  now rewrite (proj2 (js_lt_false _ _)) by exact H.
Qed.

(** Inside their target range the two angle functions run none of
    their loops: [angleDifference] returns [angle2 - angle1] as it is
    when that lies in [-PI, PI] (so 0 for equal angles), and
    [normalizeAngle] returns an angle of [0, 2 PI) as it is. *)
Theorem angles_in_range_unchanged (angle1 angle2 angle : R) :
  (- PI <= angle2 - angle1 <= PI ->
   MathUtils.angleDifference angle1 angle2 = angle2 - angle1)
  /\ MathUtils.angleDifference angle angle = 0
  /\ (0 <= angle < PI * 2 -> MathUtils.normalizeAngle angle = angle).
Proof.
  assert (D : forall a b, - PI <= b - a <= PI ->
                MathUtils.angleDifference a b = b - a).
  { intros a b [L U]. unfold MathUtils.angleDifference. cbv zeta.
    rewrite (lower_at_most_PI _ _ U). now apply raise_at_least_minus_PI. }
  repeat split.
  - apply D.
  - rewrite D; [ring|]. pose proof PI_RGT_0.
    replace (angle - angle) with 0 by ring. lra.
  - intros [L U]. unfold MathUtils.normalizeAngle. cbv zeta.
    assert (R0 : forall n, MathUtils.raise0 n angle = angle).
    { intros n. destruct n; simpl; [reflexivity|].
      now rewrite (proj2 (js_lt_false _ _)) by exact L. }
    rewrite R0. destruct (MathUtils.turns angle); simpl; [reflexivity|].
    unfold js_ge. destruct (Rge_dec angle (PI * 2)); [lra | reflexivity].
Qed.

Lemma sum_from (l : list R) (acc : R) :
  (forall x, In x l -> 0 <= x) ->
  acc <= fold_left (fun sum val => sum + val) l acc.
Proof.
  revert acc. induction l as [|x l IH]; intros acc H; simpl; [lra|].
  assert (X : 0 <= x) by (apply H; now left).
  assert (T : acc + x <= fold_left (fun sum val => sum + val) l (acc + x)).
  { apply IH. intros y Y. apply H. now right. }
  lra.
Qed.

(** [average] of an empty array is 0 (the division by the length is
    not made), of a single value is that value, and of values that are
    not negative is not negative. *)
Theorem average_small_cases (v : R) (values : list R) :
  MathUtils.average [] = 0
  /\ MathUtils.average [v] = v
  /\ ((forall x, In x values -> 0 <= x) -> 0 <= MathUtils.average values).
Proof.
  repeat split.
  - unfold MathUtils.average; simpl. field.
  - intros H. unfold MathUtils.average.
    destruct values as [|x l]; [simpl; lra|].
    change (Nat.eqb (length (x :: l)) 0) with false. cbv iota.
    pose proof (sum_from (x :: l) 0 H) as S.
    assert (N : 0 < INR (length (x :: l))) by (apply lt_0_INR; simpl; lia).
    apply Rmult_le_pos; [exact S|].
    left. now apply Rinv_0_lt_compat.
Qed.

(** ** Vector2D: distance *)

(** [distanceTo] does not depend on the order of the two points, is
    never negative, is 0 from a point to itself, and is the magnitude of
    the difference vector; [distanceSquaredTo] does not depend on the
    order either, and the static [distance] is [distanceTo]. *)
Theorem distanceTo_symmetric (p q : Vector2D.t) :
  Vector2D.distanceTo p q = Vector2D.distanceTo q p
  /\ 0 <= Vector2D.distanceTo p q
  /\ Vector2D.distanceTo p p = 0
  /\ Vector2D.distanceTo p q = Vector2D.magnitude (Vector2D.subtract' q p)
  /\ Vector2D.distanceSquaredTo p q = Vector2D.distanceSquaredTo q p
  /\ Vector2D.distance p q = Vector2D.distanceTo p q.
Proof.
  repeat split.
  - unfold Vector2D.distanceTo. cbv zeta. f_equal. ring.
  - apply sqrt_pos.
  - unfold Vector2D.distanceTo. cbv zeta.
    replace ((Vector2D.x p - Vector2D.x p) * (Vector2D.x p - Vector2D.x p)
             + (Vector2D.y p - Vector2D.y p) * (Vector2D.y p - Vector2D.y p))
      with 0 by ring.
    apply sqrt_0.
  - unfold Vector2D.distanceSquaredTo. cbv zeta. ring.
Qed.

(** ** Agent: integration and forces *)

(** One [update] of an active agent: the new velocity is the old one
    plus the acceleration, passed through [limit] with [maxSpeed]; the
    position advances by that new velocity (not the old one) times
    [deltaTime]; the acceleration is cleared; size, mass, [maxSpeed],
    [maxForce] and the active flag are kept.  An inactive agent is not
    touched. *)
Theorem Agent_update_integrates (a : Agent.t) (dt : R) :
  (Agent.active a = true ->
   Agent.velocity (Agent.update a dt)
   = Vector2D.limit (Vector2D.add (Agent.velocity a) (Agent.acceleration a))
                    (Agent.maxSpeed a)
   /\ Agent.position (Agent.update a dt)
      = Vector2D.add (Agent.position a)
          (Vector2D.multiply' (Agent.velocity (Agent.update a dt)) dt)
   /\ Agent.acceleration (Agent.update a dt) = Vector2D.zero)
  /\ (Agent.active a = false -> Agent.update a dt = a)
  /\ Agent.size (Agent.update a dt) = Agent.size a
  /\ Agent.mass (Agent.update a dt) = Agent.mass a
  /\ Agent.maxSpeed (Agent.update a dt) = Agent.maxSpeed a
  /\ Agent.maxForce (Agent.update a dt) = Agent.maxForce a
  /\ Agent.active (Agent.update a dt) = Agent.active a.
Proof.
  split; [|split; [apply Agent_update_inactive|]].
  - intros A. rewrite (Agent_update_active a dt A). repeat split.
    + unfold Agent.update. rewrite A. reflexivity.
    + unfold Agent.update. rewrite A. simpl.
      unfold Vector2D.multiply, Vector2D.zero; simpl. f_equal; ring.
  - unfold Agent.update. destruct (Agent.active a) eqn:A; simpl;
      repeat split; auto.
Qed.

(** ** PhysicsEngine: the arena bounds *)

Lemma constrainToBounds_box (pe : PhysicsEngine.t) (a : Agent.t) (d : R) :
  Agent.size a <= PhysicsEngine.canvasWidth pe ->
  Agent.size a <= PhysicsEngine.canvasHeight pe ->
  let p := Agent.position (PhysicsEngine.constrainToBounds pe a d) in
  Agent.size a / 2 <= Vector2D.x p
                   <= PhysicsEngine.canvasWidth pe - Agent.size a / 2
  /\ Agent.size a / 2 <= Vector2D.y p
                      <= PhysicsEngine.canvasHeight pe - Agent.size a / 2.
Proof.
  intros W H. unfold PhysicsEngine.constrainToBounds. cbv zeta beta.
  repeat (split_if; simpl); js_hyps; lra.
Qed.

Lemma constrainToBounds_fixed (pe : PhysicsEngine.t) (a : Agent.t) (d : R) :
  Agent.size a / 2 <= Vector2D.x (Agent.position a)
                   <= PhysicsEngine.canvasWidth pe - Agent.size a / 2 ->
  Agent.size a / 2 <= Vector2D.y (Agent.position a)
                   <= PhysicsEngine.canvasHeight pe - Agent.size a / 2 ->
  PhysicsEngine.constrainToBounds pe a d = a.
Proof.
  intros X Y. unfold PhysicsEngine.constrainToBounds. cbv zeta beta.
  now js_cond.
Qed.

(** [constrainToBounds] on an agent no larger than the arena: the agent
    ends with its whole disc inside the arena, an agent that was already
    there is not changed, a second call changes nothing, and the agent
    is never out of bounds for [isOutOfBounds]. *)
Theorem constrainToBounds_keeps_inside
        (pe : PhysicsEngine.t) (a : Agent.t) (d : R) :
  0 <= Agent.size a <= PhysicsEngine.canvasWidth pe ->
  Agent.size a <= PhysicsEngine.canvasHeight pe ->
  0 <= PhysicsEngine.boundaryMargin pe ->
  let a' := PhysicsEngine.constrainToBounds pe a d in
  (Agent.size a / 2 <= Vector2D.x (Agent.position a')
                    <= PhysicsEngine.canvasWidth pe - Agent.size a / 2
   /\ Agent.size a / 2 <= Vector2D.y (Agent.position a')
                       <= PhysicsEngine.canvasHeight pe - Agent.size a / 2)
  /\ (Agent.size a / 2 <= Vector2D.x (Agent.position a)
                       <= PhysicsEngine.canvasWidth pe - Agent.size a / 2 ->
      Agent.size a / 2 <= Vector2D.y (Agent.position a)
                       <= PhysicsEngine.canvasHeight pe - Agent.size a / 2 ->
      a' = a)
  /\ PhysicsEngine.constrainToBounds pe a' d = a'
  /\ PhysicsEngine.isOutOfBounds pe a' = false.
Proof.
  intros [S0 W] H M a'.
  pose proof (constrainToBounds_box pe a d W H) as [X Y]. fold a' in X, Y.
  pose proof (constrainToBounds_size pe a d) as SZ. fold a' in SZ.
  repeat split; try tauto.
  - intros. now apply constrainToBounds_fixed.
  - apply constrainToBounds_fixed; rewrite SZ; assumption.
  - unfold PhysicsEngine.isOutOfBounds. cbv zeta.
    rewrite !orb_false_iff.
    repeat split; (apply js_lt_false || apply js_gt_false); lra.
Qed.

Lemma constrainToBounds_keeps_inside_witness :
  let pe := PhysicsEngine.constructor in
  let a := Agent.constructor (- 500) 2000
             (Agent.mkOptions (Some 150) None None None) in
  0 <= Agent.size a <= PhysicsEngine.canvasWidth pe
  /\ Agent.size a <= PhysicsEngine.canvasHeight pe
  /\ 0 <= PhysicsEngine.boundaryMargin pe
  /\ PhysicsEngine.isOutOfBounds pe
       (PhysicsEngine.constrainToBounds pe a (8 / 10)) = false.
Proof.
  intros pe a.
  assert (SZ : Agent.size a = 150) by (simpl; now js_cond).
  assert (A : 0 <= Agent.size a <= PhysicsEngine.canvasWidth pe).
  { rewrite SZ. simpl. unfold CONFIG.canvas_width. lra. }
  assert (B : Agent.size a <= PhysicsEngine.canvasHeight pe).
  { rewrite SZ. simpl. unfold CONFIG.canvas_height. lra. }
  assert (C : 0 <= PhysicsEngine.boundaryMargin pe).
  { simpl. unfold CONFIG.physics_boundaryMargin. lra. }
  split; [exact A|]. split; [exact B|]. split; [exact C|].
  apply (constrainToBounds_keeps_inside pe a (8 / 10) A B C).
Defined.

(** [wrapAroundBounds] brings the agent back into the arena enlarged by
    the agent's size on every side, leaves an agent that is there where
    it is, and never touches the velocity. *)
Theorem wrapAroundBounds_wraps (pe : PhysicsEngine.t) (a : Agent.t) :
  0 <= PhysicsEngine.canvasWidth pe + 2 * Agent.size a ->
  0 <= PhysicsEngine.canvasHeight pe + 2 * Agent.size a ->
  let a' := PhysicsEngine.wrapAroundBounds pe a in
  within (Agent.position a') (Agent.size a)
         (PhysicsEngine.canvasWidth pe) (PhysicsEngine.canvasHeight pe)
  /\ (within (Agent.position a) (Agent.size a)
             (PhysicsEngine.canvasWidth pe) (PhysicsEngine.canvasHeight pe)
      -> a' = a)
  /\ Agent.velocity a' = Agent.velocity a.
Proof.
  intros W H a'. unfold a', within, PhysicsEngine.wrapAroundBounds.
  cbv zeta beta. repeat split.
  1-4: repeat (split_if; simpl); js_hyps; lra.
  - intros [X Y]. now js_cond.
  - repeat (split_if; simpl); reflexivity.
Qed.

Lemma wrapAroundBounds_wraps_witness :
  let pe := PhysicsEngine.constructor in
  let a := Agent.constructor (- 500) 450
             (Agent.mkOptions (Some 80) None None None) in
  0 <= PhysicsEngine.canvasWidth pe + 2 * Agent.size a
  /\ 0 <= PhysicsEngine.canvasHeight pe + 2 * Agent.size a
  /\ within (Agent.position (PhysicsEngine.wrapAroundBounds pe a))
            (Agent.size a)
            (PhysicsEngine.canvasWidth pe) (PhysicsEngine.canvasHeight pe).
Proof.
  intros pe a.
  assert (SZ : Agent.size a = 80) by (simpl; now js_cond).
  assert (A : 0 <= PhysicsEngine.canvasWidth pe + 2 * Agent.size a).
  { rewrite SZ. simpl. unfold CONFIG.canvas_width. lra. }
  assert (B : 0 <= PhysicsEngine.canvasHeight pe + 2 * Agent.size a).
  { rewrite SZ. simpl. unfold CONFIG.canvas_height. lra. }
  split; [exact A|]. split; [exact B|].
  apply (wrapAroundBounds_wraps pe a A B).
Defined.

(** ** Ligeirinho: spawn and escape count *)

Lemma Int_part_quarter (r : R) :
  0 <= r < 1 ->
  Int_part (r * 4) = 0%Z \/ Int_part (r * 4) = 1%Z
  \/ Int_part (r * 4) = 2%Z \/ Int_part (r * 4) = 3%Z.
Proof.
  intros [L U]. unfold Int_part.
  destruct (archimed (r * 4)) as [A B].
  assert (Lo : (0 < up (r * 4))%Z) by (apply lt_IZR; simpl; lra).
  assert (Hi : (up (r * 4) < 5)%Z) by (apply lt_IZR; simpl; lra).
  lia.
Qed.

Lemma inward_unit (vx : R) :
  let u := Vector2D.normalize (Vector2D.mk vx 1) in
  Vector2D.magnitude u = 1 /\ 0 < Vector2D.y u.
Proof.
  intros u.
  assert (P : 0 < Vector2D.magnitude (Vector2D.mk vx 1)).
  { apply nonzero_magnitude_pos. unfold Vector2D.zero.
    intros E. injection E as _ E. lra. }
  split; [now apply magnitude_normalize|].
  unfold u. rewrite normalize_pos by exact P. simpl.
  apply Rdiv_lt_0_compat; lra.
Qed.

Lemma inward_unit_x (vy : R) :
  let u := Vector2D.normalize (Vector2D.mk 1 vy) in
  Vector2D.magnitude u = 1 /\ 0 < Vector2D.x u.
Proof.
  intros u.
  assert (P : 0 < Vector2D.magnitude (Vector2D.mk 1 vy)).
  { apply nonzero_magnitude_pos. unfold Vector2D.zero.
    intros E. injection E as E _. lra. }
  split; [now apply magnitude_normalize|].
  unfold u. rewrite normalize_pos by exact P. simpl.
  apply Rdiv_lt_0_compat; lra.
Qed.

Lemma outward_unit (vx : R) :
  let u := Vector2D.normalize (Vector2D.mk vx (-1)) in
  Vector2D.magnitude u = 1 /\ Vector2D.y u < 0.
Proof.
  intros u.
  assert (P : 0 < Vector2D.magnitude (Vector2D.mk vx (-1))).
  { apply nonzero_magnitude_pos. unfold Vector2D.zero.
    intros E. injection E as _ E. lra. }
  split; [now apply magnitude_normalize|].
  unfold u. rewrite normalize_pos by exact P. simpl.
  apply Ropp_lt_cancel. rewrite Ropp_0.
  replace (- (-1 / Vector2D.magnitude (Vector2D.mk vx (-1))))
    with (1 / Vector2D.magnitude (Vector2D.mk vx (-1))) by (field; lra).
  apply Rdiv_lt_0_compat; lra.
Qed.

Lemma outward_unit_x (vy : R) :
  let u := Vector2D.normalize (Vector2D.mk (-1) vy) in
  Vector2D.magnitude u = 1 /\ Vector2D.x u < 0.
Proof.
  intros u.
  assert (P : 0 < Vector2D.magnitude (Vector2D.mk (-1) vy)).
  { apply nonzero_magnitude_pos. unfold Vector2D.zero.
    intros E. injection E as E _. lra. }
  split; [now apply magnitude_normalize|].
  unfold u. rewrite normalize_pos by exact P. simpl.
  apply Ropp_lt_cancel. rewrite Ropp_0.
  replace (- (-1 / Vector2D.magnitude (Vector2D.mk (-1) vy)))
    with (1 / Vector2D.magnitude (Vector2D.mk (-1) vy)) by (field; lra).
  apply Rdiv_lt_0_compat; lra.
Qed.

(** [spawnAtRandomEdge] with draws in [0, 1) and a positive [maxSpeed]:
    the target is put on one of the four edges of the arena, the edge is
    recorded, and its velocity points into the arena. *)
Theorem spawnAtRandomEdge_on_edge_inward
        (l : Ligeirinho.t) (w h r_edge r_pos r_dir : R) :
  0 <= r_edge < 1 -> 0 <= r_pos < 1 -> 0 < w -> 0 < h ->
  0 < Agent.maxSpeed (Ligeirinho.base l) ->
  let l' := Ligeirinho.spawnAtRandomEdge l w h r_edge r_pos r_dir in
  let p := Agent.position (Ligeirinho.base l') in
  let v := Agent.velocity (Ligeirinho.base l') in
  0 <= Vector2D.x p <= w /\ 0 <= Vector2D.y p <= h
  /\ ((Ligeirinho.spawnEdge l' = Some Ligeirinho.top
       /\ Vector2D.y p = 0 /\ 0 < Vector2D.y v)
      \/ (Ligeirinho.spawnEdge l' = Some Ligeirinho.right
          /\ Vector2D.x p = w /\ Vector2D.x v < 0)
      \/ (Ligeirinho.spawnEdge l' = Some Ligeirinho.bottom
          /\ Vector2D.y p = h /\ Vector2D.y v < 0)
      \/ (Ligeirinho.spawnEdge l' = Some Ligeirinho.left
          /\ Vector2D.x p = 0 /\ 0 < Vector2D.x v)).
Proof.
  intros RE RP W H M. cbv zeta. unfold Ligeirinho.spawnAtRandomEdge.
  set (m := Agent.maxSpeed (Ligeirinho.base l)) in *.
  assert (PW : 0 <= r_pos * w <= w) by nra.
  assert (PH : 0 <= r_pos * h <= h) by nra.
  destruct (Int_part_quarter r_edge RE) as [E|[E|[E|E]]]; rewrite E;
    cbv iota beta zeta; simpl.
  - destruct (inward_unit ((r_dir - 5 / 10) * 2)) as [U D].
    repeat split; try lra. left. repeat split. nra.
  - destruct (outward_unit_x ((r_dir - 5 / 10) * 2)) as [U D].
    repeat split; try lra. right; left. repeat split. nra.
  - destruct (outward_unit ((r_dir - 5 / 10) * 2)) as [U D].
    repeat split; try lra. right; right; left. repeat split. nra.
  - destruct (inward_unit_x ((r_dir - 5 / 10) * 2)) as [U D].
    repeat split; try lra. right; right; right. repeat split. nra.
Qed.

Lemma spawnAtRandomEdge_witness :
  let l := Ligeirinho.constructor 0 0 8 in
  let l' := Ligeirinho.spawnAtRandomEdge l 1400 900 (3 / 10) (5 / 10) (7 / 10) in
  0 <= 3 / 10 < 1 /\ 0 <= 5 / 10 < 1 /\ 0 < 1400 /\ 0 < 900
  /\ 0 < Agent.maxSpeed (Ligeirinho.base l)
  /\ 0 <= Vector2D.x (Agent.position (Ligeirinho.base l')) <= 1400.
Proof.
  intros l l'.
  assert (M : 0 < Agent.maxSpeed (Ligeirinho.base l))
    by (simpl; js_cond; lra).
  assert (A : 0 <= 3 / 10 < 1) by lra.
  assert (B : 0 <= 5 / 10 < 1) by lra.
  assert (C : 0 < 1400) by lra.
  assert (D : 0 < 900) by lra.
  repeat (split; [assumption || lra|]).
  apply (spawnAtRandomEdge_on_edge_inward l 1400 900 (3 / 10) (5 / 10)
           (7 / 10) A B C D M).
Defined.

(** [erraticBehavior] touches the velocity only, and only when the
    first draw is below [chance]: it then turns the velocity by
    [(r_angle - 0.5) * maxAngle], which for a second draw of 0.5 is a
    turn by 0 that leaves the velocity as it is. *)
Theorem erraticBehavior_turns_velocity_only
        (l : Ligeirinho.t) (chance maxAngle r_chance r_angle : R) :
  let l' := Ligeirinho.erraticBehavior l chance maxAngle r_chance r_angle in
  (chance <= r_chance -> l' = l)
  /\ (r_chance < chance ->
      Agent.velocity (Ligeirinho.base l')
      = Vector2D.rotate (Agent.velocity (Ligeirinho.base l))
                        ((r_angle - 5 / 10) * maxAngle))
  /\ (r_angle = 5 / 10 ->
      Agent.velocity (Ligeirinho.base l') = Agent.velocity (Ligeirinho.base l))
  /\ Agent.position (Ligeirinho.base l') = Agent.position (Ligeirinho.base l)
  /\ Agent.acceleration (Ligeirinho.base l')
     = Agent.acceleration (Ligeirinho.base l)
  /\ Agent.maxSpeed (Ligeirinho.base l') = Agent.maxSpeed (Ligeirinho.base l)
  /\ Agent.active (Ligeirinho.base l') = Agent.active (Ligeirinho.base l)
  /\ Ligeirinho.spawnEdge l' = Ligeirinho.spawnEdge l
  /\ Ligeirinho.escapeAttempts l' = Ligeirinho.escapeAttempts l.
Proof.
  cbv zeta. unfold Ligeirinho.erraticBehavior.
  destruct (js_lt r_chance chance) eqn:E; simpl.
  - apply js_lt_spec in E. repeat split; try (intros; lra).
    intros ->. unfold Vector2D.rotate.
    replace ((5 / 10 - 5 / 10) * maxAngle) with 0 by ring.
    rewrite cos_0, sin_0.
    destruct (Agent.velocity (Ligeirinho.base l)) as [x y]; simpl.
    f_equal; ring.
  - apply js_lt_false in E. repeat split; intros; lra.
Qed.

(** [hasEscaped] counts an escape exactly when it reports one and
    changes nothing else on the target; [reset] does not move the
    target, so the answer after it is the same. *)
Theorem hasEscaped_counts (l : Ligeirinho.t) (w h margin : R) :
  let r := Ligeirinho.hasEscaped l w h margin in
  Ligeirinho.base (snd r) = Ligeirinho.base l
  /\ Ligeirinho.spawnEdge (snd r) = Ligeirinho.spawnEdge l
  /\ Ligeirinho.escapeAttempts (snd r)
     = (Ligeirinho.escapeAttempts l + if fst r then 1 else 0)%nat
  /\ fst (Ligeirinho.hasEscaped (Ligeirinho.reset (snd r)) w h margin) = fst r.
Proof.
  cbv zeta. unfold Ligeirinho.hasEscaped.
  set (c := (_ || _ || _ || _)%bool).
  destruct c eqn:E; simpl.
  - repeat split; try lia. fold c. now rewrite E.
  - repeat split; try lia. fold c. now rewrite E.
Qed.

(** ** The steering library *)

(** How the steering functions reduce to [seek]: [pursuit] with a
    lookahead of 0, or of a target that stands still, is [seek] of the
    target's position; [flee] from a point is [seek] of its mirror image
    through the agent; [evade] relates to [flee] as [pursuit] to [seek];
    [arrive] outside the slowing radius is [seek]. *)
Theorem steering_reductions
        (pos vel point pvel : Vector2D.t) (maxSpeed maxForce k radius : R) :
  Strategy.pursuit pos vel point pvel maxSpeed maxForce 0
  = Strategy.seek pos vel point maxSpeed maxForce
  /\ Strategy.pursuit pos vel point (Vector2D.mk 0 0) maxSpeed maxForce k
     = Strategy.seek pos vel point maxSpeed maxForce
  /\ Strategy.flee pos vel point maxSpeed maxForce
     = Strategy.seek pos vel
         (Vector2D.mk (2 * Vector2D.x pos - Vector2D.x point)
                      (2 * Vector2D.y pos - Vector2D.y point))
         maxSpeed maxForce
  /\ Strategy.evade pos vel point pvel maxSpeed maxForce 0
     = Strategy.flee pos vel point maxSpeed maxForce
  /\ (radius <= Vector2D.distanceTo pos point ->
      Strategy.arrive pos vel point maxSpeed maxForce radius
      = Strategy.seek pos vel point maxSpeed maxForce).
Proof.
  assert (Z : forall p q : Vector2D.t,
             Vector2D.add' p (Vector2D.multiply' q 0) = p).
  { intros [a b] q. unfold Vector2D.add', Vector2D.multiply'; simpl.
    f_equal; ring. }
  assert (Z' : forall (p : Vector2D.t) (c : R),
             Vector2D.add' p (Vector2D.multiply' (Vector2D.mk 0 0) c) = p).
  { intros [a b] c. unfold Vector2D.add', Vector2D.multiply'; simpl.
    f_equal; ring. }
  repeat split.
  - unfold Strategy.pursuit. cbv zeta. now rewrite Z.
  - unfold Strategy.pursuit. cbv zeta. now rewrite Z'.
  - unfold Strategy.flee, Strategy.seek. cbv zeta.
    replace (Vector2D.subtract'
               (Vector2D.mk (2 * Vector2D.x pos - Vector2D.x point)
                            (2 * Vector2D.y pos - Vector2D.y point)) pos)
      with (Vector2D.subtract' pos point); [reflexivity|].
    unfold Vector2D.subtract'; simpl. f_equal; ring.
  - unfold Strategy.evade. cbv zeta. now rewrite Z.
  - intros H. unfold Strategy.arrive, Strategy.seek. cbv zeta.
    change (Vector2D.magnitude (Vector2D.subtract' point pos))
      with (Vector2D.distanceTo pos point).
    now rewrite (proj2 (js_lt_false _ _)).
Qed.

(** ** The three strategies *)

(** When the detection flag is false Predictive steers exactly like
    Direct; when it is true and there is a target Patrol steers exactly
    like Direct; and Direct does not look at the flag. *)
Theorem strategies_agree_with_direct
        (d : DirectStrategy.t) (p : PredictiveStrategy.t)
        (q : PatrolStrategy.t) (chaser : Frajola.t) (tg : Ligeirinho.t)
        (b : bool) :
  DirectStrategy.active d = true ->
  PredictiveStrategy.active p = true ->
  PatrolStrategy.active q = true ->
  PredictiveStrategy.calculate p chaser (Some tg) false
  = DirectStrategy.calculate d chaser (Some tg) b
  /\ fst (PatrolStrategy.calculate q chaser (Some tg) true)
     = DirectStrategy.calculate d chaser (Some tg) b.
Proof.
  intros D P Q.
  unfold PredictiveStrategy.calculate, DirectStrategy.calculate,
    PatrolStrategy.calculate.
  rewrite D, P, Q. simpl. split; reflexivity.
Qed.

Lemma strategies_agree_with_direct_witness :
  let chaser := Frajola.constructor 700 450 9 in
  let tg := Ligeirinho.constructor 100 100 8 in
  DirectStrategy.active DirectStrategy.constructor = true
  /\ PredictiveStrategy.active PredictiveStrategy.constructor = true
  /\ PatrolStrategy.active PatrolStrategy.constructor = true
  /\ PredictiveStrategy.calculate PredictiveStrategy.constructor chaser
       (Some tg) false
     = DirectStrategy.calculate DirectStrategy.constructor chaser (Some tg)
         true.
Proof.
  intros chaser tg. repeat (split; [reflexivity|]).
  apply (strategies_agree_with_direct DirectStrategy.constructor
           PredictiveStrategy.constructor PatrolStrategy.constructor
           chaser tg true eq_refl eq_refl eq_refl).
Defined.

(** Patrol's state after a [calculate]: an active strategy is in
    'pursue' exactly when the detection flag of this call is true,
    whatever its state was; a deactivated strategy keeps its state and
    its patrol time. *)
Theorem patrol_state_follows_flag
        (s : PatrolStrategy.t) (chaser : Frajola.t)
        (target : option Ligeirinho.t) (targetDetected : bool) :
  let s' := snd (PatrolStrategy.calculate s chaser target targetDetected) in
  PatrolStrategy.state s'
  = (if PatrolStrategy.active s
     then if targetDetected then PatrolStrategy.st_pursue
          else PatrolStrategy.st_patrol
     else PatrolStrategy.state s)
  /\ PatrolStrategy.patrolTime s'
     = (if PatrolStrategy.active s
        then match target with
             | Some _ => if targetDetected then PatrolStrategy.patrolTime s
                         else PatrolStrategy.patrolTime s + 1
             | None => PatrolStrategy.patrolTime s + 1
             end
        else PatrolStrategy.patrolTime s)
  /\ PatrolStrategy.active s' = PatrolStrategy.active s.
Proof.
  cbv zeta. unfold PatrolStrategy.calculate.
  destruct (PatrolStrategy.active s) eqn:A; simpl; [|now rewrite A].
  destruct target, targetDetected; simpl; now rewrite ?A.
Qed.




(** [predictFuturePosition] always lies inside the canvas, and is the
    linear extrapolation position + velocity * lookahead whenever that
    point is inside the canvas. *)
Theorem predictFuturePosition_in_canvas (tg : Ligeirinho.t) (lookahead : R) :
  let q := PredictiveStrategy.predictFuturePosition tg lookahead in
  let e := Vector2D.add' (Agent.position (Ligeirinho.base tg))
             (Vector2D.multiply' (Agent.velocity (Ligeirinho.base tg))
                                 lookahead) in
  (0 <= Vector2D.x q <= CONFIG.canvas_width
   /\ 0 <= Vector2D.y q <= CONFIG.canvas_height)
  /\ (0 <= Vector2D.x e <= CONFIG.canvas_width ->
      0 <= Vector2D.y e <= CONFIG.canvas_height -> q = e).
Proof.
  cbv zeta. unfold PredictiveStrategy.predictFuturePosition. cbv zeta. split.
  - simpl. split; apply clamp_bounds;
      unfold CONFIG.canvas_width, CONFIG.canvas_height; lra.
  - intros X Y. rewrite !clamp_inside by assumption. apply eta.
Qed.

(** The setters that clamp: the value stored always lies in the range
    of the setter, and a value inside the range is stored as it is. *)
Theorem clamping_setters_stay_in_range (v : R) :
  (forall ds : DetectionSystem.t,
      3 / 10 <= DetectionSystem.sensitivity (DetectionSystem.setSensitivity ds v)
             <= 15 / 10
      /\ (3 / 10 <= v <= 15 / 10 ->
          DetectionSystem.sensitivity (DetectionSystem.setSensitivity ds v) = v))
  /\ (forall cd : CollisionDetector.t,
         10 <= CollisionDetector.captureDistance
                 (CollisionDetector.setCaptureDistance cd v) <= 100
         /\ (10 <= v <= 100 ->
             CollisionDetector.captureDistance
               (CollisionDetector.setCaptureDistance cd v) = v))
  /\ (forall p : PredictiveStrategy.t,
         1 <= PredictiveStrategy.lookahead (PredictiveStrategy.setLookahead p v)
           <= 50)
  /\ (forall q : PatrolStrategy.t,
         50 <= PatrolStrategy.patrolRadius (PatrolStrategy.setPatrolRadius q v)
            <= 300
         /\ 1 / 10 <= PatrolStrategy.patrolSpeed
                        (PatrolStrategy.setPatrolSpeed q v) <= 1
         /\ 1 / 100 <= PatrolStrategy.angularSpeed
                         (PatrolStrategy.setAngularSpeed q v) <= 2 / 10).
Proof.
  repeat split; intros; simpl;
    unfold CONFIG.detection_minSensitivity, CONFIG.detection_maxSensitivity;
    try (apply clamp_bounds; lra); try (apply clamp_inside; lra).
Qed.

(** ** DetectionSystem *)

Lemma shift_bounded {A : Type} (hist : list A) (x : A) (n : nat) :
  (length hist <= n)%nat ->
  let pushed := hist ++ [x] in
  let kept := if Nat.ltb n (length pushed) then tl pushed else pushed in
  (length kept <= n)%nat
  /\ ((1 <= n)%nat -> forall d, last kept d = x).
Proof.
  intros H. cbv zeta. rewrite length_app. simpl length.
  destruct (Nat.ltb n (length hist + 1)) eqn:E.
  - apply Nat.ltb_lt in E. destruct hist as [|y hist]; simpl in *.
    + split; [lia|]. intros; lia.
    + rewrite length_app; simpl. split; [lia|].
      intros _ d. apply last_last.
  - apply Nat.ltb_ge in E. rewrite length_app; simpl. split; [lia|].
    intros _ d. apply last_last.
Qed.

(** The rolling history of [detect] never grows beyond its capacity, a
    call that reaches a detection method appends its result as the
    newest entry, and a call with an agent missing or an inactive target
    returns false and leaves the system as it is. *)
Theorem detect_history_bounded
        (ds : DetectionSystem.t) (chaser : option Frajola.t)
        (target : option Ligeirinho.t) :
  (length (DetectionSystem.detectionHistory ds)
   <= DetectionSystem.maxHistoryLength ds)%nat ->
  let r := DetectionSystem.detect ds chaser target in
  (length (DetectionSystem.detectionHistory (snd r))
   <= DetectionSystem.maxHistoryLength (snd r))%nat
  /\ DetectionSystem.sensitivity (snd r) = DetectionSystem.sensitivity ds
  /\ match chaser, target with
     | Some c, Some tg =>
         if Agent.active (Ligeirinho.base tg)
         then (1 <= DetectionSystem.maxHistoryLength ds)%nat ->
              last (DetectionSystem.detectionHistory (snd r)) (negb (fst r))
              = fst r
         else r = (false, ds)
     | _, _ => r = (false, ds)
     end.
Proof.
  intros H. cbv zeta. unfold DetectionSystem.detect.
  destruct chaser as [c|]; [|repeat split; assumption].
  destruct target as [tg|]; [|repeat split; assumption].
  destruct (Agent.active (Ligeirinho.base tg)); simpl;
    [|repeat split; assumption].
  set (b := match DetectionSystem.detectionMethod ds with
            | DetectionSystem.radius => _
            | DetectionSystem.cone => _
            | DetectionSystem.raycast => _
            end).
  destruct (shift_bounded (DetectionSystem.detectionHistory ds) b
              (DetectionSystem.maxHistoryLength ds) H) as [L T].
  repeat split.
  - exact L.
  - intros M. apply T, M.
Qed.

Lemma detect_history_bounded_witness :
  let c := Frajola.constructor 700 450 9 in
  let tg := Ligeirinho.constructor 600 450 8 in
  let ds := DetectionSystem.constructor in
  (length (DetectionSystem.detectionHistory ds)
   <= DetectionSystem.maxHistoryLength ds)%nat
  /\ (length (DetectionSystem.detectionHistory
                (snd (DetectionSystem.detect ds (Some c) (Some tg))))
      <= DetectionSystem.maxHistoryLength
           (snd (DetectionSystem.detect ds (Some c) (Some tg))))%nat.
Proof.
  intros c tg ds.
  assert (H : (length (DetectionSystem.detectionHistory ds)
               <= DetectionSystem.maxHistoryLength ds)%nat) by (simpl; lia).
  split; [exact H|].
  apply (detect_history_bounded ds (Some c) (Some tg) H).
Defined.

(** No detection method detects an inactive target or a target farther
    than [detectionRadius * sensitivity]; the radius and the raycast
    methods detect every active target within that distance. *)
Theorem detect_only_within_radius
        (ds : DetectionSystem.t) (c : Frajola.t) (tg : Ligeirinho.t) :
  let d := Agent.distanceTo (Frajola.base c) (Ligeirinho.base tg) in
  let reach := DetectionSystem.getEffectiveDetectionRange ds c in
  (fst (DetectionSystem.detect ds (Some c) (Some tg)) = true ->
   Agent.active (Ligeirinho.base tg) = true /\ d <= reach)
  /\ (DetectionSystem.detectionMethod ds <> DetectionSystem.cone ->
      Agent.active (Ligeirinho.base tg) = true -> d <= reach ->
      fst (DetectionSystem.detect ds (Some c) (Some tg)) = true).
Proof.
  cbv zeta. unfold DetectionSystem.detect,
    DetectionSystem.getEffectiveDetectionRange.
  assert (R : DetectionSystem.radiusDetection ds c tg = true
              <-> Agent.distanceTo (Frajola.base c) (Ligeirinho.base tg)
                  <= Frajola.detectionRadius c * DetectionSystem.sensitivity ds)
    by (unfold DetectionSystem.radiusDetection; apply js_le_spec).
  destruct (Agent.active (Ligeirinho.base tg)); simpl.
  - split.
    + intros H. split; [reflexivity|]. apply R.
      destruct (DetectionSystem.detectionMethod ds); simpl in H;
        unfold DetectionSystem.coneDetection,
          DetectionSystem.raycastDetection in H;
        destruct (DetectionSystem.radiusDetection ds c tg);
        simpl in H; congruence.
    + intros NC _ D. apply R in D.
      destruct (DetectionSystem.detectionMethod ds); simpl;
        unfold DetectionSystem.raycastDetection; rewrite ?D; simpl;
        congruence.
  - split; [discriminate|]. intros _ A. discriminate.
Qed.

Lemma count_true_le (l : list bool) :
  INR (length (filter (fun d : bool => d) l)) <= INR (length l).
Proof. apply le_INR, filter_length_le. Qed.

(** [getRecentDetectionRate] is a proportion: it lies between 0 and 1,
    it is 0 on an empty history (no division by its length), and it
    looks at no more than [frames] entries (at all of them when
    [frames] is 0). *)
Theorem getRecentDetectionRate_is_proportion
        (ds : DetectionSystem.t) (frames : nat) :
  0 <= DetectionSystem.getRecentDetectionRate ds frames <= 1
  /\ (DetectionSystem.detectionHistory ds = [] ->
      DetectionSystem.getRecentDetectionRate ds frames = 0)
  /\ ((1 <= frames)%nat ->
      (length (DetectionSystem.recent (DetectionSystem.detectionHistory ds)
                                      frames) <= frames)%nat)
  /\ DetectionSystem.recent (DetectionSystem.detectionHistory ds) 0
     = DetectionSystem.detectionHistory ds.
Proof.
  unfold DetectionSystem.getRecentDetectionRate. cbv zeta.
  set (h := DetectionSystem.detectionHistory ds). repeat split.
  - destruct (Nat.eqb _ 0) eqn:E; [lra|].
    apply Nat.eqb_neq in E.
    apply Rmult_le_pos; [apply pos_INR|].
    left. apply Rinv_0_lt_compat, lt_0_INR. lia.
  - destruct (Nat.eqb _ 0) eqn:E; [lra|].
    apply Nat.eqb_neq in E.
    set (rc := DetectionSystem.recent h frames) in *.
    assert (P : 0 < INR (length rc)) by (apply lt_0_INR; lia).
    apply Rmult_le_reg_r with (INR (length rc)); [exact P|].
    replace (INR (length (filter (fun d : bool => d) rc)) / INR (length rc)
             * INR (length rc))
      with (INR (length (filter (fun d : bool => d) rc))) by (field; lra).
    rewrite Rmult_1_l. apply count_true_le.
  - intros E. rewrite E. destruct frames; reflexivity.
  - intros F. unfold DetectionSystem.recent.
    destruct frames; [lia|]. rewrite length_skipn. lia.
Qed.

(** ** CollisionDetector *)

(** [checkCapture] keeps its history within capacity, records a
    collision only when it reports a capture (then the newest entry is a
    capture with the measured distance), and never changes
    [captureDistance]. *)
Theorem checkCapture_records_captures
        (cd : CollisionDetector.t) (c : option Frajola.t)
        (tg : option Ligeirinho.t) :
  (length (CollisionDetector.collisionHistory cd)
   <= CollisionDetector.maxHistoryLength cd)%nat ->
  let r := CollisionDetector.checkCapture cd c tg in
  (length (CollisionDetector.collisionHistory (snd r))
   <= CollisionDetector.maxHistoryLength (snd r))%nat
  /\ CollisionDetector.captureDistance (snd r)
     = CollisionDetector.captureDistance cd
  /\ (fst r = false -> snd r = cd)
  /\ (fst r = true -> (1 <= CollisionDetector.maxHistoryLength cd)%nat ->
      exists e,
        (forall d, last (CollisionDetector.collisionHistory (snd r)) d = e)
        /\ CollisionDetector.kind e = CollisionDetector.capture
        /\ exists x, CollisionDetector.distance e = Some x
                     /\ x < CollisionDetector.captureDistance cd).
Proof.
  intros H. cbv zeta. unfold CollisionDetector.checkCapture.
  destruct c as [c|]; [|repeat split; (assumption || discriminate)].
  destruct tg as [tg|]; [|repeat split; (assumption || discriminate)].
  destruct (Agent.active (Ligeirinho.base tg)); simpl;
    [|repeat split; (assumption || discriminate)].
  destruct (js_lt _ _) eqn:E; simpl;
    [|repeat split; (assumption || discriminate)].
  apply js_lt_spec in E.
  unfold CollisionDetector.recordCollision; simpl.
  match goal with
  | |- context [CollisionDetector.collisionHistory cd ++ [?e]] =>
      destruct (shift_bounded (CollisionDetector.collisionHistory cd) e
                  (CollisionDetector.maxHistoryLength cd) H) as [L T];
      cbv zeta in L, T
  end.
  repeat split.
  - exact L.
  - discriminate.
  - intros _ M. eexists. split; [intros d; apply (T M d)|].
    split; [reflexivity|]. eexists. split; [reflexivity|]. exact E.
Qed.

Lemma checkCapture_records_captures_witness :
  let c := Frajola.constructor 700 450 9 in
  let tg := Ligeirinho.constructor 700 450 8 in
  let cd := CollisionDetector.constructor in
  (length (CollisionDetector.collisionHistory cd)
   <= CollisionDetector.maxHistoryLength cd)%nat
  /\ (length (CollisionDetector.collisionHistory
                (snd (CollisionDetector.checkCapture cd (Some c) (Some tg))))
      <= CollisionDetector.maxHistoryLength
           (snd (CollisionDetector.checkCapture cd (Some c) (Some tg))))%nat.
Proof.
  intros c tg cd.
  assert (H : (length (CollisionDetector.collisionHistory cd)
               <= CollisionDetector.maxHistoryLength cd)%nat) by (simpl; lia).
  split; [exact H|].
  apply (checkCapture_records_captures cd (Some c) (Some tg) H).
Defined.

(** The circle test does not depend on the order of the two agents,
    agrees with [Agent.isCollidingWith] on active agents, reports no
    collision when one of them is inactive, and never changes the
    detector when it reports none. *)
Theorem circle_collision_symmetric
        (cd : CollisionDetector.t) (a1 a2 : Agent.t) :
  fst (CollisionDetector.checkCircleCollision cd (Some a1) (Some a2))
  = fst (CollisionDetector.checkCircleCollision cd (Some a2) (Some a1))
  /\ fst (CollisionDetector.checkCircleCollision cd (Some a1) (Some a2))
     = (Agent.active a1 && Agent.active a2 && Agent.isCollidingWith a1 a2)%bool
  /\ (Agent.active a1 = false \/ Agent.active a2 = false ->
      fst (CollisionDetector.checkCircleCollision cd (Some a1) (Some a2))
      = false)
  /\ (fst (CollisionDetector.checkCircleCollision cd (Some a1) (Some a2))
      = false ->
      snd (CollisionDetector.checkCircleCollision cd (Some a1) (Some a2))
      = cd).
Proof.
  assert (F : forall (b : bool) (x y : CollisionDetector.t),
             fst (if b then (b, x) else (b, y)) = b)
    by (intros []; reflexivity).
  assert (S : Agent.distanceTo a1 a2 = Agent.distanceTo a2 a1).
  { unfold Agent.distanceTo, Vector2D.distanceTo. cbv zeta. f_equal. ring. }
  unfold CollisionDetector.checkCircleCollision, Agent.isCollidingWith.
  destruct (Agent.active a1), (Agent.active a2); simpl;
    try (repeat split; intros; (reflexivity || discriminate || tauto)).
  rewrite !F. repeat split.
  - rewrite S. f_equal. lra.
  - intros [H|H]; discriminate.
  - destruct (js_lt _ _); simpl; [discriminate | reflexivity].
Qed.

(** ** Frajola *)

(** [attemptCapture] on success counts the capture, adds the current
    pursuit time to the total and restarts it at 0; on failure the
    chaser is left as it is.  It never moves the chaser or changes its
    target. *)
Theorem attemptCapture_bookkeeping
        (f : Frajola.t) (h : Heap) (captureDistance : R) :
  let r := Frajola.attemptCapture f h captureDistance in
  (if fst r
   then Frajola.captureCount (snd r) = S (Frajola.captureCount f)
        /\ Frajola.totalPursuitTime (snd r)
           = Frajola.totalPursuitTime f + Frajola.currentPursuitTime f
        /\ Frajola.currentPursuitTime (snd r) = 0
   else snd r = f)
  /\ Frajola.base (snd r) = Frajola.base f
  /\ Frajola.target (snd r) = Frajola.target f
  /\ Frajola.strategy (snd r) = Frajola.strategy f.
Proof.
  cbv zeta. unfold Frajola.attemptCapture.
  destruct (deref h (Frajola.target f)); [|repeat split].
  destruct (Frajola.targetDetected f); simpl; [|repeat split].
  destruct (js_lt _ _); simpl; repeat split.
Qed.

Ltac shape :=
  split;
  [ refine (ex_intro _ _ (conj _ (conj _ eq_refl)));
    [simpl; assumption | reflexivity]
  | repeat split; intros; try discriminate; try assumption;
    try reflexivity ].

(** What the chaser's base looks like after its update went through:
    an active agent of the same [maxSpeed], integrated for one step. *)
Lemma Frajola_update_shape (f : Frajola.t) (h : Heap) (dt : R)
      (ds : option DetectionSystem.t) (ss : Strategies) (r : ref) :
  Agent.active (Frajola.base f) = true ->
  Frajola.target f = Some r ->
  let f' := fst (fst (Frajola_update f h dt ds ss)) in
  (exists a0, Agent.active a0 = true
              /\ Agent.maxSpeed a0 = Agent.maxSpeed (Frajola.base f)
              /\ Frajola.base f' = Agent.update a0 dt)
  /\ Frajola.target f' = Frajola.target f
  /\ Frajola.strategy f' = Frajola.strategy f
  /\ (ds = None -> Frajola.targetDetected f' = Frajola.targetDetected f).
Proof.
  intros A T. cbv zeta. unfold Frajola_update. rewrite A, T. simpl deref.
  cbv iota.
  destruct ds as [ds|].
  - destruct (DetectionSystem.detect ds (Some f) (Some (h r))) as [b ds'].
    cbv iota beta. simpl Frajola.strategy.
    destruct (Frajola.strategy f) as [n|] eqn:S.
    + destruct (calculate_at ss n _ (Some (h r)) _) as [st ss'].
      cbv iota beta. simpl. destruct b; simpl; shape.
    + cbv iota beta. simpl. destruct b; simpl; shape.
  - destruct (Frajola.strategy f) as [n|] eqn:S.
    + destruct (calculate_at ss n _ (Some (h r)) _) as [st ss'].
      cbv iota beta. simpl.
      destruct (Frajola.targetDetected f) eqn:D; simpl; shape.
    + cbv iota beta. simpl.
      destruct (Frajola.targetDetected f) eqn:D; simpl; shape.
Qed.

Lemma Frajola_update_target (f : Frajola.t) (h : Heap) (dt : R)
      (ds : option DetectionSystem.t) (ss : Strategies) :
  Frajola.target (fst (fst (Frajola_update f h dt ds ss))) = Frajola.target f
  /\ Frajola.strategy (fst (fst (Frajola_update f h dt ds ss)))
     = Frajola.strategy f.
Proof.
  destruct (Agent.active (Frajola.base f)) eqn:A.
  - destruct (Frajola.target f) as [r|] eqn:T.
    + destruct (Frajola_update_shape f h dt ds ss r A T) as (_ & T' & S' & _).
      cbv zeta in T', S'. now rewrite T', S', T.
    + unfold Frajola_update. rewrite A, T. simpl. now rewrite T.
  - unfold Frajola_update. rewrite A. simpl. tauto.
Qed.

(** The chaser's [update]: it does nothing at all for an inactive
    chaser or a chaser without target (the detection system and the
    strategies are not consulted); otherwise the chaser ends the frame
    with its forces cleared and the same [maxSpeed].  It never changes
    the chaser's target or strategy reference, and without a detection
    system it keeps the detection flag. *)
Theorem Frajola_update_contract (f : Frajola.t) (h : Heap) (dt : R)
        (ds : option DetectionSystem.t) (ss : Strategies) :
  let r := Frajola_update f h dt ds ss in
  let f' := fst (fst r) in
  (Agent.active (Frajola.base f) = false \/ Frajola.target f = None ->
   r = (f, ds, ss))
  /\ (Agent.active (Frajola.base f) = true -> Frajola.target f <> None ->
      Agent.acceleration (Frajola.base f') = Vector2D.zero
      /\ Agent.maxSpeed (Frajola.base f') = Agent.maxSpeed (Frajola.base f)
      /\ (ds = None ->
          Frajola.targetDetected f' = Frajola.targetDetected f))
  /\ Frajola.target f' = Frajola.target f
  /\ Frajola.strategy f' = Frajola.strategy f.
Proof.
  cbv zeta. split; [|split].
  - intros [A|T]; unfold Frajola_update.
    + now rewrite A.
    + rewrite T. simpl. now destruct (Agent.active (Frajola.base f)).
  - intros A T. destruct (Frajola.target f) as [r|] eqn:E; [|contradiction].
    destruct (Frajola_update_shape f h dt ds ss r A E)
      as ((a0 & A0 & M0 & B) & _ & _ & D).
    cbv zeta in B, D. rewrite B, <- M0, Agent_update_maxSpeed.
    repeat split; [|exact D].
    unfold Agent.update. rewrite A0; simpl.
    unfold Vector2D.multiply, Vector2D.zero; simpl. f_equal; ring.
  - apply Frajola_update_target.
Qed.

Lemma Frajola_update_contract_witness :
  let f := Frajola.constructor 700 450 9 in
  let h : Heap := fun _ => Ligeirinho.constructor 0 0 8 in
  (Agent.active (Frajola.base f) = false \/ Frajola.target f = None)
  /\ Frajola_update f h 1 (Some DetectionSystem.constructor)
       (mkStrategies DirectStrategy.constructor PredictiveStrategy.constructor
                     PatrolStrategy.constructor)
     = (f, Some DetectionSystem.constructor,
        mkStrategies DirectStrategy.constructor PredictiveStrategy.constructor
                     PatrolStrategy.constructor).
Proof.
  intros f h.
  split; [right; reflexivity|].
  apply (Frajola_update_contract f h 1 (Some DetectionSystem.constructor)
           (mkStrategies DirectStrategy.constructor
              PredictiveStrategy.constructor PatrolStrategy.constructor)).
  right. reflexivity.
Defined.

(** ** The simulation between frames *)

Lemma consistent_update (s : Simulation.t) (dt : R) :
  consistent s -> consistent (fst (Simulation.update s dt)).
Proof.
  intros [T P]. unfold consistent, Simulation.update.
  destruct (Simulation.captureInProgress s) eqn:C;
    [simpl; split; [exact T | now rewrite C]|].
  destruct (Simulation.escapeInProgress s) eqn:E;
    [simpl; split; [exact T | now rewrite C, E]|].
  simpl orb. cbv iota.
  pose proof (Frajola_update_target (Simulation.frajola s) (Simulation.heap s)
                1 (Some (Simulation.detectionSystem s))
                (Simulation.strategies s)) as [FT _].
  destruct (Frajola_update _ _ _ _ _) as [[f ds] ss]. simpl in FT.
  destruct (CollisionDetector.checkCapture _ _ _) as [[] cd].
  - simpl. split; [congruence|]. rewrite E, P. reflexivity.
  - destruct (Ligeirinho.hasEscaped _ _ _ _) as [[] l']; simpl.
    + split; [congruence|]. rewrite C, P. reflexivity.
    + split; [congruence|]. rewrite C, E. exact P.
Qed.

Lemma consistent_expire (s : Simulation.t) (d : Simulation.Draws) :
  consistent s -> consistent (expire s d).
Proof.
  intros [T P]. unfold consistent, expire.
  destruct (Simulation.captureInProgress s) eqn:C,
           (Simulation.escapeInProgress s) eqn:E;
    try contradiction; rewrite P.
  - split; [reflexivity|]. simpl. now rewrite E.
  - split; [reflexivity|]. simpl. now rewrite C.
  - split; [exact T | now rewrite C, E].
Qed.

Lemma consistent_reset (s : Simulation.t) (d : Simulation.Draws) :
  consistent s -> consistent (Simulation.reset s d).
Proof. intros [T P]. split; [reflexivity | exact P]. Qed.

(** From its construction on, whatever the frames, timers, resets,
    pauses and strategy changes: the simulation never has a capture and
    an escape pending at once, exactly one restart timer is pending
    while an outcome is (the one of that outcome) and none otherwise,
    and the chaser's target is the simulation's current target object. *)
Theorem simulation_stays_consistent
        (d0 : Simulation.Draws) (events : list Event) :
  consistent (fold_left react events (Simulation.constructor d0)).
Proof.
  assert (G : forall s, consistent s ->
                        consistent (fold_left react events s)).
  { induction events as [|e events IH]; intros s H; [exact H|].
    cbn [fold_left]. apply IH. destruct e; cbn [react].
    - now apply consistent_update.
    - now apply consistent_expire.
    - now apply consistent_reset.
    - exact H.
    - exact H. }
  apply G. split; reflexivity.
Qed.

(** [reset] while a restart is pending: the pending timer and the
    outcome flag survive the reset, so the loop stays frozen on the
    agents that the reset created, and when the stale timer fires those
    agents are replaced once more.  The reset also leaves the new chaser
    without a strategy, where the restart installs the current one. *)
Theorem reset_keeps_pending_restart
        (s : Simulation.t) (d d' : Simulation.Draws)
        (tm : Simulation.Timer) (delay : R) :
  Simulation.timers s = [(tm, delay)] ->
  Simulation.captureInProgress s || Simulation.escapeInProgress s = true ->
  let s1 := Simulation.reset s d in
  let s2 := expire s1 d' in
  Simulation.timers s1 = [(tm, delay)]
  /\ Simulation.update s1 1 = (s1, [])
  /\ Frajola.strategy (Simulation.frajola s1) = None
  /\ Simulation.ligeirinho s1 = Simulation.next s
  /\ Simulation.ligeirinho s2 = S (Simulation.next s)
  /\ Simulation.heap s2 (Simulation.ligeirinho s1) = targetOf s1
  /\ Frajola.strategy (Simulation.frajola s2)
     = Some (Simulation.currentStrategy s).
Proof.
  intros T F s1 s2.
  assert (T1 : Simulation.timers s1 = [(tm, delay)]) by exact T.
  repeat split.
  - exact T1.
  - unfold Simulation.update.
    change (Simulation.captureInProgress s1)
      with (Simulation.captureInProgress s).
    change (Simulation.escapeInProgress s1)
      with (Simulation.escapeInProgress s).
    now rewrite F.
  - unfold s2, expire. rewrite T1. destruct tm; reflexivity.
  - unfold s2, expire. rewrite T1. unfold targetOf.
    destruct tm; simpl; unfold heap_set;
      rewrite Nat.eqb_refl;
      destruct (Nat.eqb (Simulation.next s) (S (Simulation.next s))) eqn:Q;
      try reflexivity; apply Nat.eqb_eq in Q; lia.
  - unfold s2, expire. rewrite T1. destruct tm; reflexivity.
Qed.

Lemma reset_keeps_pending_restart_witness :
  let s := Simulation.handleCapture
             (Simulation.with_flags
                (Simulation.constructor (Simulation.mkDraws 0 0 0))
                true false) in
  Simulation.timers s = [(Simulation.restartAfterCapture, 2000)]
  /\ Simulation.captureInProgress s || Simulation.escapeInProgress s = true
  /\ Simulation.update (Simulation.reset s (Simulation.mkDraws 0 0 0)) 1
     = (Simulation.reset s (Simulation.mkDraws 0 0 0), []).
Proof.
  intros s.
  assert (T : Simulation.timers s = [(Simulation.restartAfterCapture, 2000)])
    by reflexivity.
  assert (F : Simulation.captureInProgress s || Simulation.escapeInProgress s
              = true) by reflexivity.
  split; [exact T|]. split; [exact F|].
  apply (reset_keeps_pending_restart s (Simulation.mkDraws 0 0 0)
           (Simulation.mkDraws 0 0 0) Simulation.restartAfterCapture 2000 T F).
Defined.

(** *** A frame in which the target is within reach and out of the arena *)

Lemma zero_plus_zero :
  Vector2D.add Vector2D.zero Vector2D.zero = Vector2D.zero.
Proof. unfold Vector2D.add, Vector2D.zero; simpl. f_equal; ring. Qed.

Lemma Agent_update_at_rest (a : Agent.t) (dt : R) :
  Agent.velocity a = Vector2D.zero ->
  Agent.acceleration a = Vector2D.zero ->
  Agent.update a dt = a.
Proof.
  destruct a as [[px py] v c sz ms mx mf act]; simpl. intros -> ->.
  unfold Agent.update; simpl. destruct act; simpl; [|reflexivity].
  unfold Agent.with_acceleration, Agent.with_position, Agent.with_velocity;
    simpl.
  rewrite zero_plus_zero, limit_zero.
  unfold Vector2D.add, Vector2D.multiply', Vector2D.multiply, Vector2D.zero;
    simpl.
  f_equal; f_equal; ring.
Qed.

Lemma chaserAtTests_base (s : Simulation.t) :
  Frajola.base (chaserAtTests s)
  = PhysicsEngine.constrainToBounds (Simulation.physicsEngine s)
      (Frajola.base
         (fst (fst (Frajola_update (Simulation.frajola s) (Simulation.heap s)
                      1 (Some (Simulation.detectionSystem s))
                      (Simulation.strategies s)))))
      (8 / 10).
Proof.
  unfold chaserAtTests.
  destruct (Frajola_update _ _ _ _ _) as [[f ds] ss]. reflexivity.
Qed.

Lemma Frajola_update_no_strategy (f : Frajola.t) (h : Heap) (dt : R)
      (ds : option DetectionSystem.t) (ss : Strategies) :
  Frajola.strategy f = None ->
  Frajola.base (fst (fst (Frajola_update f h dt ds ss)))
  = (if Agent.active (Frajola.base f)
     then match Frajola.target f with
          | Some _ => Agent.update (Frajola.base f) dt
          | None => Frajola.base f
          end
     else Frajola.base f).
Proof.
  intros S. unfold Frajola_update.
  destruct (Agent.active (Frajola.base f)); [|reflexivity].
  destruct (Frajola.target f) as [r|]; [|reflexivity]. unfold deref.
  destruct ds as [ds|].
  - destruct (DetectionSystem.detect _ _ _) as [d ds']. simpl. rewrite S.
    destruct d; reflexivity.
  - rewrite S. simpl. destruct (Frajola.targetDetected f); reflexivity.
Qed.

Lemma both_conditions_chaser :
  Agent.position (Frajola.base (chaserAtTests both_conditions))
  = Vector2D.mk 1550 450.
Proof.
  rewrite chaserAtTests_base, Frajola_update_no_strategy by reflexivity.
  unfold both_conditions.
  cbn [Simulation.frajola Simulation.physicsEngine Frajola.setTarget
       Frajola.base Frajola.constructor Frajola.target Agent.active Agent.constructor].
  rewrite Agent_update_at_rest by reflexivity.
  rewrite constrainToBounds_fixed; [reflexivity | |]; simpl;
    unfold CONFIG.chaser_size; js_cond; lra.
Qed.

Lemma both_conditions_target :
  Agent.active (Ligeirinho.base (targetAtTests both_conditions)) = true
  /\ Agent.position (Ligeirinho.base (targetAtTests both_conditions))
     = Vector2D.mk 1501 450
  /\ Ligeirinho.escapeAttempts (targetAtTests both_conditions) = 0%nat.
Proof.
  unfold targetAtTests, targetOf, both_conditions.
  cbn [Simulation.heap Simulation.ligeirinho].
  unfold Ligeirinho.update. rewrite Agent_update_at_rest by reflexivity.
  repeat split.
Qed.

Lemma both_conditions_hold :
  fst (captureTest both_conditions) = true
  /\ fst (escapeTest both_conditions) = true.
Proof.
  destruct both_conditions_target as (A & P & _).
  pose proof both_conditions_chaser as C.
  split.
  - unfold captureTest, CollisionDetector.checkCapture. rewrite A.
    cbn [negb]. unfold Agent.distanceTo, Vector2D.distanceTo.
    rewrite P, C. cbn [Vector2D.x Vector2D.y].
    replace ((1501 - 1550) * (1501 - 1550) + (450 - 450) * (450 - 450))
      with (49 * 49) by ring.
    rewrite sqrt_square by lra.
    unfold both_conditions.
    cbn [Simulation.collisionDetector CollisionDetector.captureDistance
         CollisionDetector.constructor].
    unfold CONFIG.physics_captureDistance. js_cond. reflexivity.
  - unfold escapeTest, Ligeirinho.hasEscaped. rewrite P.
    cbn [Vector2D.x Vector2D.y].
    unfold CONFIG.canvas_width, CONFIG.canvas_height,
      CONFIG.physics_boundaryMargin.
    js_cond. reflexivity.
Qed.

(** A frame in which both conditions hold: the capture is raised, the
    escape is not, and no escape attempt is counted on the target. *)
Lemma update_one_outcome_witness :
  fst (captureTest both_conditions) = true
  /\ fst (escapeTest both_conditions) = true
  /\ Simulation.captureInProgress
       (fst (Simulation.update both_conditions 1)) = true
  /\ Simulation.escapeInProgress
       (fst (Simulation.update both_conditions 1)) = false
  /\ Ligeirinho.escapeAttempts
       (targetOf (fst (Simulation.update both_conditions 1))) = 0%nat.
Proof.
  destruct both_conditions_hold as [Cp Es].
  split; [exact Cp|]. split; [exact Es|].
  destruct (update_one_outcome_capture_first both_conditions 1) as [H _].
  cbv zeta in H. simpl orb in H. cbv iota in H.
  destruct H as (_ & _ & _ & _ & _ & _ & _ & W).
  destruct (W Cp Es) as (W1 & W2 & W3).
  repeat split; [exact W1 | exact W2 | rewrite W3; reflexivity].
Defined.

(** ** StatsTracker *)

Lemma trimHistory_bounded (st : StatsTracker.t) :
  let st' := StatsTracker.trimHistory st in
  (length (StatsTracker.attemptHistory st')
   <= StatsTracker.maxHistoryLength st')%nat
  /\ StatsTracker.captures st' = StatsTracker.captures st
  /\ StatsTracker.captureTimes st' = StatsTracker.captureTimes st
  /\ StatsTracker.escapeTimes st' = StatsTracker.escapeTimes st
  /\ StatsTracker.attempts st' = StatsTracker.attempts st
  /\ exists dropped,
       StatsTracker.attemptHistory st
       = dropped ++ StatsTracker.attemptHistory st'.
Proof.
  cbv zeta. unfold StatsTracker.trimHistory.
  destruct (Nat.ltb _ _) eqn:E; simpl.
  - apply Nat.ltb_lt in E. rewrite length_skipn. repeat split; try lia.
    eexists. symmetry. apply firstn_skipn.
  - apply Nat.ltb_ge in E. repeat split; try lia. now exists [].
Qed.

(** Whatever calls are made on a fresh tracker, the number of captures
    is the number of recorded capture times and the attempt history
    never exceeds its capacity. *)
Theorem stats_tracker_invariants (calls : list StatsCall) :
  let st := fold_left stats_call calls StatsTracker.constructor in
  StatsTracker.captures st = length (StatsTracker.captureTimes st)
  /\ (length (StatsTracker.attemptHistory st)
      <= StatsTracker.maxHistoryLength st)%nat.
Proof.
  cbv zeta.
  assert (G : forall st,
             StatsTracker.captures st = length (StatsTracker.captureTimes st)
             /\ (length (StatsTracker.attemptHistory st)
                 <= StatsTracker.maxHistoryLength st)%nat ->
             StatsTracker.captures (fold_left stats_call calls st)
             = length (StatsTracker.captureTimes
                         (fold_left stats_call calls st))
             /\ (length (StatsTracker.attemptHistory
                           (fold_left stats_call calls st))
                 <= StatsTracker.maxHistoryLength
                      (fold_left stats_call calls st))%nat).
  { induction calls as [|c calls IH]; intros st H; [exact H|].
    cbn [fold_left]. apply IH. destruct H as [HC HL].
    destruct c; cbn [stats_call].
    - split; [exact HC | exact HL].
    - unfold StatsTracker.recordCapture. cbv zeta.
      match goal with
      | |- context [StatsTracker.trimHistory ?x] =>
          destruct (trimHistory_bounded x) as (B & C1 & C2 & _)
      end.
      cbv zeta in B, C1, C2. rewrite C1, C2. simpl.
      rewrite length_app. simpl. split; [lia | exact B].
    - unfold StatsTracker.recordEscape. cbv zeta.
      match goal with
      | |- context [StatsTracker.trimHistory ?x] =>
          destruct (trimHistory_bounded x) as (B & C1 & C2 & _)
      end.
      cbv zeta in B, C1, C2. rewrite C1, C2. simpl.
      split; [exact HC | exact B].
    - simpl. split; lia.
    - simpl. split; [reflexivity | exact HL]. }
  apply G. simpl. split; lia.
Qed.

(** Recording an outcome appends one entry to the history and then
    drops only the oldest entries: with a capacity of at least 1 the
    entry just recorded is always the newest one kept, and it carries
    the attempt number and the time since [startAttempt] in seconds. *)
Theorem recordCapture_keeps_newest
        (st : StatsTracker.t) (details : StatsTracker.Details) (now : R) :
  (1 <= StatsTracker.maxHistoryLength st)%nat ->
  let st' := StatsTracker.recordCapture st details now in
  exists e older,
    StatsTracker.attemptHistory st' = older ++ [e]
    /\ (exists dropped,
          StatsTracker.attemptHistory st = dropped ++ older)
    /\ StatsTracker.type e = StatsTracker.capture
    /\ StatsTracker.attemptNumber e = StatsTracker.attempts st
    /\ StatsTracker.duration e
       = (now - StatsTracker.currentAttemptStartTime st) / 1000
    /\ StatsTracker.captures st' = S (StatsTracker.captures st).
Proof.
  intros M. cbv zeta. unfold StatsTracker.recordCapture. cbv zeta.
  unfold StatsTracker.trimHistory. simpl.
  rewrite length_app. simpl length.
  set (h := StatsTracker.attemptHistory st).
  set (n := StatsTracker.maxHistoryLength st) in *.
  match goal with
  | |- context [h ++ [?x]] => set (e := x)
  end.
  destruct (Nat.ltb n (length h + 1)) eqn:E; simpl.
  - apply Nat.ltb_lt in E.
    exists e, (skipn (length h + 1 - n) h). repeat split.
    + rewrite skipn_app.
      replace (length h + 1 - n - length h)%nat with 0%nat by lia.
      reflexivity.
    + exists (firstn (length h + 1 - n) h). symmetry. apply firstn_skipn.
  - exists e, h. repeat split. now exists [].
Qed.

Lemma recordCapture_keeps_newest_witness :
  let st := StatsTracker.startAttempt StatsTracker.constructor 1000 in
  (1 <= StatsTracker.maxHistoryLength st)%nat
  /\ exists e older,
       StatsTracker.attemptHistory
         (StatsTracker.recordCapture st
            (StatsTracker.mkDetails (Some patrol) None None None None) 4000)
       = older ++ [e]
       /\ StatsTracker.duration e
          = (4000 - StatsTracker.currentAttemptStartTime st) / 1000.
Proof.
  intros st.
  assert (M : (1 <= StatsTracker.maxHistoryLength st)%nat) by (simpl; lia).
  split; [exact M|].
  destruct (recordCapture_keeps_newest st
              (StatsTracker.mkDetails (Some patrol) None None None None)
              4000 M) as (e & older & H & _ & _ & _ & D & _).
  exists e, older. split; [exact H | exact D].
Defined.
